(** * Coolify: the layout's [load] function and the settings route handlers

    A shallow embedding of [apps/ui/src/routes/__layout.svelte] (the [load]
    function of the application shell) and of the settings handlers
    ([listAllSettings] ... [deleteDockerRegistry]), followed by the
    properties the specification states about them.

    Conventions of the embedding.
    - A JavaScript string is a [string]; [undefined] is [None].
    - An [async] function is a function from the state it runs in to a
      result and the state it leaves: [Ok v] when the promise resolves to
      [v], [Throw e] when it rejects with [e] (or a synchronous step throws).
    - The relational store behind [prisma] is a record of tables, each a list
      of rows in the order the store returns them.
    - What the handlers import from [lib/common], from Node and from the
      client library is not part of the file: it is the interface
      [Externals] (server) and [Client] (browser). *)

From Stdlib Require Import String Ascii List ZArith Bool Lia.
Import ListNotations.

Local Open Scope string_scope.
Local Open Scope list_scope.

(** ** The JavaScript string operations the code calls *)

Module Js.

(** [if (s)] on a string: the empty string is falsy. *)
Definition truthy (s : string) : bool :=
  match s with EmptyString => false | String _ _ => true end.

(** [if (v)] on a value that is a string or [undefined]. *)
Definition truthyOpt (v : option string) : bool :=
  match v with Some s => truthy s | None => false end.

(** [if (n)] on a value that is a number or [undefined]: zero is falsy. *)
Definition truthyNum (v : option Z) : bool :=
  match v with Some n => negb (Z.eqb n 0) | None => false end.

(** [s.startsWith(p)]. *)
Definition startsWith (p s : string) : bool := String.prefix p s.

(** The characters of [s] after its first [n]. *)
Fixpoint drop (n : nat) (s : string) : string :=
  match n, s with
  | O, _ => s
  | S _, EmptyString => EmptyString
  | S n', String _ s' => drop n' s'
  end.

(** [s.replace(pat, rep)] for a string pattern: the first occurrence of
    [pat], scanning from the left, is replaced ([rep] holds no [$]). *)
Fixpoint replace (pat rep s : string) : string :=
  if String.prefix pat s then String.append rep (drop (String.length pat) s)
  else match s with
       | EmptyString => EmptyString
       | String a s' => String a (replace pat rep s')
       end.

(** [s.split(sep)] for a separator of one character. *)
Fixpoint split (sep : ascii) (s : string) : list string :=
  match s with
  | EmptyString => [EmptyString]
  | String a s' =>
      if Ascii.eqb a sep then EmptyString :: split sep s'
      else match split sep s' with
           | [] => [String a EmptyString]
           | piece :: pieces => String a piece :: pieces
           end
  end.

(** [xs[0]], with [undefined] printed as a template literal prints it. *)
Definition first (xs : list string) : string := hd "undefined" xs.

(** Does [c] occur in [s]? *)
Fixpoint occurs (c : ascii) (s : string) : bool :=
  match s with
  | EmptyString => false
  | String a s' => Ascii.eqb a c || occurs c s'
  end.

Definition newline : ascii := Ascii.ascii_of_nat 10.
Definition colon : ascii := ":"%char.
Definition comma : ascii := ","%char.

End Js.

(** ** Results and the monad of asynchronous code *)

Inductive Result (E A : Type) : Type :=
| Ok (value : A)
| Throw (error : E).
Arguments Ok {E A} value.
Arguments Throw {E A} error.

(** A computation over a state [S] that resolves or rejects. *)
Definition Async (S E A : Type) : Type := S -> Result E A * S.

Definition ret {S E A} (a : A) : Async S E A := fun s => (Ok a, s).

Definition throw {S E A} (e : E) : Async S E A := fun s => (Throw e, s).

Definition bind {S E A B} (c : Async S E A) (k : A -> Async S E B) : Async S E B :=
  fun s => match c s with
           | (Ok a, s') => k a s'
           | (Throw e, s') => (Throw e, s')
           end.

(** [try { body } catch (e) { handler e }]. *)
Definition tryCatch {S E A} (body : Async S E A) (handler : E -> Async S E A) : Async S E A :=
  fun s => match body s with
           | (Ok a, s') => (Ok a, s')
           | (Throw e, s') => handler e s'
           end.

(** [if (c) { body }] for a body run for its effect. *)
Definition when {S E} (c : bool) (body : Async S E unit) : Async S E unit :=
  if c then body else ret tt.

(** A synchronous step that may throw. *)
Definition liftResult {S E A} (r : Result E A) : Async S E A := fun s => (r, s).


Declare Scope async_scope.
Delimit Scope async_scope with async.
Notation "x <- c ;; k" := (bind c (fun x => k))
  (at level 61, c at next level, right associativity) : async_scope.
Notation "c ;; k" := (bind c (fun _ => k))
  (at level 61, right associativity) : async_scope.
Local Open Scope async_scope.

(** ** The layout's [load] function (lines 3-63) *)

Module Layout.

(** [error.code] as the [catch] uses it; [E] is the type of what a call
    may throw. *)
Inductive Code (E : Type) : Type :=
| NoCode                       (* [undefined] or [null] *)
| TextCode (text : string)     (* a string *)
| OtherCode (startsWith : option (Result E bool)).
    (* any other value: [None] when its [startsWith] cannot be called, else
       what the call does: the truth value of its answer, or a throw *)

Arguments NoCode {E}.
Arguments TextCode {E} text.
Arguments OtherCode {E} startsWith.

(** What the [catch] may be handed ([error: any]): [undefined], [null], or
    another value. Of such a value the code reads [error.code] and
    [error.status] ([Some n] when that is the integer [n], [None] for
    anything else) and, through [new Error(error)], the text of
    [String(error)]; each read may itself throw (a getter, a [toString] of
    the value's own, a symbol). *)
#[local] Set Warnings "-register-all".
Inductive ApiError : Type :=
| Undefined
| Null
| Value (code : Result ApiError (Code ApiError))
        (status : Result ApiError (option Z))
        (text : Result ApiError string).

(** The browser side the function runs against. *)
Class Client : Type := {
  Browser : Type;                       (* cookie jar and network *)
  Payload : Type;                       (* a JSON answer of the API *)
  get : string -> Async Browser ApiError Payload;          (* [get] of [$lib/api] *)
  Cookies_get : string -> Browser -> option string;        (* [Cookies.get] *)
  Cookies_remove : string -> Browser -> Browser;           (* [Cookies.remove] *)
  (** The text of the [TypeError] the engine raises when the [catch] reads
      [status] of [undefined] or [null], or calls a [startsWith] that is
      not there. *)
  typeErrorText : ApiError -> string
}.

Section Load.
Context {C : Client}.

(** [props]: the spread [...response] when there is one, and [baseSettings]. *)
Record Props : Type := { response : option Payload; baseSettings : Payload }.

(** The object [load] returns; a key the literal leaves out is [None]. *)
Record LoadOutput : Type := {
  out_status : option Z;
  out_redirect : option string;
  out_error : option string;               (* the message of [new Error(error)] *)
  out_props : Props;
  out_stuff : option Payload
}.

Definition onlyProps (bs : Payload) : LoadOutput :=
  {| out_status := None; out_redirect := None; out_error := None;
     out_props := {| response := None; baseSettings := bs |}; out_stuff := None |}.

Definition redirectToLogin (bs : Payload) : LoadOutput :=
  {| out_status := Some 302%Z; out_redirect := Some "/login"; out_error := None;
     out_props := {| response := None; baseSettings := bs |}; out_stuff := None |}.

Definition signedIn (r bs : Payload) : LoadOutput :=
  {| out_status := None; out_redirect := None; out_error := None;
     out_props := {| response := Some r; baseSettings := bs |}; out_stuff := Some r |}.

(** The message of [new Error(error)]: [String(error)], and the empty
    text for [undefined]. *)
Definition newError (e : ApiError) : Result ApiError string :=
  match e with
  | Undefined => Ok ""
  | Null => Ok "null"
  | Value _ _ text => text
  end.

Definition serverError (message : string) (bs : Payload) : LoadOutput :=
  {| out_status := Some 500%Z; out_redirect := None; out_error := Some message;
     out_props := {| response := None; baseSettings := bs |}; out_stuff := None |}.

(** An error of the usual make: its [code] is a string or missing, its
    [status] an integer or missing, and it turns into the text [text]. *)
Definition plain (code : option string) (status : option Z) (text : string) : ApiError :=
  Value (Ok (match code with Some c => TextCode c | None => NoCode end))
        (Ok status) (Ok text).

(** The [TypeError] the engine raises while the [catch] works on [e]: it
    has no [code] and no [status]. *)
Definition raised (e : ApiError) : ApiError :=
  Value (Ok NoCode) (Ok None) (Ok (typeErrorText e)).

(** [error.status === 401], on a value that is neither [undefined] nor
    [null]. *)
Definition is401 (status : Result ApiError (option Z)) : Result ApiError bool :=
  match status with
  | Throw t => Throw t
  | Ok (Some n) => Ok (Z.eqb n 401)
  | Ok None => Ok false
  end.

(** [error?.code?.startsWith('FAST_JWT') || error.status === 401]. On
    [undefined] and [null] the left side is [undefined] and reading
    [error.status] throws. A nullish code makes the left side [undefined];
    a string is asked for its prefix; on any other code the call of
    [startsWith] does what that value makes it do, and throws where there
    is nothing to call. The right side is read only when the left side is
    falsy. *)
Definition rejectedToken (e : ApiError) : Result ApiError bool :=
  match e with
  | Undefined | Null => Throw (raised e)
  | Value (Throw t) _ _ => Throw t
  | Value (Ok NoCode) status _ => is401 status
  | Value (Ok (TextCode c)) status _ =>
      if Js.startsWith "FAST_JWT" c then Ok true else is401 status
  | Value (Ok (OtherCode None)) _ _ => Throw (raised e)
  | Value (Ok (OtherCode (Some (Throw t)))) _ _ => Throw t
  | Value (Ok (OtherCode (Some (Ok true)))) _ _ => Ok true
  | Value (Ok (OtherCode (Some (Ok false)))) status _ => is401 status
  end.

Definition readCookie (name : string) : Async Browser ApiError (option string) :=
  fun b => (Ok (Cookies_get name b), b).

Definition removeCookie (name : string) : Async Browser ApiError unit :=
  fun b => (Ok tt, Cookies_remove name b).

Definition load (pathname : string) : Async Browser ApiError LoadOutput :=
  bs <- get "/base" ;;
  tryCatch
    (token <- readCookie "token" ;;
     if Js.truthyOpt token then
       r <- get "/user" ;;
       ret (signedIn r bs)
     else if negb (pathname =? "/login") && negb (pathname =? "/register")
     then ret (redirectToLogin bs)
     else ret (onlyProps bs))
    (fun error =>
       let tail : Async Browser ApiError LoadOutput :=
         if negb (pathname =? "/login") then ret (redirectToLogin bs)
         else (message <- liftResult (newError error) ;;
               ret (serverError message bs)) in
       rejected <- liftResult (rejectedToken error) ;;
       if (rejected : bool) then
         removeCookie "token" ;;
         if negb (pathname =? "/login") then ret (redirectToLogin bs) else tail
       else tail).

End Load.
End Layout.

(** ** The rows of the relational store *)

Module Setting.
Record t : Type := {
  id : string;
  fqdn : option string;
  doNotTrack : bool;
  isRegistrationEnabled : bool;
  dualCerts : bool;
  isAutoUpdateEnabled : bool;
  isDNSCheckEnabled : bool;
  DNSServers : option string;
  isAPIDebuggingEnabled : bool;
  proxyDefaultRedirect : option string;
  minPort : Z;
  maxPort : Z
}.
End Setting.

Module SshKey.
Record t : Type := {
  id : string;
  name : string;
  privateKey : string;
  createdAt : Z;
  teamId : option string
}.
End SshKey.

Module Certificate.
Record t : Type := {
  id : string;
  cert : string;
  createdAt : Z;
  teamId : option string
}.
End Certificate.

Module DockerRegistry.
Record t : Type := {
  id : string;
  name : string;
  url : string;
  username : option string;
  password : option string;
  isSystemWide : bool;
  teamId : option string
}.
End DockerRegistry.

Module Application.
Record t : Type := {
  id : string;
  dockerRegistryId : option string
}.
End Application.

(** The store: one list of rows per table the handlers touch. *)
Record DB : Type := {
  settings : list Setting.t;
  sshKeys : list SshKey.t;
  certificates : list Certificate.t;
  dockerRegistries : list DockerRegistry.t;
  applications : list Application.t
}.

(** A column compared with a string of the request: a [NULL] matches none. *)
Definition columnIs (column : option string) (wanted : string) : bool :=
  match column with Some v => String.eqb v wanted | None => false end.

(** What handler code throws and catches: an object read through its
    [status] and [message] keys ([catch ({ status, message })]). *)
Record Thrown : Type := { status : option Z; message : option string }.

Definition typeError (text : string) : Thrown :=
  {| status := None; message := Some text |}.

(** Reading a property of [undefined]: [find(...)] found no line and
    [.replace] is called on its result. *)
Definition replaceOfUndefined : Thrown :=
  typeError "Cannot read properties of undefined (reading 'replace')".

(** Destructuring [null]: [const { id } = await listSettings()]. *)
Definition destructureNull (key : string) : Thrown :=
  typeError (String.append "Cannot destructure property '"
              (String.append key "' of '(intermediate value)' as it is null.")).

Definition domainAlreadyConfigured : Thrown :=
  {| status := None; message := Some "Domain already configured" |}.

Definition nameAlreadyUsed : Thrown :=
  {| status := None; message := Some "Name already used. Choose another one please." |}.

(** What the store does, when a row is deleted, to the rows that refer to
    it: the [onDelete] of a relation of the schema. *)
Inductive ReferentialAction : Type :=
| Cascade                                  (* they are deleted too *)
| Restrict                                 (* the delete is refused *)
| NoAction                                 (* the database refuses the delete *)
| SetNull                                  (* their reference becomes [NULL] *)
| SetDefault (value : option string).      (* it becomes the column's default *)

(** ** What the handlers import ([lib/common], Node, Sentry, the store's
    own state): the interface they run against *)

Class Externals : Type := {
  (** Everything outside the tables: the network, the proxy container, the
      clock, and whether the store answers. *)
  Ext : Type;
  (** A value an imported helper returns and the handler passes on. *)
  Json : Type;
  (** Asked at every [prisma] call: the store may refuse it (connection,
      timeout, a constraint on the values written); a refused call changes
      no table. *)
  storeFault : Ext -> option Thrown * Ext;
  (** What [update] throws when its [where] names no row. *)
  recordNotFound : Thrown;
  (** The relation from [Application.dockerRegistryId] to [DockerRegistry]
      is declared in the schema of the store, which is not part of the
      file: what it does on the delete of a registry is taken as given. *)
  registryOnDelete : ReferentialAction;
  (** What a delete throws when the relation refuses it. *)
  foreignKeyViolation : Thrown;
  (** The defaults of a created row: its [id] and [createdAt]. *)
  rowDefaults : Ext -> (string * Z) * Ext;
  errorHandler : option Z -> option string -> Ext -> Result Thrown Json * Ext;
  listSettings : DB -> Ext -> Result Thrown (option Setting.t) * Ext;
  encrypt : string -> string;
  decrypt : string -> string;
  isDev : bool;
  sentryDSN : string;
  version : string;
  isDomainConfigured : string -> option string -> DB -> Ext -> Result Thrown bool * Ext;
  checkDomainsIsValidInDNS : string -> option string -> bool -> Ext -> Result Thrown Json * Ext;
  isDNSValid : string -> string -> Ext -> Result Thrown unit * Ext;
  asyncExecShell : string -> Ext -> Result Thrown unit * Ext;
  dns_setServers : list string -> Ext -> Result Thrown unit * Ext;
  dns_resolve : string -> Ext -> Result Thrown (list string) * Ext;
  Sentry_init : string -> string -> string -> Ext -> Result Thrown unit * Ext;
  console_log : string -> Ext -> Ext;
  (** [new X509Certificate(pem).subject]; the constructor throws on a
      certificate it cannot parse. *)
  x509_subject : string -> Result Thrown string;
  toLowerCase : string -> string
}.

(** ** Requests *)

Record User : Type := { teamId : string }.

Record Request (Body Params : Type) : Type := {
  user : User;
  hostname : string;
  body : Body;
  params : Params
}.
Arguments user {Body Params} _.
Arguments hostname {Body Params} _.
Arguments body {Body Params} _.
Arguments params {Body Params} _.

Module SaveSettings.
Record Body : Type := {
  doNotTrack : option bool;
  fqdn : option string;
  isAPIDebuggingEnabled : option bool;
  isRegistrationEnabled : option bool;
  dualCerts : option bool;
  minPort : option Z;
  maxPort : option Z;
  isAutoUpdateEnabled : option bool;
  isDNSCheckEnabled : option bool;
  DNSServers : option string;
  proxyDefaultRedirect : option string
}.
End SaveSettings.

Module DeleteDomain.
Record Body : Type := { fqdn : string }.
End DeleteDomain.

Module CheckDomain.
Record Body : Type := {
  fqdn : option string;
  forceSave : bool;
  dualCerts : bool;
  isDNSCheckEnabled : bool
}.
Record Params : Type := { id : string }.
End CheckDomain.

Module CheckDNS.
Record Params : Type := { domain : string }.
End CheckDNS.

Module SaveSSHKey.
Record Body : Type := { privateKey : string; name : string }.
End SaveSSHKey.

Module OnlyIdInBody.
Record Body : Type := { id : string }.
End OnlyIdInBody.

Module SetDefaultRegistry.
Record Body : Type := { id : string; username : option string; password : option string }.
End SetDefaultRegistry.

Module AddDefaultRegistry.
Record Body : Type := {
  name : string;
  url : string;
  username : option string;
  password : option string;
  isSystemWide : bool
}.
End AddDefaultRegistry.

(** ** What [listAllSettings] returns *)

Record KeyEntry : Type := {
  key_id : string;
  key_name : string;
  key_privateKey : string;
  key_createdAt : Z
}.

Record CertEntry : Type := {
  commonName : string;
  cert_id : string;
  cert_createdAt : Z
}.

Record Registries : Type := {
  public : list DockerRegistry.t;
  private : list DockerRegistry.t
}.

Record AllSettings : Type := {
  all_settings : option Setting.t;
  all_certificates : list CertEntry;
  all_sshKeys : list KeyEntry;
  all_registries : Registries
}.

(** ** The store client ([prisma]) *)

(** A table of the store: how to read its rows and how to put them back. *)
Record Table (Row : Type) : Type := {
  rows : DB -> list Row;
  put : DB -> list Row -> DB
}.
Arguments rows {Row} _ _.
Arguments put {Row} _ _ _.

Definition settingT : Table Setting.t :=
  {| rows := settings;
     put d l := {| settings := l; sshKeys := sshKeys d; certificates := certificates d;
                   dockerRegistries := dockerRegistries d; applications := applications d |} |}.

Definition sshKeyT : Table SshKey.t :=
  {| rows := sshKeys;
     put d l := {| settings := settings d; sshKeys := l; certificates := certificates d;
                   dockerRegistries := dockerRegistries d; applications := applications d |} |}.

Definition certificateT : Table Certificate.t :=
  {| rows := certificates;
     put d l := {| settings := settings d; sshKeys := sshKeys d; certificates := l;
                   dockerRegistries := dockerRegistries d; applications := applications d |} |}.

Definition dockerRegistryT : Table DockerRegistry.t :=
  {| rows := dockerRegistries;
     put d l := {| settings := settings d; sshKeys := sshKeys d; certificates := certificates d;
                   dockerRegistries := l; applications := applications d |} |}.

Definition applicationT : Table Application.t :=
  {| rows := applications;
     put d l := {| settings := settings d; sshKeys := sshKeys d; certificates := certificates d;
                   dockerRegistries := dockerRegistries d; applications := l |} |}.

(** The first row [matches] selects is rewritten by [data]: what [update]
    does to the one row its unique [where] names. *)
Fixpoint updateFirst {Row} (matches : Row -> bool) (data : Row -> Row) (l : list Row) : list Row :=
  match l with
  | [] => []
  | r :: rest => if matches r then data r :: rest else r :: updateFirst matches data rest
  end.

(** Every row [matches] selects is rewritten by [data]. *)
Definition updateAll {Row} (matches : Row -> bool) (data : Row -> Row) (l : list Row) : list Row :=
  map (fun r => if matches r then data r else r) l.

(** The rows [matches] does not select. *)
Definition deleteAll {Row} (matches : Row -> bool) (l : list Row) : list Row :=
  filter (fun r => negb (matches r)) l.

Section Handlers.
Context {X : Externals}.

(** The state a handler runs in: the tables and everything outside them. *)
Record World : Type := { db : DB; ext : Ext }.

Definition M (A : Type) : Type := Async World Thrown A.

(** A call that leaves the tables alone. *)
Definition outside {A} (f : Ext -> Result Thrown A * Ext) : M A :=
  fun w => let (r, x) := f (ext w) in (r, {| db := db w; ext := x |}).

(** A helper of [lib/common] that reads the tables. *)
Definition reading {A} (f : DB -> Ext -> Result Thrown A * Ext) : M A :=
  fun w => let (r, x) := f (db w) (ext w) in (r, {| db := db w; ext := x |}).

(** An effect outside the tables that does not throw. *)
Definition effect (f : Ext -> Ext) : M unit :=
  fun w => (Ok tt, {| db := db w; ext := f (ext w) |}).

(** One call of the store client: refused, or run on the tables. *)
Definition storeCall {A} (f : DB -> Result Thrown A * DB) : M A :=
  fun w =>
    let (fault, x) := storeFault (ext w) in
    match fault with
    | Some e => (Throw e, {| db := db w; ext := x |})
    | None => let (r, d) := f (db w) in (r, {| db := d; ext := x |})
    end.

Definition findMany {Row} (T : Table Row) (matches : Row -> bool) : M (list Row) :=
  storeCall (fun d => (Ok (filter matches (rows T d)), d)).

Definition update {Row} (T : Table Row) (matches : Row -> bool) (data : Row -> Row) : M unit :=
  storeCall (fun d =>
    if existsb matches (rows T d)
    then (Ok tt, put T d (updateFirst matches data (rows T d)))
    else (Throw recordNotFound, d)).

Definition updateMany {Row} (T : Table Row) (matches : Row -> bool) (data : Row -> Row) : M unit :=
  storeCall (fun d => (Ok tt, put T d (updateAll matches data (rows T d)))).

(** [deleteMany] on a table whose rows no table of the model refers to. *)
Definition deleteMany {Row} (T : Table Row) (matches : Row -> bool) : M unit :=
  storeCall (fun d => (Ok tt, put T d (deleteAll matches (rows T d)))).

(** An application that refers to one of the [removed] registries. *)
Definition refersTo (removed : list DockerRegistry.t) (a : Application.t) : bool :=
  existsb (fun r => columnIs (Application.dockerRegistryId a) (DockerRegistry.id r)) removed.

Definition withRegistry (v : option string) (a : Application.t) : Application.t :=
  {| Application.id := Application.id a; Application.dockerRegistryId := v |}.

(** A reference the relation accepts: [NULL], or the id of a stored registry. *)
Definition refersToOneOf (kept : list DockerRegistry.t) (v : option string) : bool :=
  match v with
  | None => true
  | Some i => existsb (fun r => String.eqb (DockerRegistry.id r) i) kept
  end.

(** What the relation makes of the applications when the [removed]
    registries are deleted and the [kept] ones stay. *)
Definition referentialAction (removed kept : list DockerRegistry.t)
    (apps : list Application.t) : Result Thrown (list Application.t) :=
  match registryOnDelete with
  | Cascade => Ok (deleteAll (refersTo removed) apps)
  | Restrict | NoAction =>
      if existsb (refersTo removed) apps then Throw foreignKeyViolation else Ok apps
  | SetNull => Ok (updateAll (refersTo removed) (withRegistry None) apps)
  | SetDefault v =>
      if existsb (refersTo removed) apps && negb (refersToOneOf kept v)
      then Throw foreignKeyViolation
      else Ok (updateAll (refersTo removed) (withRegistry v) apps)
  end.

(** [prisma.dockerRegistry.deleteMany]: the rows [matches] selects are
    deleted and the relation acts on the applications, or the relation
    refuses and nothing is changed. *)
Definition dockerRegistry_deleteMany (matches : DockerRegistry.t -> bool) : M unit :=
  storeCall (fun d =>
    let removed := filter matches (dockerRegistries d) in
    let kept := deleteAll matches (dockerRegistries d) in
    match referentialAction removed kept (applications d) with
    | Throw e => (Throw e, d)
    | Ok apps => (Ok tt, put applicationT (put dockerRegistryT d kept) apps)
    end).

(** [create]: the row is built from the defaults the store picks and added
    after the rows already there. *)
Definition create {Row} (T : Table Row) (build : string -> Z -> Row) : M unit :=
  fun w =>
    let (fault, x) := storeFault (ext w) in
    match fault with
    | Some e => (Throw e, {| db := db w; ext := x |})
    | None =>
        let (defaults, x') := rowDefaults x in
        (Ok tt, {| db := put T (db w) (rows T (db w) ++ [build (fst defaults) (snd defaults)]);
                   ext := x' |})
    end.

(** ** What a handler returns *)

Inductive Response : Type :=
| Object (o : AllSettings)                 (* the object [listAllSettings] builds *)
| Empty                                    (* [{}] *)
| Passed (j : Json)                        (* the return value of a helper *)
| Reply (code : Z)                         (* [reply.code(c).send()] *)
| Redirect (code : Z) (url : option string).  (* [reply.redirect(c, url)] *)

(** [catch ({ status, message }) { return errorHandler({ status, message }) }]. *)
Definition toErrorHandler (e : Thrown) : M Response :=
  j <- outside (errorHandler (status e) (message e)) ;;
  ret (Passed j).

(** ** [listAllSettings] (lines 500-544) *)

(** Modelled from the spec: [encrypt] and [decrypt] are imported from
    [lib/common], which is not part of the file; the specification has
    them as the encryption and decryption of stored secrets, which asks of
    them that a secret comes back as it was given:
    [decrypt(encrypt(p)) = p]. *)
Definition decryptUndoesEncrypt : Prop := forall p : string, decrypt (encrypt p) = p.

Definition decryptPassword (r : DockerRegistry.t) : DockerRegistry.t :=
  if Js.truthyOpt (DockerRegistry.password r)
  then {| DockerRegistry.id := DockerRegistry.id r;
          DockerRegistry.name := DockerRegistry.name r;
          DockerRegistry.url := DockerRegistry.url r;
          DockerRegistry.username := DockerRegistry.username r;
          DockerRegistry.password := option_map decrypt (DockerRegistry.password r);
          DockerRegistry.isSystemWide := DockerRegistry.isSystemWide r;
          DockerRegistry.teamId := DockerRegistry.teamId r |}
  else r.

Definition unencryptedKey (k : SshKey.t) : KeyEntry :=
  {| key_id := SshKey.id k; key_name := SshKey.name k;
     key_privateKey := decrypt (SshKey.privateKey k); key_createdAt := SshKey.createdAt k |}.

(** One turn of the loop over the certificates (lines 528-529). *)
Definition certEntry (c : Certificate.t) : Result Thrown CertEntry :=
  match x509_subject (Certificate.cert c) with
  | Throw e => Throw e
  | Ok subject =>
      match find (Js.startsWith "CN=") (Js.split Js.newline subject) with
      | None => Throw replaceOfUndefined
      | Some line =>
          Ok {| commonName := Js.replace "CN=" "" line;
                cert_id := Certificate.id c;
                cert_createdAt := Certificate.createdAt c |}
      end
  end.

(** The loop: entries are pushed in order, the first throw ends it. *)
Fixpoint certEntries (cs : list Certificate.t) : Result Thrown (list CertEntry) :=
  match cs with
  | [] => Ok []
  | c :: rest =>
      match certEntry c with
      | Throw e => Throw e
      | Ok entry =>
          match certEntries rest with
          | Throw e => Throw e
          | Ok entries => Ok (entry :: entries)
          end
      end
  end.

Definition ofTeam {Row} (team : Row -> option string) (t : string) (r : Row) : bool :=
  columnIs (team r) t.

Definition listAllSettings_try (request : Request unit unit) : M Response :=
  let teamId := teamId (user request) in
  settings <- reading listSettings ;;
  sshKeys <- findMany sshKeyT (ofTeam SshKey.teamId teamId) ;;
  publicRegistries <- findMany dockerRegistryT DockerRegistry.isSystemWide ;;
  privateRegistries <- findMany dockerRegistryT
      (fun r => ofTeam DockerRegistry.teamId teamId r && negb (DockerRegistry.isSystemWide r)) ;;
  let publicRegistries := map decryptPassword publicRegistries in
  let privateRegistries := map decryptPassword privateRegistries in
  let unencryptedKeys :=
    if Nat.ltb 0 (List.length sshKeys) then map unencryptedKey sshKeys else [] in
  certificates <- findMany certificateT (ofTeam Certificate.teamId teamId) ;;
  cns <- liftResult (certEntries certificates) ;;
  ret (Object {| all_settings := settings;
                 all_certificates := cns;
                 all_sshKeys := unencryptedKeys;
                 all_registries := {| public := publicRegistries;
                                      private := privateRegistries |} |}).

Definition listAllSettings (request : Request unit unit) : M Response :=
  tryCatch (listAllSettings_try request) toErrorHandler.

(** ** [saveSettings] (lines 545-584) *)

(** A key of [data] that is [undefined] leaves its column as it is. *)
Definition orKeep {A} (new : option A) (old : A) : A :=
  match new with Some v => v | None => old end.

Definition orKeepNullable {A} (new : option A) (old : option A) : option A :=
  match new with Some v => Some v | None => old end.

(** [data] of the first [update] (line 563). *)
Definition writeFlags (b : SaveSettings.Body) (s : Setting.t) : Setting.t :=
  {| Setting.id := Setting.id s;
     Setting.fqdn := Setting.fqdn s;
     Setting.doNotTrack := orKeep (SaveSettings.doNotTrack b) (Setting.doNotTrack s);
     Setting.isRegistrationEnabled :=
       orKeep (SaveSettings.isRegistrationEnabled b) (Setting.isRegistrationEnabled s);
     Setting.dualCerts := orKeep (SaveSettings.dualCerts b) (Setting.dualCerts s);
     Setting.isAutoUpdateEnabled :=
       orKeep (SaveSettings.isAutoUpdateEnabled b) (Setting.isAutoUpdateEnabled s);
     Setting.isDNSCheckEnabled :=
       orKeep (SaveSettings.isDNSCheckEnabled b) (Setting.isDNSCheckEnabled s);
     Setting.DNSServers := orKeepNullable (SaveSettings.DNSServers b) (Setting.DNSServers s);
     Setting.isAPIDebuggingEnabled :=
       orKeep (SaveSettings.isAPIDebuggingEnabled b) (Setting.isAPIDebuggingEnabled s);
     Setting.proxyDefaultRedirect := Setting.proxyDefaultRedirect s;
     Setting.minPort := Setting.minPort s;
     Setting.maxPort := Setting.maxPort s |}.

(** [data: { fqdn }] (line 566) and [data: { fqdn: null }] (line 598). *)
Definition writeFqdn (v : option string) (s : Setting.t) : Setting.t :=
  {| Setting.id := Setting.id s;
     Setting.fqdn := v;
     Setting.doNotTrack := Setting.doNotTrack s;
     Setting.isRegistrationEnabled := Setting.isRegistrationEnabled s;
     Setting.dualCerts := Setting.dualCerts s;
     Setting.isAutoUpdateEnabled := Setting.isAutoUpdateEnabled s;
     Setting.isDNSCheckEnabled := Setting.isDNSCheckEnabled s;
     Setting.DNSServers := Setting.DNSServers s;
     Setting.isAPIDebuggingEnabled := Setting.isAPIDebuggingEnabled s;
     Setting.proxyDefaultRedirect := Setting.proxyDefaultRedirect s;
     Setting.minPort := Setting.minPort s;
     Setting.maxPort := Setting.maxPort s |}.

(** [data: { proxyDefaultRedirect }] (line 568). *)
Definition writeProxyDefaultRedirect (v : option string) (s : Setting.t) : Setting.t :=
  {| Setting.id := Setting.id s;
     Setting.fqdn := Setting.fqdn s;
     Setting.doNotTrack := Setting.doNotTrack s;
     Setting.isRegistrationEnabled := Setting.isRegistrationEnabled s;
     Setting.dualCerts := Setting.dualCerts s;
     Setting.isAutoUpdateEnabled := Setting.isAutoUpdateEnabled s;
     Setting.isDNSCheckEnabled := Setting.isDNSCheckEnabled s;
     Setting.DNSServers := Setting.DNSServers s;
     Setting.isAPIDebuggingEnabled := Setting.isAPIDebuggingEnabled s;
     Setting.proxyDefaultRedirect := orKeepNullable v (Setting.proxyDefaultRedirect s);
     Setting.minPort := Setting.minPort s;
     Setting.maxPort := Setting.maxPort s |}.

(** [data: { minPort, maxPort }] (line 570). *)
Definition writePorts (lo hi : option Z) (s : Setting.t) : Setting.t :=
  {| Setting.id := Setting.id s;
     Setting.fqdn := Setting.fqdn s;
     Setting.doNotTrack := Setting.doNotTrack s;
     Setting.isRegistrationEnabled := Setting.isRegistrationEnabled s;
     Setting.dualCerts := Setting.dualCerts s;
     Setting.isAutoUpdateEnabled := Setting.isAutoUpdateEnabled s;
     Setting.isDNSCheckEnabled := Setting.isDNSCheckEnabled s;
     Setting.DNSServers := Setting.DNSServers s;
     Setting.isAPIDebuggingEnabled := Setting.isAPIDebuggingEnabled s;
     Setting.proxyDefaultRedirect := Setting.proxyDefaultRedirect s;
     Setting.minPort := orKeep lo (Setting.minPort s);
     Setting.maxPort := orKeep hi (Setting.maxPort s) |}.

Definition settingId (i : string) (s : Setting.t) : bool := String.eqb (Setting.id s) i.

(** [const { key } = await listSettings()]. *)
Definition destructure {A} (key : string) (project : Setting.t -> A) (s : option Setting.t) : M A :=
  match s with
  | Some row => ret (project row)
  | None => throw (destructureNull key)
  end.

(** [doNotTrack === false]. *)
Definition isFalse (v : option bool) : bool :=
  match v with Some false => true | _ => false end.

Definition saveSettings_try (request : Request SaveSettings.Body unit) : M Response :=
  let b := body request in
  s <- reading listSettings ;;
  id <- destructure "id" Setting.id s ;;
  update settingT (settingId id) (writeFlags b) ;;
  when (Js.truthyOpt (SaveSettings.fqdn b))
    (update settingT (settingId id) (writeFqdn (SaveSettings.fqdn b))) ;;
  update settingT (settingId id) (writeProxyDefaultRedirect (SaveSettings.proxyDefaultRedirect b)) ;;
  when (Js.truthyNum (SaveSettings.minPort b) && Js.truthyNum (SaveSettings.maxPort b))
    (update settingT (settingId id)
       (writePorts (SaveSettings.minPort b) (SaveSettings.maxPort b))) ;;
  when (isFalse (SaveSettings.doNotTrack b))
    (outside (Sentry_init sentryDSN (if isDev then "development" else "production") version) ;;
     effect (console_log "Sentry initialized")) ;;
  ret (Reply 201).

Definition saveSettings (request : Request SaveSettings.Body unit) : M Response :=
  tryCatch (saveSettings_try request) toErrorHandler.

(** ** [deleteDomain] (lines 585-603) *)

Definition deleteDomain_try (request : Request DeleteDomain.Body unit) : M Response :=
  let fqdn := DeleteDomain.fqdn (body request) in
  s <- reading listSettings ;;
  DNSServers <- destructure "DNSServers" Setting.DNSServers s ;;
  when (Js.truthyOpt DNSServers)
    (outside (dns_setServers (Js.split Js.comma (orKeep DNSServers "")))) ;;
  ip <- tryCatch (r <- outside (dns_resolve fqdn) ;; ret (Some r)) (fun _ => ret None) ;;
  update settingT (fun row => columnIs (Setting.fqdn row) fqdn) (writeFqdn None) ;;
  ret (Redirect 302
         (match ip with
          | Some addresses =>
              Some (String.append "http://" (String.append (Js.first addresses) ":3000/settings"))
          | None => None
          end)).

Definition deleteDomain (request : Request DeleteDomain.Body unit) : M Response :=
  tryCatch (deleteDomain_try request) toErrorHandler.

(** ** [checkDomain] (lines 605-622) and [checkDNS] (lines 623-631) *)

(** [if (fqdn) fqdn = fqdn.toLowerCase()]. *)
Definition lowered (fqdn : option string) : option string :=
  if Js.truthyOpt fqdn then option_map toLowerCase fqdn else fqdn.

Definition checkDomain_try (request : Request CheckDomain.Body CheckDomain.Params) : M Response :=
  let id := CheckDomain.id (params request) in
  let b := body request in
  let fqdn := lowered (CheckDomain.fqdn b) in
  found <- reading (isDomainConfigured id fqdn) ;;
  (if found then throw domainAlreadyConfigured else ret tt) ;;
  if CheckDomain.isDNSCheckEnabled b && negb (CheckDomain.forceSave b) && negb isDev then
    let hostname := Js.first (Js.split Js.colon (hostname request)) in
    j <- outside (checkDomainsIsValidInDNS hostname fqdn (CheckDomain.dualCerts b)) ;;
    ret (Passed j)
  else ret Empty.

Definition checkDomain (request : Request CheckDomain.Body CheckDomain.Params) : M Response :=
  tryCatch (checkDomain_try request) toErrorHandler.

Definition checkDNS_try (request : Request unit CheckDNS.Params) : M Response :=
  let domain := CheckDNS.domain (params request) in
  outside (isDNSValid (hostname request) domain) ;;
  ret Empty.

Definition checkDNS (request : Request unit CheckDNS.Params) : M Response :=
  tryCatch (checkDNS_try request) toErrorHandler.

(** ** [saveSSHKey] (lines 633-649) and [deleteSSHKey] (lines 650-659) *)

Definition saveSSHKey_try (request : Request SaveSSHKey.Body unit) : M Response :=
  let teamId := teamId (user request) in
  let privateKey := SaveSSHKey.privateKey (body request) in
  let name := SaveSSHKey.name (body request) in
  found <- findMany sshKeyT (fun k => String.eqb (SshKey.name k) name) ;;
  (if Nat.ltb 0 (List.length found) then throw nameAlreadyUsed else ret tt) ;;
  let encryptedSSHKey := encrypt privateKey in
  create sshKeyT (fun id now =>
    {| SshKey.id := id; SshKey.name := name; SshKey.privateKey := encryptedSSHKey;
       SshKey.createdAt := now; SshKey.teamId := Some teamId |}) ;;
  ret (Reply 201).

Definition saveSSHKey (request : Request SaveSSHKey.Body unit) : M Response :=
  tryCatch (saveSSHKey_try request) toErrorHandler.

(** [where: { id, teamId }]. *)
Definition idAndTeam {Row} (rowId : Row -> string) (team : Row -> option string)
    (id teamId : string) (r : Row) : bool :=
  String.eqb (rowId r) id && columnIs (team r) teamId.

Definition deleteSSHKey_try (request : Request OnlyIdInBody.Body unit) : M Response :=
  let teamId := teamId (user request) in
  let id := OnlyIdInBody.id (body request) in
  deleteMany sshKeyT (idAndTeam SshKey.id SshKey.teamId id teamId) ;;
  ret (Reply 201).

Definition deleteSSHKey (request : Request OnlyIdInBody.Body unit) : M Response :=
  tryCatch (deleteSSHKey_try request) toErrorHandler.

(** ** [deleteCertificates] (lines 661-671) *)

Definition removeCertificateFiles (id : string) : string :=
  String.append "docker exec coolify-proxy sh -c 'rm -f /etc/traefik/acme/custom/"
    (String.append id
       (String.append "-key.pem /etc/traefik/acme/custom/" (String.append id "-cert.pem'"))).

Definition deleteCertificates_try (request : Request OnlyIdInBody.Body unit) : M Response :=
  let teamId := teamId (user request) in
  let id := OnlyIdInBody.id (body request) in
  outside (asyncExecShell (removeCertificateFiles id)) ;;
  deleteMany certificateT (idAndTeam Certificate.id Certificate.teamId id teamId) ;;
  ret (Reply 201).

Definition deleteCertificates (request : Request OnlyIdInBody.Body unit) : M Response :=
  tryCatch (deleteCertificates_try request) toErrorHandler.

(** ** The registry handlers (lines 673-715) *)

(** [let encryptedPassword = ''; if (password) encryptedPassword = encrypt(password)]. *)
Definition encryptedPassword (password : option string) : string :=
  match password with
  | Some p => if Js.truthy p then encrypt p else ""
  | None => ""
  end.

(** [data: { username, password: encryptedPassword }]. *)
Definition writeCredentials (username : option string) (stored : string)
    (r : DockerRegistry.t) : DockerRegistry.t :=
  {| DockerRegistry.id := DockerRegistry.id r;
     DockerRegistry.name := DockerRegistry.name r;
     DockerRegistry.url := DockerRegistry.url r;
     DockerRegistry.username := orKeepNullable username (DockerRegistry.username r);
     DockerRegistry.password := Some stored;
     DockerRegistry.isSystemWide := DockerRegistry.isSystemWide r;
     DockerRegistry.teamId := DockerRegistry.teamId r |}.

Definition setDockerRegistry_try (request : Request SetDefaultRegistry.Body unit) : M Response :=
  let teamId := teamId (user request) in
  let b := body request in
  let id := SetDefaultRegistry.id b in
  let stored := encryptedPassword (SetDefaultRegistry.password b) in
  (if String.eqb teamId "0"
   then update dockerRegistryT (fun r => String.eqb (DockerRegistry.id r) id)
          (writeCredentials (SetDefaultRegistry.username b) stored)
   else updateMany dockerRegistryT (idAndTeam DockerRegistry.id DockerRegistry.teamId id teamId)
          (writeCredentials (SetDefaultRegistry.username b) stored)) ;;
  ret (Reply 201).

Definition setDockerRegistry (request : Request SetDefaultRegistry.Body unit) : M Response :=
  tryCatch (setDockerRegistry_try request) toErrorHandler.

Definition addDockerRegistry_try (request : Request AddDefaultRegistry.Body unit) : M Response :=
  let teamId := teamId (user request) in
  let b := body request in
  let stored := encryptedPassword (AddDefaultRegistry.password b) in
  create dockerRegistryT (fun id _ =>
    {| DockerRegistry.id := id;
       DockerRegistry.name := AddDefaultRegistry.name b;
       DockerRegistry.url := AddDefaultRegistry.url b;
       DockerRegistry.username := AddDefaultRegistry.username b;
       DockerRegistry.password := Some stored;
       DockerRegistry.isSystemWide := AddDefaultRegistry.isSystemWide b;
       DockerRegistry.teamId := Some teamId |}) ;;
  ret (Reply 201).

Definition addDockerRegistry (request : Request AddDefaultRegistry.Body unit) : M Response :=
  tryCatch (addDockerRegistry_try request) toErrorHandler.

(** [data: { dockerRegistryId: '0' }]. *)
Definition toDefaultRegistry (a : Application.t) : Application.t :=
  {| Application.id := Application.id a; Application.dockerRegistryId := Some "0" |}.

Definition usesRegistry (id : string) (a : Application.t) : bool :=
  columnIs (Application.dockerRegistryId a) id.

Definition deleteDockerRegistry_try (request : Request OnlyIdInBody.Body unit) : M Response :=
  let teamId := teamId (user request) in
  let id := OnlyIdInBody.id (body request) in
  updateMany applicationT (usesRegistry id) toDefaultRegistry ;;
  dockerRegistry_deleteMany (idAndTeam DockerRegistry.id DockerRegistry.teamId id teamId) ;;
  ret (Reply 201).

Definition deleteDockerRegistry (request : Request OnlyIdInBody.Body unit) : M Response :=
  tryCatch (deleteDockerRegistry_try request) toErrorHandler.

(** ** The eleven handlers as one family *)

Inductive Call : Type :=
| ListAllSettings (request : Request unit unit)
| SaveSettings (request : Request SaveSettings.Body unit)
| DeleteDomain (request : Request DeleteDomain.Body unit)
| CheckDomain (request : Request CheckDomain.Body CheckDomain.Params)
| CheckDNS (request : Request unit CheckDNS.Params)
| SaveSSHKey (request : Request SaveSSHKey.Body unit)
| DeleteSSHKey (request : Request OnlyIdInBody.Body unit)
| DeleteCertificates (request : Request OnlyIdInBody.Body unit)
| SetDockerRegistry (request : Request SetDefaultRegistry.Body unit)
| AddDockerRegistry (request : Request AddDefaultRegistry.Body unit)
| DeleteDockerRegistry (request : Request OnlyIdInBody.Body unit).

(** The exported function a call runs. *)
Definition handler (c : Call) : M Response :=
  match c with
  | ListAllSettings r => listAllSettings r
  | SaveSettings r => saveSettings r
  | DeleteDomain r => deleteDomain r
  | CheckDomain r => checkDomain r
  | CheckDNS r => checkDNS r
  | SaveSSHKey r => saveSSHKey r
  | DeleteSSHKey r => deleteSSHKey r
  | DeleteCertificates r => deleteCertificates r
  | SetDockerRegistry r => setDockerRegistry r
  | AddDockerRegistry r => addDockerRegistry r
  | DeleteDockerRegistry r => deleteDockerRegistry r
  end.




(** The updates [saveSettings] sends, in order (lines 561-571). *)
Definition settingWrites (b : SaveSettings.Body) : list (Setting.t -> Setting.t) :=
  [writeFlags b]
  ++ (if Js.truthyOpt (SaveSettings.fqdn b) then [writeFqdn (SaveSettings.fqdn b)] else [])
  ++ [writeProxyDefaultRedirect (SaveSettings.proxyDefaultRedirect b)]
  ++ (if Js.truthyNum (SaveSettings.minPort b) && Js.truthyNum (SaveSettings.maxPort b)
      then [writePorts (SaveSettings.minPort b) (SaveSettings.maxPort b)] else []).

(** The settings table after the given updates reached the row [id]. *)
Definition applyWrites (id : string) (writes : list (Setting.t -> Setting.t))
    (table : list Setting.t) : list Setting.t :=
  fold_left (fun t write => updateFirst (settingId id) write t) writes table.

(** [line] is the first line of [subject] that starts with [CN=]. *)
Definition firstCNLine (subject line : string) : Prop :=
  exists before after,
    Js.split Js.newline subject = before ++ line :: after
    /\ Js.startsWith "CN=" line = true
    /\ forallb (fun l => negb (Js.startsWith "CN=" l)) before = true.

(** [entry] is what the specification asks for the certificate [c]: its id,
    its [createdAt], and as common name the first [CN=] line of its subject
    without the [CN=]. *)
Definition describes (c : Certificate.t) (entry : CertEntry) : Prop :=
  cert_id entry = Certificate.id c
  /\ cert_createdAt entry = Certificate.createdAt c
  /\ exists subject line,
       x509_subject (Certificate.cert c) = Ok subject
       /\ firstCNLine subject line
       /\ line = String.append "CN=" (commonName entry).

(** The certificate parses and its subject has a line that starts with [CN=]. *)
Definition hasCommonName (c : Certificate.t) : Prop :=
  exists subject line,
    x509_subject (Certificate.cert c) = Ok subject /\ firstCNLine subject line.

(** The row [saveSSHKey] creates (line 644), given the store's defaults. *)
Definition newKeyRow (request : Request SaveSSHKey.Body unit) (id : string) (now : Z) : SshKey.t :=
  {| SshKey.id := id;
     SshKey.name := SaveSSHKey.name (body request);
     SshKey.privateKey := encrypt (SaveSSHKey.privateKey (body request));
     SshKey.createdAt := now;
     SshKey.teamId := Some (teamId (user request)) |}.

(** Is there a key with this name, in any team? *)
Definition nameTaken (name : string) (d : DB) : bool :=
  existsb (fun k => String.eqb (SshKey.name k) name) (sshKeys d).

(** The updates [writes] sent one after the other to the row [id], then
    [next]: the shape of lines 561-571. *)
Fixpoint thenWrites {A} (id : string) (writes : list (Setting.t -> Setting.t)) (next : M A) : M A :=
  match writes with
  | [] => next
  | write :: rest => update settingT (settingId id) write ;; thenWrites id rest next
  end.

(** The store takes its next [n] calls: what is outside the tables after
    them, and nothing when it refuses one of them. *)
Fixpoint accepts (n : nat) (x : Ext) : option Ext :=
  match n with
  | O => Some x
  | S n => match storeFault x with
           | (None, x') => accepts n x'
           | (Some _, _) => None
           end
  end.

End Handlers.

(** ** A small installation to run the handlers on

    A concrete [Externals]: the store answers from a script of faults,
    [errorHandler] hands back the message, encryption puts a tag before the
    text, and a certificate's PEM text stands for its subject. *)

Module Lab.

Record Outside : Type := {
  script : list (option Thrown);   (* the store's answer to its next calls *)
  clock : Z
}.

Definition nextFault (x : Outside) : option Thrown * Outside :=
  match script x with
  | [] => (None, x)
  | f :: rest => (f, {| script := rest; clock := clock x |})
  end.

Definition lowerChar (c : ascii) : ascii :=
  let n := Ascii.nat_of_ascii c in
  if Nat.leb 65 n && Nat.leb n 90 then Ascii.ascii_of_nat (n + 32) else c.

Fixpoint lower (s : string) : string :=
  match s with
  | EmptyString => EmptyString
  | String c s' => String (lowerChar c) (lower s')
  end.

Definition knownDomain (fqdn : option string) (d : DB) : bool :=
  match fqdn with
  | Some f => existsb (fun s => columnIs (Setting.fqdn s) f) (settings d)
  | None => false
  end.

Definition notFound : Thrown :=
  {| status := None; message := Some "queryA ENOTFOUND coolify.example" |}.

(** The installation, with a name server that answers or one that does not. *)
Definition installation (resolves : bool) : Externals :=
  {| Ext := Outside;
     Json := string;
     storeFault := nextFault;
     recordNotFound :=
       {| status := None; message := Some "Record to update not found." |};
     registryOnDelete := SetNull;
     foreignKeyViolation :=
       {| status := None; message := Some "Foreign key constraint failed" |};
     rowDefaults x := (("fresh", clock x), {| script := script x; clock := clock x + 1 |});
     errorHandler _ message x := (Ok (orKeep message "Unknown error."), x);
     listSettings d x := (Ok (hd_error (settings d)), x);
     encrypt s := String.append "enc:" s;
     decrypt s := Js.drop 4 s;
     isDev := false;
     sentryDSN := "https://sentry.invalid/1";
     version := "3.12.0";
     isDomainConfigured _ fqdn d x := (Ok (knownDomain fqdn d), x);
     checkDomainsIsValidInDNS host fqdn _ x :=
       (Ok (String.append host (String.append " serves " (orKeep fqdn "undefined"))), x);
     isDNSValid _ _ x := (Ok tt, x);
     asyncExecShell _ x := (Ok tt, x);
     dns_setServers _ x := (Ok tt, x);
     dns_resolve _ x := if resolves then (Ok ["10.0.0.1"], x) else (Throw notFound, x);
     Sentry_init _ _ _ x := (Ok tt, x);
     console_log _ x := x;
     x509_subject pem := Ok pem;
     toLowerCase := lower |}.

Definition externals : Externals := installation true.


Definition quiet : Outside := {| script := []; clock := 1700000000000 |}.

(** The store refuses its second call. *)
Definition secondCallFails : Outside :=
  {| script := [None; Some {| status := Some 500%Z; message := Some "database is locked" |}];
     clock := 1700000000000 |}.

Definition theSetting : Setting.t :=
  {| Setting.id := "0"; Setting.fqdn := None; Setting.doNotTrack := false;
     Setting.isRegistrationEnabled := false; Setting.dualCerts := false;
     Setting.isAutoUpdateEnabled := false; Setting.isDNSCheckEnabled := true;
     Setting.DNSServers := None; Setting.isAPIDebuggingEnabled := false;
     Setting.proxyDefaultRedirect := None;
     Setting.minPort := 9000; Setting.maxPort := 9100 |}.

Definition deployKey : SshKey.t :=
  {| SshKey.id := "k1"; SshKey.name := "deploy"; SshKey.privateKey := "enc:PRIVATE";
     SshKey.createdAt := 1600000000000; SshKey.teamId := Some "team-a" |}.

Definition withCN : Certificate.t :=
  {| Certificate.id := "c1";
     Certificate.cert := String.append "C=HU" (String (Js.newline)
                           (String.append "CN=coolify.example" (String (Js.newline) "O=Lab")));
     Certificate.createdAt := 1600000000001; Certificate.teamId := Some "team-a" |}.

Definition withoutCN : Certificate.t :=
  {| Certificate.id := "c2";
     Certificate.cert := String.append "C=HU" (String (Js.newline) "O=Lab");
     Certificate.createdAt := 1600000000002; Certificate.teamId := Some "team-a" |}.

Definition dockerHub : DockerRegistry.t :=
  {| DockerRegistry.id := "0"; DockerRegistry.name := "Docker Hub";
     DockerRegistry.url := "https://index.docker.io/v1/";
     DockerRegistry.username := None; DockerRegistry.password := None;
     DockerRegistry.isSystemWide := true; DockerRegistry.teamId := Some "0" |}.

Definition teamRegistry : DockerRegistry.t :=
  {| DockerRegistry.id := "r1"; DockerRegistry.name := "private";
     DockerRegistry.url := "https://registry.example";
     DockerRegistry.username := Some "ci"; DockerRegistry.password := Some "enc:hunter2";
     DockerRegistry.isSystemWide := false; DockerRegistry.teamId := Some "team-a" |}.

Definition appOnHub : Application.t :=
  {| Application.id := "a1"; Application.dockerRegistryId := Some "0" |}.

Definition appOnTeamRegistry : Application.t :=
  {| Application.id := "a2"; Application.dockerRegistryId := Some "r1" |}.

Definition foreignKey : SshKey.t :=
  {| SshKey.id := "k0"; SshKey.name := "backup"; SshKey.privateKey := "enc:OTHER";
     SshKey.createdAt := 1500000000000; SshKey.teamId := Some "team-b" |}.

Definition foreignCertificate : Certificate.t :=
  {| Certificate.id := "c0"; Certificate.cert := "CN=other.example";
     Certificate.createdAt := 1500000000001; Certificate.teamId := Some "team-b" |}.

Definition wildcard : Certificate.t :=
  {| Certificate.id := "c3";
     Certificate.cert := String.append "O=Lab" (String (Js.newline)
                           (String.append "CN=*.example.org" (String (Js.newline) "CN=second")));
     Certificate.createdAt := 1600000000003; Certificate.teamId := Some "team-a" |}.

Definition tables : DB :=
  {| settings := [theSetting];
     sshKeys := [foreignKey; deployKey];
     certificates := [withCN; foreignCertificate; wildcard];
     dockerRegistries := [dockerHub; teamRegistry];
     applications := [appOnHub; appOnTeamRegistry] |}.

(** The same tables with a certificate whose subject has no common name. *)
Definition tablesWithBadCertificate : DB :=
  {| settings := [theSetting];
     sshKeys := [foreignKey; deployKey];
     certificates := [withCN; withoutCN; wildcard];
     dockerRegistries := [dockerHub; teamRegistry];
     applications := [appOnHub; appOnTeamRegistry] |}.

(** The same tables with the instance's own domain set. *)
Definition tablesWithDomain : DB :=
  {| settings := [writeFqdn (Some "coolify.example") theSetting];
     sshKeys := [foreignKey; deployKey];
     certificates := [withCN; foreignCertificate; wildcard];
     dockerRegistries := [dockerHub; teamRegistry];
     applications := [appOnHub; appOnTeamRegistry] |}.

(** The same tables once the default registry is deleted: the application
    that used it has no registry. *)
Definition tablesWithoutHub : DB :=
  {| settings := [theSetting];
     sshKeys := [foreignKey; deployKey];
     certificates := [withCN; foreignCertificate; wildcard];
     dockerRegistries := [teamRegistry];
     applications := [withRegistry None appOnHub; appOnTeamRegistry] |}.

Definition world (d : DB) (x : Outside) : World (X := externals) :=
  @Build_World externals d x.


Definition from {Body} (team : string) (b : Body) : Request Body unit :=
  {| user := {| teamId := team |}; hostname := "coolify.example:3000"; body := b; params := tt |}.

Definition newSettings : SaveSettings.Body :=
  {| SaveSettings.doNotTrack := Some true;
     SaveSettings.fqdn := Some "https://coolify.example";
     SaveSettings.isAPIDebuggingEnabled := Some false;
     SaveSettings.isRegistrationEnabled := Some true;
     SaveSettings.dualCerts := Some false;
     SaveSettings.minPort := Some 9000%Z;
     SaveSettings.maxPort := Some 9100%Z;
     SaveSettings.isAutoUpdateEnabled := Some true;
     SaveSettings.isDNSCheckEnabled := Some true;
     SaveSettings.DNSServers := None;
     SaveSettings.proxyDefaultRedirect := None |}.

(** The same tables after the first update of [newSettings] only. *)
Definition tablesHalfSaved : DB :=
  {| settings := [writeFlags newSettings theSetting];
     sshKeys := [foreignKey; deployKey];
     certificates := [withCN; foreignCertificate; wildcard];
     dockerRegistries := [dockerHub; teamRegistry];
     applications := [appOnHub; appOnTeamRegistry] |}.

Definition lockedDatabase : Thrown :=
  {| status := Some 500%Z; message := Some "database is locked" |}.

(** A key for the continuous integration of team-a. *)
Definition ciKey : Request SaveSSHKey.Body unit :=
  from "team-a" {| SaveSSHKey.privateKey := "SECRET"; SaveSSHKey.name := "ci" |}.

(** Team-b asks for a key under the name team-a's key has. *)
Definition secondDeployKey : Request SaveSSHKey.Body unit :=
  from "team-b" {| SaveSSHKey.privateKey := "SECRET"; SaveSSHKey.name := "deploy" |}.

(** What team-a is shown of [tables]. *)
Definition listed : AllSettings :=
  {| all_settings := Some theSetting;
     all_certificates :=
       [ {| commonName := "coolify.example"; cert_id := "c1"; cert_createdAt := 1600000000001 |};
         {| commonName := "*.example.org"; cert_id := "c3"; cert_createdAt := 1600000000003 |} ];
     all_sshKeys :=
       [ {| key_id := "k1"; key_name := "deploy"; key_privateKey := "PRIVATE";
            key_createdAt := 1600000000000 |} ];
     all_registries :=
       {| public := [dockerHub];
          private :=
            [ {| DockerRegistry.id := "r1"; DockerRegistry.name := "private";
                 DockerRegistry.url := "https://registry.example";
                 DockerRegistry.username := Some "ci";
                 DockerRegistry.password := Some "hunter2";
                 DockerRegistry.isSystemWide := false;
                 DockerRegistry.teamId := Some "team-a" |} ] |} |}.

(** The browser of the layout: a cookie and an API that answers its path. *)
Definition client : Layout.Client :=
  {| Layout.Browser := option string;
     Layout.Payload := string;
     Layout.get path b := (Ok path, b);
     Layout.Cookies_get _ b := b;
     Layout.Cookies_remove _ _ := None;
     Layout.typeErrorText _ := "TypeError" |}.

End Lab.

(** ** The rest of the layout: the socket handler and the navigation *)

Module Shell.

(** [$status.service.startup]: an object used as a map from a service id to
    the state of its start, its keys in the order the object lists them. *)
Definition Startup : Type := list (string * Z).

Definition digit (c : ascii) : option N :=
  let n := N_of_ascii c in
  if N.leb 48 n && N.leb n 57 then Some (n - 48)%N else None.

Fixpoint decimal (s : string) (acc : N) : option N :=
  match s with
  | EmptyString => Some acc
  | String c rest =>
      match digit c with
      | Some d => decimal rest (10 * acc + d)%N
      | None => None
      end
  end.

(** The array index a key is: the key is the decimal writing, with no
    leading zero, of a number below 2^32 - 1. *)
Definition arrayIndex (k : string) : option N :=
  match k with
  | EmptyString => None
  | String c rest =>
      if Ascii.eqb c "0" && negb (String.eqb rest EmptyString) then None
      else match decimal k 0 with
           | Some n => if N.ltb n 4294967295 then Some n else None
           | None => None
           end
  end.

(** Whether an object lists a new key [id] before its key [k]: array
    indices come first, in ascending order; the other keys follow in the
    order they were first set. *)
Definition listedBefore (id k : string) : bool :=
  match arrayIndex id, arrayIndex k with
  | Some n, Some j => N.ltb n j
  | Some _, None => true
  | None, _ => false
  end.

(** [id in startup]. *)
Definition has (id : string) (m : Startup) : bool :=
  existsb (fun entry => String.eqb (fst entry) id) m.

(** [startup[id]]. *)
Fixpoint lookup (id : string) (m : Startup) : option Z :=
  match m with
  | [] => None
  | (k, v) :: rest => if String.eqb k id then Some v else lookup id rest
  end.

(** The value of a key that is there is replaced where it stands. *)
Fixpoint replace (id : string) (v : Z) (m : Startup) : Startup :=
  match m with
  | [] => []
  | (k, old) :: rest =>
      if String.eqb k id then (k, v) :: rest else (k, old) :: replace id v rest
  end.

(** A new key takes the place the order of an object's keys gives it. *)
Fixpoint insert (id : string) (v : Z) (m : Startup) : Startup :=
  match m with
  | [] => [(id, v)]
  | (k, old) :: rest =>
      if listedBefore id k then (id, v) :: m else (k, old) :: insert id v rest
  end.

(** [startup[id] = v]. *)
Definition assign (id : string) (v : Z) (m : Startup) : Startup :=
  if has id m then replace id v m else insert id v m.

(** [delete startup[id]]. *)
Definition remove (id : string) (m : Startup) : Startup :=
  filter (fun entry => negb (String.eqb (fst entry) id)) m.

(** The message of the [start-service] event. *)
Record StartService : Type := { serviceId : string; state : Z }.

(** The listener of lines 115-121. *)
Definition onStartService (message : StartService) (startup : Startup) : Startup :=
  let startup := assign (serviceId message) (state message) startup in
  if Z.eqb (state message) 0 || Z.eqb (state message) 1
  then remove (serviceId message) startup
  else startup.

(** What the navigation reads of [$appSession]: [pendingInvitations] is
    looked at through [.length > 0] only, so its length stands for it (0
    for the default, the number 0, whose [length] is [undefined]). *)
Record Session : Type := {
  userId : option string;
  teamId : option string;
  pendingInvitations : nat
}.

Inductive Item : Type := Dashboard | Servers | Iam | Settings.

(** A link of a menu: where it leads and whether the classes that
    highlight it are switched on. *)
Record Link : Type := { item : Item; href : string; highlighted : bool }.

(** [$appSession.teamId === '0']. *)
Definition rootTeam (s : Session) : bool :=
  match teamId s with Some t => String.eqb t "0" | None => false end.

Definition settingsHref (s : Session) : string :=
  if rootTeam s then "/settings/coolify" else "/settings/ssh".

(** The links of the side bar (lines 143-260): rendered for a signed-in
    session, the servers link for the root team only. *)
Definition sidebar (s : Session) (pathname : string) : list Link :=
  if Js.truthyOpt (userId s) then
    [ {| item := Dashboard; href := "/"; highlighted := String.eqb pathname "/" |} ]
    ++ (if rootTeam s
        then [ {| item := Servers; href := "/servers";
                  highlighted := String.eqb pathname "/servers" |} ]
        else [])
    ++ [ {| item := Iam;
            href := if Nat.ltb 0 (pendingInvitations s) then "/iam/pending" else "/iam";
            highlighted := Js.startsWith "/iam" pathname |};
         {| item := Settings; href := settingsHref s;
            highlighted := Js.startsWith "/settings" pathname |} ]
  else [].

(** The links of the drawer (lines 341-434). *)
Definition drawer (s : Session) (pathname : string) : list Link :=
  [ {| item := Dashboard; href := "/"; highlighted := String.eqb pathname "/" |};
    {| item := Servers; href := "/servers";
       highlighted := Js.startsWith "/servers" pathname |};
    {| item := Iam; href := "/iam"; highlighted := Js.startsWith "/iam" pathname |};
    {| item := Settings; href := settingsHref s;
       highlighted := Js.startsWith "/settings" pathname |} ].

(** The items a menu highlights. *)
Definition lit (menu : list Link) : list Item :=
  map item (filter highlighted menu).

End Shell.

(** ** More of the handlers' vocabulary *)

Section MoreHandlers.
Context {X : Externals}.

(** A computation that leaves the tables as it found them, however it ends. *)
Definition keepsTables {A} (c : M A) : Prop :=
  forall w, db (snd (c w)) = db w.


(** The target of the redirect of [deleteDomain] (line 599), from what
    [dns.resolve] did: the first address it gave, or no target when it
    threw. *)
Definition redirectTarget (resolved : Result Thrown (list string)) : option string :=
  match resolved with
  | Ok addresses =>
      Some (String.append "http://" (String.append (Js.first addresses) ":3000/settings"))
  | Throw _ => None
  end.

(** What is outside the tables once [deleteDomain] has handed the
    configured DNS servers, if any, to the resolver (lines 589-591):
    nothing when [dns.setServers] throws. *)
Definition serversSet (row : Setting.t) (x : Ext) : option Ext :=
  if Js.truthyOpt (Setting.DNSServers row)
  then match dns_setServers (Js.split Js.comma (orKeep (Setting.DNSServers row) "")) x with
       | (Ok _, x') => Some x'
       | (Throw _, _) => None
       end
  else Some x.

(** The updates of [saveSettings] applied to one row, one after the other. *)
Definition settingAfter (b : SaveSettings.Body) (s : Setting.t) : Setting.t :=
  fold_left (fun row write => write row) (settingWrites b) s.

End MoreHandlers.

(** Two states of the store that differ in the registries at most. *)
Definition sameButRegistries (d d' : DB) : Prop :=
  settings d' = settings d /\ sshKeys d' = sshKeys d
  /\ certificates d' = certificates d /\ applications d' = applications d.

(** More of the lab: an API that refuses the token it is shown. *)
Module Trial.

Definition expiredToken : Layout.ApiError :=
  Layout.Value (Ok (Layout.TextCode "FAST_JWT_EXPIRED")) (Ok (Some 401%Z))
    (Ok "Error: jwt expired").

Definition unreachable : Layout.ApiError :=
  Layout.Value (Ok Layout.NoCode) (Ok (Some 502%Z)) (Ok "Error: Bad Gateway").

(** An object whose [code] is a number: [{ code: 401, status: 401 }]. *)
Definition numbered : Layout.ApiError :=
  Layout.Value (Ok (Layout.OtherCode None)) (Ok (Some 401%Z)) (Ok "[object Object]").

(** The browser holds a cookie or none; [/user] is refused with [refusal],
    every other path answers. *)
Definition client (refusal : Layout.ApiError) : Layout.Client :=
  {| Layout.Browser := option string;
     Layout.Payload := string;
     Layout.get path b :=
       if String.eqb path "/user" then (Throw refusal, b) else (Ok path, b);
     Layout.Cookies_get _ b := b;
     Layout.Cookies_remove _ _ := None;
     Layout.typeErrorText e :=
       match e with
       | Layout.Undefined => "TypeError: Cannot read properties of undefined (reading 'status')"
       | Layout.Null => "TypeError: Cannot read properties of null (reading 'status')"
       | Layout.Value _ _ _ => "TypeError: error.code.startsWith is not a function"
       end |}.


End Trial.

(** ** Vocabulary of the properties *)

(** The rows of a table that do not belong to team [t]. *)
Definition ofOtherTeams {Row} (team : Row -> option string) (t : string) (l : list Row) : list Row :=
  filter (fun r => negb (columnIs (team r) t)) l.


(** Two states of the store that differ in the settings table at most. *)
Definition sameButSettings (d d' : DB) : Prop :=
  sshKeys d' = sshKeys d /\ certificates d' = certificates d
  /\ dockerRegistries d' = dockerRegistries d /\ applications d' = applications d.

(** * Properties *)

(** ** Strings *)

Lemma prefix_drop (p s : string) :
  String.prefix p s = true -> String.append p (Js.drop (String.length p) s) = s.
Proof.
  revert s; induction p as [|a p IH]; intros s H.
  - reflexivity.
  - destruct s as [|b s]; [discriminate|].
    simpl in H. destruct (Ascii.ascii_dec a b) as [->|]; [|discriminate].
    simpl. now rewrite IH.
Qed.

Lemma replace_unfold (pat rep s : string) :
  Js.replace pat rep s =
  if String.prefix pat s then String.append rep (Js.drop (String.length pat) s)
  else match s with
       | EmptyString => EmptyString
       | String a s' => String a (Js.replace pat rep s')
       end.
Proof. destruct s; reflexivity. Qed.

Lemma replace_at_start (p rep s : string) :
  Js.startsWith p s = true ->
  Js.replace p rep s = String.append rep (Js.drop (String.length p) s).
Proof.
  unfold Js.startsWith. intros H. rewrite replace_unfold. now rewrite H.
Qed.

(** Removing a prefix the string starts with leaves the rest of it. *)
Lemma replace_removes_prefix (p s : string) :
  Js.startsWith p s = true -> String.append p (Js.replace p "" s) = s.
Proof.
  intros H. rewrite (replace_at_start p "" s H). simpl. now apply prefix_drop.
Qed.

(** [find] returns the first element that passes the test. *)
Lemma find_first {A} (f : A -> bool) (l : list A) (x : A) :
  find f l = Some x ->
  exists before after,
    l = before ++ x :: after /\ f x = true /\ forallb (fun y => negb (f y)) before = true.
Proof.
  induction l as [|a l IH]; simpl; [discriminate|].
  destruct (f a) eqn:Fa.
  - intros [= ->]. now exists [], l.
  - intros H. destruct (IH H) as (before & after & -> & Fx & Hb).
    exists (a :: before), after. simpl. now rewrite Fa.
Qed.

Lemma find_none_iff {A} (f : A -> bool) (l : list A) :
  find f l = None <-> existsb f l = false.
Proof.
  induction l as [|a l IH]; simpl; [tauto|].
  destruct (f a); simpl; [split; discriminate|exact IH].
Qed.

Lemma split_not_nil (sep : ascii) (s : string) : Js.split sep s <> [].
Proof.
  destruct s as [|a s]; simpl; [discriminate|].
  destruct (Ascii.eqb a sep); [discriminate|].
  destruct (Js.split sep s); discriminate.
Qed.

(** The first piece of a split is what stands before the first separator. *)
Lemma split_first (sep : ascii) (host rest : string) :
  Js.occurs sep host = false ->
  Js.first (Js.split sep (String.append host (String sep rest))) = host.
Proof.
  induction host as [|a host IH]; simpl; intros H.
  - now rewrite Ascii.eqb_refl.
  - apply orb_false_iff in H as [Ha Hh]. rewrite Ha.
    specialize (IH Hh).
    destruct (Js.split sep (String.append host (String sep rest))) as [|piece pieces] eqn:E.
    + now apply split_not_nil in E.
    + simpl in *. now subst.
Qed.

Lemma split_without_separator (sep : ascii) (host : string) :
  Js.occurs sep host = false -> Js.first (Js.split sep host) = host.
Proof.
  induction host as [|a host IH]; simpl; intros H; [reflexivity|].
  apply orb_false_iff in H as [Ha Hh]. rewrite Ha. specialize (IH Hh).
  destruct (Js.split sep host) as [|piece pieces] eqn:E.
  - now apply split_not_nil in E.
  - simpl in *. now subst.
Qed.

(** ** The monad *)

Section Monad.
Context {S E : Type}.

Lemma bind_ok {A B} (c : Async S E A) (k : A -> Async S E B) s b s' :
  bind c k s = (Ok b, s') -> exists a s1, c s = (Ok a, s1) /\ k a s1 = (Ok b, s').
Proof.
  unfold bind. destruct (c s) as [[a|e] s1]; [eauto|discriminate].
Qed.

Lemma bind_throw {A B} (c : Async S E A) (k : A -> Async S E B) s e s' :
  bind c k s = (Throw e, s') ->
  c s = (Throw e, s') \/ exists a s1, c s = (Ok a, s1) /\ k a s1 = (Throw e, s').
Proof.
  unfold bind. destruct (c s) as [[a|e1] s1]; [eauto|]. intros [= -> ->]. now left.
Qed.

Lemma bind_run {A B} (c : Async S E A) (k : A -> Async S E B) s a s1 :
  c s = (Ok a, s1) -> bind c k s = k a s1.
Proof. unfold bind. now intros ->. Qed.

Lemma bind_abort {A B} (c : Async S E A) (k : A -> Async S E B) s e s1 :
  c s = (Throw e, s1) -> bind c k s = (Throw e, s1).
Proof. unfold bind. now intros ->. Qed.




End Monad.

(** ** The layout's [load] without a token *)

(** C8. When no [token] cookie is present (and [get('/base')] resolved to
    [baseSettings]), [load] resolves, without touching the browser further:
    on a path that is neither [/login] nor [/register] to status 302 with
    redirect [/login], on [/login] and [/register] to an object with no
    status and no redirect; in both cases [props] holds [baseSettings] and
    nothing else. *)
Theorem load_without_token {C : Layout.Client} (pathname : string)
    (b b1 : Layout.Browser) (bs : Layout.Payload) :
  Layout.get "/base" b = (Ok bs, b1) ->
  Layout.Cookies_get "token" b1 = None ->
  exists out,
    Layout.load pathname b = (Ok out, b1)
    /\ Layout.out_props out = {| Layout.response := None; Layout.baseSettings := bs |}
    /\ Layout.out_error out = None /\ Layout.out_stuff out = None
    /\ (pathname <> "/login" -> pathname <> "/register" ->
        Layout.out_status out = Some 302%Z /\ Layout.out_redirect out = Some "/login")
    /\ (pathname = "/login" \/ pathname = "/register" ->
        Layout.out_status out = None /\ Layout.out_redirect out = None).
Proof.
  intros Hbase Htoken.
  unfold Layout.load. rewrite (bind_run _ _ _ _ _ Hbase).
  unfold tryCatch, bind, Layout.readCookie. rewrite Htoken. cbn [Js.truthyOpt].
  destruct (String.eqb_spec pathname "/login") as [L|L];
    destruct (String.eqb_spec pathname "/register") as [R|R]; cbn [negb andb ret].
  - subst. discriminate.
  - exists (Layout.onlyProps bs). simpl. tauto.
  - exists (Layout.onlyProps bs). simpl. tauto.
  - exists (Layout.redirectToLogin bs). simpl. tauto.
Qed.

Lemma load_without_token_witness :
  exists out,
    Layout.load (C := Lab.client) "/settings" None = (Ok out, None)
    /\ Layout.out_props out = @Layout.Build_Props Lab.client None "/base"
    /\ Layout.out_error out = None /\ Layout.out_stuff out = None
    /\ ("/settings" <> "/login" -> "/settings" <> "/register" ->
        Layout.out_status out = Some 302%Z /\ Layout.out_redirect out = Some "/login")
    /\ ("/settings" = "/login" \/ "/settings" = "/register" ->
        Layout.out_status out = None /\ Layout.out_redirect out = None).
Proof.
  apply (load_without_token (C := Lab.client) "/settings" None None "/base"); reflexivity.
Defined.

(** ** The handlers *)

Section Properties.
Context {X : Externals}.

(** *** The store client *)

Lemma outside_db {A} (f : Ext -> Result Thrown A * Ext) (w : World) :
  db (snd (outside f w)) = db w.
Proof. unfold outside. now destruct (f (ext w)). Qed.

Lemma reading_db {A} (f : DB -> Ext -> Result Thrown A * Ext) (w : World) :
  db (snd (reading f w)) = db w.
Proof. unfold reading. now destruct (f (db w) (ext w)). Qed.

(** A store call that resolved ran on the tables; one that threw either
    was refused or threw from the call itself. *)
Lemma storeCall_inv {A} (f : DB -> Result Thrown A * DB) (w w' : World) (r : Result Thrown A) :
  storeCall f w = (r, w') ->
  (exists e, r = Throw e /\ db w' = db w) \/ (r = fst (f (db w)) /\ db w' = snd (f (db w))).
Proof.
  unfold storeCall. destruct (storeFault (ext w)) as [[e|] x].
  - intros [= <- <-]. left. eauto.
  - destruct (f (db w)) as [r0 d]. intros [= <- <-]. now right.
Qed.

Lemma findMany_inv {Row} (T : Table Row) (m : Row -> bool) (w w' : World) r :
  findMany T m w = (r, w') ->
  db w' = db w /\ forall l, r = Ok l -> l = filter m (rows T (db w)).
Proof.
  intros H. apply storeCall_inv in H as [(e & -> & D)|[-> D]]; simpl in *.
  - split; [exact D|discriminate].
  - split; [exact D|]. now intros l [= <-].
Qed.

Lemma deleteMany_inv {Row} (T : Table Row) (m : Row -> bool) (w w' : World) r :
  deleteMany T m w = (r, w') ->
  (exists e, r = Throw e /\ db w' = db w)
  \/ (r = Ok tt /\ db w' = put T (db w) (deleteAll m (rows T (db w)))).
Proof. intros H. apply storeCall_inv in H. exact H. Qed.

Lemma updateMany_inv {Row} (T : Table Row) (m : Row -> bool) (data : Row -> Row)
    (w w' : World) r :
  updateMany T m data w = (r, w') ->
  (exists e, r = Throw e /\ db w' = db w)
  \/ (r = Ok tt /\ db w' = put T (db w) (updateAll m data (rows T (db w)))).
Proof. intros H. apply storeCall_inv in H. exact H. Qed.

Lemma update_inv {Row} (T : Table Row) (m : Row -> bool) (data : Row -> Row)
    (w w' : World) r :
  update T m data w = (r, w') ->
  (exists e, r = Throw e /\ db w' = db w)
  \/ (r = Ok tt /\ db w' = put T (db w) (updateFirst m data (rows T (db w)))).
Proof.
  intros H. apply storeCall_inv in H as [L|[-> D]]; [now left|].
  destruct (existsb m (rows T (db w))); simpl in *; [now right|left; eauto].
Qed.

Lemma create_inv {Row} (T : Table Row) (build : string -> Z -> Row) (w w' : World) r :
  create T build w = (r, w') ->
  (exists e, r = Throw e /\ db w' = db w)
  \/ (r = Ok tt /\ exists id now, db w' = put T (db w) (rows T (db w) ++ [build id now])).
Proof.
  unfold create. destruct (storeFault (ext w)) as [[e|] x].
  - intros [= <- <-]. left. eauto.
  - destruct (rowDefaults x) as [[id now] x']. intros [= <- <-]. right. simpl. eauto.
Qed.

(** The [catch] clause hands the error's [status] and [message] to
    [errorHandler], leaves the tables alone, and what comes back is what
    [errorHandler] gave. *)
Lemma toErrorHandler_run (e : Thrown) (w : World) :
  toErrorHandler e w =
  (match fst (errorHandler (status e) (message e) (ext w)) with
   | Ok j => Ok (Passed j)
   | Throw e' => Throw e'
   end,
   {| db := db w; ext := snd (errorHandler (status e) (message e) (ext w)) |}).
Proof.
  unfold toErrorHandler, bind, outside, ret.
  now destruct (errorHandler (status e) (message e) (ext w)) as [[j|e'] x].
Qed.

Lemma toErrorHandler_db (e : Thrown) (w : World) : db (snd (toErrorHandler e w)) = db w.
Proof. now rewrite toErrorHandler_run. Qed.


(** *** Every handler is a [try] with the same [catch] *)




(** *** [checkDomain] *)

Lemma lowered_truthy (s : string) :
  s <> "" -> lowered (Some s) = Some (toLowerCase s).
Proof. destruct s; [congruence|reflexivity]. Qed.

Lemma lowered_falsy (fqdn : option string) :
  Js.truthyOpt fqdn = false -> lowered fqdn = fqdn.
Proof. unfold lowered. now intros ->. Qed.

(** C3. [checkDomain] lowercases the submitted fqdn (an absent or empty one
    is left as it is), then asks [isDomainConfigured] for the id and that
    fqdn. If the answer is true, the request fails with the message
    "Domain already configured" (through the [catch]). Otherwise, when
    [isDNSCheckEnabled] holds, [forceSave] does not and the server is not in
    dev mode, it returns what [checkDomainsIsValidInDNS] returns for the
    request's hostname up to its first colon, the fqdn and [dualCerts]; in
    every other case that does not throw it returns the empty object. The
    tables are never written. *)
Theorem checkDomain_spec (request : Request CheckDomain.Body CheckDomain.Params) (w : World) :
  let b := body request in
  let fqdn := lowered (CheckDomain.fqdn b) in
  (forall s, CheckDomain.fqdn b = Some s -> s <> "" -> fqdn = Some (toLowerCase s))
  /\ (Js.truthyOpt (CheckDomain.fqdn b) = false -> fqdn = CheckDomain.fqdn b)
  /\ match isDomainConfigured (CheckDomain.id (params request)) fqdn (db w) (ext w) with
     | (Throw e, x) => checkDomain request w = toErrorHandler e {| db := db w; ext := x |}
     | (Ok true, x) =>
         checkDomain request w =
         toErrorHandler {| status := None; message := Some "Domain already configured" |}
           {| db := db w; ext := x |}
     | (Ok false, x) =>
         if CheckDomain.isDNSCheckEnabled b && negb (CheckDomain.forceSave b) && negb isDev
         then
           match checkDomainsIsValidInDNS (Js.first (Js.split Js.colon (hostname request)))
                   fqdn (CheckDomain.dualCerts b) x with
           | (Ok j, x') => checkDomain request w = (Ok (Passed j), {| db := db w; ext := x' |})
           | (Throw e, x') => checkDomain request w = toErrorHandler e {| db := db w; ext := x' |}
           end
         else checkDomain request w = (Ok Empty, {| db := db w; ext := x |})
     end
  /\ (forall host port, Js.occurs Js.colon host = false ->
        Js.first (Js.split Js.colon (String.append host (String Js.colon port))) = host)
  /\ (forall host, Js.occurs Js.colon host = false ->
        Js.first (Js.split Js.colon host) = host).
Proof.
  cbv zeta. split; [|split; [|split; [|split]]].
  - intros s -> Hs. now apply lowered_truthy.
  - apply lowered_falsy.
  - unfold checkDomain, checkDomain_try, tryCatch, bind, reading. cbv zeta.
    destruct (isDomainConfigured _ _ (db w) (ext w)) as [[[|]|e] x]; cbn.
    + reflexivity.
    + destruct (CheckDomain.isDNSCheckEnabled (body request)
                && negb (CheckDomain.forceSave (body request)) && negb isDev); cbn.
      * unfold bind, outside; cbn.
        now destruct (checkDomainsIsValidInDNS _ _ _ x) as [[j|e] x'].
      * reflexivity.
    + reflexivity.
  - intros host port. apply split_first.
  - apply split_without_separator.
Qed.

(** *** Deleting by id and team *)

Lemma idAndTeam_spec {Row} (rowId : Row -> string) (team : Row -> option string)
    (id t : string) (r : Row) :
  idAndTeam rowId team id t r = true <-> rowId r = id /\ team r = Some t.
Proof.
  unfold idAndTeam, columnIs. rewrite andb_true_iff, String.eqb_eq.
  destruct (team r) as [v|].
  - rewrite String.eqb_eq. split; intros [H1 H2]; split; congruence.
  - split; intros [_ H]; discriminate.
Qed.




(** A handler that returned a 201 reply ran its [try] block to the end. *)
Lemma replied_from_try (body : M Response) (w w' : World) (code : Z) :
  tryCatch body toErrorHandler w = (Ok (Reply code), w') -> body w = (Ok (Reply code), w').
Proof.
  unfold tryCatch. destruct (body w) as [[v|e] w1]; [trivial|].
  rewrite toErrorHandler_run.
  destruct (fst (errorHandler (status e) (message e) (ext w1))); discriminate.
Qed.

Lemma answered_from_try (body : M Response) (w w' : World) (o : AllSettings) :
  tryCatch body toErrorHandler w = (Ok (Object o), w') -> body w = (Ok (Object o), w').
Proof.
  unfold tryCatch. destruct (body w) as [[v|e] w1]; [trivial|].
  rewrite toErrorHandler_run.
  destruct (fst (errorHandler (status e) (message e) (ext w1))); discriminate.
Qed.

(** The tables after a [try]/[catch] are the tables after the [try]. *)
Lemma tryCatch_db (body : M Response) (w : World) :
  db (snd (tryCatch body toErrorHandler w)) = db (snd (body w)).
Proof.
  unfold tryCatch. destruct (body w) as [[v|e] w1]; [reflexivity|].
  simpl. apply toErrorHandler_db.
Qed.

Lemma deleteSSHKey_try_run (request : Request OnlyIdInBody.Body unit) (w : World) :
  let m := idAndTeam SshKey.id SshKey.teamId (OnlyIdInBody.id (body request))
             (teamId (user request)) in
  (exists e, fst (deleteSSHKey_try request w) = Throw e
             /\ db (snd (deleteSSHKey_try request w)) = db w)
  \/ (fst (deleteSSHKey_try request w) = Ok (Reply 201)
      /\ db (snd (deleteSSHKey_try request w))
         = put sshKeyT (db w) (deleteAll m (sshKeys (db w)))).
Proof.
  cbv zeta. unfold deleteSSHKey_try, bind. cbv zeta.
  destruct (deleteMany sshKeyT _ w) as [r w1] eqn:D.
  apply deleteMany_inv in D as [(e & -> & D)|[-> D]]; simpl; [left; eauto|now right].
Qed.

Lemma deleteCertificates_try_run (request : Request OnlyIdInBody.Body unit) (w : World) :
  let m := idAndTeam Certificate.id Certificate.teamId (OnlyIdInBody.id (body request))
             (teamId (user request)) in
  (exists e, fst (deleteCertificates_try request w) = Throw e
             /\ db (snd (deleteCertificates_try request w)) = db w)
  \/ (fst (deleteCertificates_try request w) = Ok (Reply 201)
      /\ db (snd (deleteCertificates_try request w))
         = put certificateT (db w) (deleteAll m (certificates (db w)))).
Proof.
  cbv zeta. unfold deleteCertificates_try, bind. cbv zeta.
  pose proof (outside_db (asyncExecShell (removeCertificateFiles (OnlyIdInBody.id (body request)))) w) as O.
  destruct (outside _ w) as [[[]|e] w0]; simpl in O.
  - destruct (deleteMany certificateT _ w0) as [r w1] eqn:D.
    apply deleteMany_inv in D as [(e & -> & D)|[-> D]]; simpl; rewrite D, O.
    + left. exists e. auto.
    + right. split; reflexivity.
  - left. exists e. auto.
Qed.

Lemma dockerRegistry_deleteMany_inv (m : DockerRegistry.t -> bool) (w w' : World) r :
  dockerRegistry_deleteMany m w = (r, w') ->
  (exists e, r = Throw e /\ db w' = db w)
  \/ (exists apps,
        r = Ok tt
        /\ referentialAction (filter m (dockerRegistries (db w)))
             (deleteAll m (dockerRegistries (db w))) (applications (db w)) = Ok apps
        /\ db w' = put applicationT
                     (put dockerRegistryT (db w) (deleteAll m (dockerRegistries (db w)))) apps).
Proof.
  intros H. apply storeCall_inv in H as [L|[-> D]]; [now left|].
  cbv zeta in D |- *.
  destruct (referentialAction _ _ (applications (db w))) as [apps|e]; simpl in *.
  - right. exists apps. auto.
  - left. eauto.
Qed.

Lemma deleteDockerRegistry_try_run (request : Request OnlyIdInBody.Body unit) (w : World) :
  let id := OnlyIdInBody.id (body request) in
  let m := idAndTeam DockerRegistry.id DockerRegistry.teamId id (teamId (user request)) in
  let reset := updateAll (usesRegistry id) toDefaultRegistry (applications (db w)) in
  let removed := filter m (dockerRegistries (db w)) in
  let kept := deleteAll m (dockerRegistries (db w)) in
  (exists e, fst (deleteDockerRegistry_try request w) = Throw e
             /\ (db (snd (deleteDockerRegistry_try request w)) = db w
                 \/ db (snd (deleteDockerRegistry_try request w))
                    = put applicationT (db w) reset))
  \/ (exists apps,
        fst (deleteDockerRegistry_try request w) = Ok (Reply 201)
        /\ referentialAction removed kept reset = Ok apps
        /\ db (snd (deleteDockerRegistry_try request w))
           = put applicationT (put dockerRegistryT (db w) kept) apps).
Proof.
  cbv zeta. unfold deleteDockerRegistry_try, bind. cbv zeta.
  destruct (updateMany applicationT _ _ w) as [r0 w0] eqn:U.
  apply updateMany_inv in U as [(e & -> & U)|[-> U]].
  - left. exists e. simpl. auto.
  - destruct (dockerRegistry_deleteMany _ w0) as [r w1] eqn:D.
    apply dockerRegistry_deleteMany_inv in D as [(e & -> & D)|(apps & -> & A & D)];
      simpl; rewrite D; rewrite U in *.
    + left. exists e. auto.
    + right. exists apps. split; [reflexivity|]. split; [exact A|reflexivity].
Qed.

Lemma replied_fst (body : M Response) (w : World) (code : Z) :
  fst (tryCatch body toErrorHandler w) = Ok (Reply code) -> fst (body w) = Ok (Reply code).
Proof.
  destruct (tryCatch body toErrorHandler w) as [r w'] eqn:R. simpl. intros ->.
  now rewrite (replied_from_try _ _ _ _ R).
Qed.

(** *** [deleteDockerRegistry] and the applications *)

Lemma updateAll_fixed {Row} (m : Row -> bool) (f : Row -> Row) (l : list Row) :
  (forall r, In r l -> m r = true -> f r = r) -> updateAll m f l = l.
Proof.
  intros H. unfold updateAll. induction l as [|r l IH]; [reflexivity|]. simpl.
  rewrite IH by (intros r' Hr'; apply H; now right).
  destruct (m r) eqn:Mr; [|reflexivity]. now rewrite (H r (or_introl eq_refl) Mr).
Qed.

Lemma deleteAll_none {Row} (m : Row -> bool) (l : list Row) :
  (forall r, In r l -> m r = false) -> deleteAll m l = l.
Proof.
  intros H. unfold deleteAll. induction l as [|r l IH]; [reflexivity|]. simpl.
  rewrite (H r (or_introl eq_refl)). simpl. f_equal. apply IH. intros r' Hr'. apply H. now right.
Qed.

Lemma filter_none {Row} (m : Row -> bool) (l : list Row) :
  (forall r, In r l -> m r = false) -> filter m l = [].
Proof.
  intros H. induction l as [|r l IH]; [reflexivity|]. simpl.
  rewrite (H r (or_introl eq_refl)). apply IH. intros r' Hr'. apply H. now right.
Qed.

Lemma existsb_none {Row} (m : Row -> bool) (l : list Row) :
  (forall r, In r l -> m r = false) -> existsb m l = false.
Proof.
  intros H. destruct (existsb m l) eqn:E; [|reflexivity].
  apply existsb_exists in E as (r & Hin & Hr). rewrite (H r Hin) in Hr. discriminate.
Qed.

(** Where no application refers to a removed registry, the relation has
    nothing to do. *)
Lemma referentialAction_none (removed kept : list DockerRegistry.t) (apps : list Application.t) :
  (forall a, In a apps -> refersTo removed a = false) ->
  referentialAction removed kept apps = Ok apps.
Proof.
  intros H. unfold referentialAction. destruct registryOnDelete.
  - now rewrite deleteAll_none.
  - now rewrite existsb_none.
  - now rewrite existsb_none.
  - rewrite updateAll_fixed; [reflexivity|]. intros a Hin Ha. rewrite (H a Hin) in Ha. discriminate.
  - rewrite existsb_none by exact H. simpl.
    rewrite updateAll_fixed; [reflexivity|]. intros a Hin Ha. rewrite (H a Hin) in Ha. discriminate.
Qed.


(** After the relation has acted, an application that still carries the id
    of a removed registry finds a stored registry under it. *)
Lemma referentialAction_clears (removed kept : list DockerRegistry.t)
    (apps apps' : list Application.t) (a : Application.t) :
  referentialAction removed kept apps = Ok apps' ->
  In a apps' -> refersTo removed a = true ->
  refersToOneOf kept (Application.dockerRegistryId a) = true.
Proof.
  unfold referentialAction. intros H Hin Ha.
  assert (N : forall a0, refersTo removed (withRegistry None a0) = false).
  { intros a0. unfold refersTo. simpl. now apply existsb_none. }
  destruct registryOnDelete.
  - injection H as <-. unfold deleteAll in Hin. apply filter_In in Hin as [_ Hin].
    rewrite Ha in Hin. discriminate.
  - destruct (existsb _ apps) eqn:E; [discriminate|]. injection H as <-.
    rewrite <- not_true_iff_false in E. exfalso. apply E. apply existsb_exists. eauto.
  - destruct (existsb _ apps) eqn:E; [discriminate|]. injection H as <-.
    rewrite <- not_true_iff_false in E. exfalso. apply E. apply existsb_exists. eauto.
  - injection H as <-. unfold updateAll in Hin. apply in_map_iff in Hin as (a0 & <- & Hin).
    destruct (refersTo removed a0) eqn:R0; [|congruence]. rewrite N in Ha. discriminate.
  - destruct (existsb _ apps && _) eqn:E; [discriminate|]. injection H as <-.
    unfold updateAll in Hin. apply in_map_iff in Hin as (a0 & <- & Hin).
    destruct (refersTo removed a0) eqn:R0; [|congruence].
    apply andb_false_iff in E as [E|E].
    + rewrite <- not_true_iff_false in E. exfalso. apply E. apply existsb_exists. eauto.
    + simpl. now apply negb_false_iff in E.
Qed.

(** The registries a delete by id and team removes carry the id. *)
Lemma refersTo_removed (id t : string) (l : list DockerRegistry.t) (a : Application.t) :
  refersTo (filter (idAndTeam DockerRegistry.id DockerRegistry.teamId id t) l) a = true ->
  usesRegistry id a = true.
Proof.
  unfold refersTo. intros H. apply existsb_exists in H as (r & Hin & Hr).
  apply filter_In in Hin as [_ Hm]. apply idAndTeam_spec in Hm as [<- _]. exact Hr.
Qed.

(** After the reset no application names [id], unless [id] is the id the
    reset writes. *)
Lemma reset_clears_references (id : string) (l : list Application.t) (a : Application.t) :
  id <> "0" ->
  In a (updateAll (usesRegistry id) toDefaultRegistry l) ->
  Application.dockerRegistryId a <> Some id.
Proof.
  intros Hid Hin. unfold updateAll in Hin. apply in_map_iff in Hin as (a0 & <- & _).
  destruct (usesRegistry id a0) eqn:U.
  - simpl. congruence.
  - unfold usesRegistry, columnIs in U.
    destruct (Application.dockerRegistryId a0) as [v|]; [|discriminate].
    apply String.eqb_neq in U. congruence.
Qed.

(** Every application that named [id] names ['0'] after the reset. *)
Lemma reset_rewrites_references (id : string) (l : list Application.t) (a : Application.t) :
  In a l -> Application.dockerRegistryId a = Some id ->
  In (toDefaultRegistry a) (updateAll (usesRegistry id) toDefaultRegistry l).
Proof.
  intros Hin Hid. unfold updateAll. apply in_map_iff. exists a. split; [|exact Hin].
  unfold usesRegistry, columnIs. rewrite Hid. now rewrite String.eqb_refl.
Qed.


Lemma usesRegistry_spec (id : string) (a : Application.t) :
  usesRegistry id a = true <-> Application.dockerRegistryId a = Some id.
Proof.
  unfold usesRegistry, columnIs. destruct (Application.dockerRegistryId a) as [v|].
  - rewrite String.eqb_eq. split; congruence.
  - split; discriminate.
Qed.

(** On an id other than ['0'] the relation finds nothing to act on after
    the reset. *)
Lemma reset_leaves_nothing_to_the_relation (id t : string) (l : list DockerRegistry.t)
    (kept : list DockerRegistry.t) (apps : list Application.t) :
  id <> "0" ->
  let reset := updateAll (usesRegistry id) toDefaultRegistry apps in
  referentialAction (filter (idAndTeam DockerRegistry.id DockerRegistry.teamId id t) l) kept reset
  = Ok reset.
Proof.
  intros Hid reset. apply referentialAction_none. intros a Hin.
  destruct (refersTo _ a) eqn:R; [|reflexivity].
  apply refersTo_removed in R. apply usesRegistry_spec in R.
  exfalso. exact (reset_clears_references id apps a Hid Hin R).
Qed.

(** What a run of [deleteDockerRegistry] that replied 201 did. *)
Lemma deleteDockerRegistry_replied (request : Request OnlyIdInBody.Body unit) (w : World) :
  let id := OnlyIdInBody.id (body request) in
  let m := idAndTeam DockerRegistry.id DockerRegistry.teamId id (teamId (user request)) in
  let reset := updateAll (usesRegistry id) toDefaultRegistry (applications (db w)) in
  fst (deleteDockerRegistry request w) = Ok (Reply 201) ->
  exists apps,
    referentialAction (filter m (dockerRegistries (db w)))
      (deleteAll m (dockerRegistries (db w))) reset = Ok apps
    /\ db (snd (deleteDockerRegistry request w))
       = put applicationT (put dockerRegistryT (db w) (deleteAll m (dockerRegistries (db w)))) apps.
Proof.
  cbv zeta. intros H. apply replied_fst in H.
  pose proof (deleteDockerRegistry_try_run request w) as R. cbv zeta in R.
  unfold deleteDockerRegistry. rewrite tryCatch_db.
  destruct R as [(e & He & _)|(apps & _ & A & D)]; [congruence|]. eauto.
Qed.


Lemma same_id_same_row (l : list DockerRegistry.t) (r r' : DockerRegistry.t) :
  NoDup (map DockerRegistry.id l) -> In r l -> In r' l ->
  DockerRegistry.id r = DockerRegistry.id r' -> r = r'.
Proof.
  induction l as [|k l IH]; simpl; [contradiction|].
  intros N Hr Hr' E. inversion N as [|? ? Hn N']; subst.
  destruct Hr as [->|Hr], Hr' as [->|Hr']; auto.
  - exfalso. apply Hn. rewrite E. now apply in_map.
  - exfalso. apply Hn. rewrite <- E. now apply in_map.
Qed.

(** C10. [deleteDockerRegistry] on any id: the registry table changes only
    after the applications were reset (every application whose
    [dockerRegistryId] is the id gets [dockerRegistryId] ['0']); and when
    the handler replies 201, the registry rows with that id and the
    requester's team are gone and the applications are what the relation
    to the registries made of the reset ones. On an id other than ['0']
    those are the reset ones and none carries the id. On every id, an
    application that carries the id of a removed registry row finds a
    registry row still stored under that id; so with the registry ids
    distinct, as a primary key has them, no application carries the id of
    a removed row. *)
Theorem deleteDockerRegistry_resets_references
    (request : Request OnlyIdInBody.Body unit) (w : World) :
  let id := OnlyIdInBody.id (body request) in
  let t := teamId (user request) in
  let d' := db (snd (deleteDockerRegistry request w)) in
  let m := idAndTeam DockerRegistry.id DockerRegistry.teamId id t in
  let reset := updateAll (usesRegistry id) toDefaultRegistry (applications (db w)) in
  let removed := filter m (dockerRegistries (db w)) in
  let kept := deleteAll m (dockerRegistries (db w)) in
  (dockerRegistries d' <> dockerRegistries (db w) ->
   referentialAction removed kept reset = Ok (applications d'))
  /\ (forall a, In a (applications (db w)) -> Application.dockerRegistryId a = Some id ->
                In (toDefaultRegistry a) reset)
  /\ (fst (deleteDockerRegistry request w) = Ok (Reply 201) ->
      dockerRegistries d' = kept
      /\ referentialAction removed kept reset = Ok (applications d')
      /\ (id <> "0" ->
          applications d' = reset
          /\ forall a, In a (applications d') -> Application.dockerRegistryId a <> Some id)
      /\ (forall r a, In r removed -> In a (applications d') ->
                      Application.dockerRegistryId a = Some (DockerRegistry.id r) ->
                      exists r', In r' (dockerRegistries d')
                                 /\ DockerRegistry.id r' = DockerRegistry.id r)
      /\ (NoDup (map DockerRegistry.id (dockerRegistries (db w))) ->
          forall r a, In r removed -> In a (applications d') ->
                      Application.dockerRegistryId a <> Some (DockerRegistry.id r))).
Proof.
  cbv zeta.
  pose proof (deleteDockerRegistry_try_run request w) as R. cbv zeta in R.
  split; [|split].
  - unfold deleteDockerRegistry. rewrite tryCatch_db.
    destruct R as [(e & _ & [-> | ->])|(apps & _ & A & ->)]; simpl;
      [congruence|congruence|now intros _].
  - intros a. apply reset_rewrites_references.
  - intros Hr. apply deleteDockerRegistry_replied in Hr as (apps & A & ->). simpl.
    assert (C : forall r a,
              In r (filter (idAndTeam DockerRegistry.id DockerRegistry.teamId
                              (OnlyIdInBody.id (body request)) (teamId (user request)))
                      (dockerRegistries (db w))) ->
              In a apps ->
              Application.dockerRegistryId a = Some (DockerRegistry.id r) ->
              exists r',
                In r' (deleteAll (idAndTeam DockerRegistry.id DockerRegistry.teamId
                                    (OnlyIdInBody.id (body request)) (teamId (user request)))
                         (dockerRegistries (db w)))
                /\ DockerRegistry.id r' = DockerRegistry.id r).
    { intros r a Hrem Hin Hid.
      assert (Ra : refersTo (filter (idAndTeam DockerRegistry.id DockerRegistry.teamId
                                       (OnlyIdInBody.id (body request)) (teamId (user request)))
                               (dockerRegistries (db w))) a = true).
      { unfold refersTo. apply existsb_exists. exists r. split; [exact Hrem|].
        rewrite Hid. simpl. apply String.eqb_refl. }
      pose proof (referentialAction_clears _ _ _ _ _ A Hin Ra) as K.
      rewrite Hid in K. simpl in K. apply existsb_exists in K as (r' & Hr' & E).
      apply String.eqb_eq in E. eauto. }
    split; [reflexivity|]. split; [exact A|]. split; [|split].
    + intros Hid. rewrite reset_leaves_nothing_to_the_relation in A by exact Hid.
      injection A as <-. split; [reflexivity|].
      intros a. now apply reset_clears_references.
    + exact C.
    + intros N r a Hrem Hin Hid. destruct (C r a Hrem Hin Hid) as (r' & Hr' & E).
      apply filter_In in Hrem as [Hrl Hm]. unfold deleteAll in Hr'.
      apply filter_In in Hr' as [Hrl' Hm'].
      rewrite (same_id_same_row _ _ _ N Hrl' Hrl E) in Hm'. rewrite Hm in Hm'. discriminate.
Qed.

(** *** [saveSettings] and its updates *)

Lemma put_setting_same (d : DB) (l : list Setting.t) : sameButSettings d (put settingT d l).
Proof. now repeat split. Qed.

Lemma sameButSettings_refl (d : DB) : sameButSettings d d.
Proof. now repeat split. Qed.

Lemma sameButSettings_trans (d1 d2 d3 : DB) :
  sameButSettings d1 d2 -> sameButSettings d2 d3 -> sameButSettings d1 d3.
Proof.
  unfold sameButSettings. intros (A1 & A2 & A3 & A4) (B1 & B2 & B3 & B4).
  repeat split; congruence.
Qed.

(** A run of updates followed by [next] either stops at an update the store
    refuses, having applied the ones before it, or applies them all and
    goes on with [next]. *)
Lemma thenWrites_inv {A} (id : string) (writes : list (Setting.t -> Setting.t))
    (next : M A) (w w' : World) (r : Result Thrown A) :
  thenWrites id writes next w = (r, w') ->
  (exists done e,
      done < List.length writes /\ r = Throw e /\ sameButSettings (db w) (db w')
      /\ settings (db w') = applyWrites id (firstn done writes) (settings (db w)))
  \/ (exists w1,
      sameButSettings (db w) (db w1)
      /\ settings (db w1) = applyWrites id writes (settings (db w))
      /\ next w1 = (r, w')).
Proof.
  revert w. induction writes as [|write rest IH]; intros w H.
  - right. exists w. split; [apply sameButSettings_refl|]. now split.
  - cbn [thenWrites] in H. unfold bind in H.
    destruct (update settingT (settingId id) write w) as [r0 w0] eqn:U.
    apply update_inv in U as [(e & -> & D)|[-> D]].
    + injection H as <- <-. left. exists 0, e. simpl. repeat split; try lia; now rewrite D.
    + apply IH in H as [(done & e & Hlt & -> & S & Hs)|(w1 & S & Hs & Hn)].
      * left. exists (Datatypes.S done), e. simpl. split; [lia|]. split; [reflexivity|].
        split.
        -- apply sameButSettings_trans with (db w0); [rewrite D; apply put_setting_same|exact S].
        -- rewrite Hs, D. reflexivity.
      * right. exists w1. split; [|split; [|exact Hn]].
        -- apply sameButSettings_trans with (db w0); [rewrite D; apply put_setting_same|exact S].
        -- rewrite Hs, D. reflexivity.
Qed.

(** What follows the updates in [saveSettings] (lines 572-580). *)
Lemma after_writes_db (b : SaveSettings.Body) (w : World) :
  let rest : M Response :=
    when (isFalse (SaveSettings.doNotTrack b))
      (outside (Sentry_init sentryDSN (if isDev then "development" else "production") version) ;;
       effect (console_log "Sentry initialized")) ;;
    ret (Reply 201) in
  db (snd (rest w)) = db w.
Proof.
  cbv zeta. unfold bind, when.
  destruct (isFalse (SaveSettings.doNotTrack b)); [|reflexivity].
  pose proof (outside_db (Sentry_init sentryDSN (if isDev then "development" else "production") version) w) as O.
  destruct (outside _ w) as [[[]|e] w0]; simpl in *; exact O.
Qed.

(** [saveSettings_try] is: read the settings, take the id, send the updates
    of [settingWrites] in order, then lines 572-580. *)
Lemma saveSettings_try_as_writes (request : Request SaveSettings.Body unit) (w : World) :
  saveSettings_try request w =
  (s <- reading listSettings ;;
   id <- destructure "id" Setting.id s ;;
   thenWrites id (settingWrites (body request))
     (when (isFalse (SaveSettings.doNotTrack (body request)))
        (outside (Sentry_init sentryDSN (if isDev then "development" else "production") version) ;;
         effect (console_log "Sentry initialized")) ;;
      ret (Reply 201))) w.
Proof.
  unfold saveSettings_try, settingWrites. cbv zeta.
  destruct (Js.truthyOpt (SaveSettings.fqdn (body request)));
    destruct (Js.truthyNum (SaveSettings.minPort (body request))
              && Js.truthyNum (SaveSettings.maxPort (body request))); reflexivity.
Qed.

Lemma saveSettings_try_cases (request : Request SaveSettings.Body unit) (w : World) :
  (exists e x, saveSettings_try request w = (Throw e, {| db := db w; ext := x |}))
  \/ (exists row x,
        listSettings (db w) (ext w) = (Ok (Some row), x)
        /\ saveSettings_try request w =
           thenWrites (Setting.id row) (settingWrites (body request))
             (when (isFalse (SaveSettings.doNotTrack (body request)))
                (outside (Sentry_init sentryDSN
                            (if isDev then "development" else "production") version) ;;
                 effect (console_log "Sentry initialized")) ;;
              ret (Reply 201))
             {| db := db w; ext := x |}).
Proof.
  rewrite saveSettings_try_as_writes.
  destruct (listSettings (db w) (ext w)) as [[[row|]|e] x] eqn:L.
  - right. exists row, x. split; [reflexivity|].
    assert (R : reading listSettings w = (Ok (Some row), {| db := db w; ext := x |}))
      by (unfold reading; now rewrite L).
    rewrite (bind_run _ _ _ _ _ R).
    now rewrite (bind_run (destructure "id" Setting.id (Some row)) _ _ (Setting.id row) _ eq_refl).
  - left. exists (destructureNull "id"), x.
    assert (R : reading listSettings w = (Ok None, {| db := db w; ext := x |}))
      by (unfold reading; now rewrite L).
    rewrite (bind_run _ _ _ _ _ R).
    now rewrite (bind_abort (destructure "id" Setting.id None) _ _ (destructureNull "id") _ eq_refl).
  - left. exists e, x.
    assert (R : reading listSettings w = (Throw e, {| db := db w; ext := x |}))
      by (unfold reading; now rewrite L).
    now rewrite (bind_abort _ _ _ _ _ R).
Qed.

Lemma settingWrites_keep_id (b : SaveSettings.Body) :
  Forall (fun write => forall s, Setting.id (write s) = Setting.id s) (settingWrites b).
Proof.
  unfold settingWrites.
  destruct (Js.truthyOpt (SaveSettings.fqdn b));
    destruct (Js.truthyNum (SaveSettings.minPort b) && Js.truthyNum (SaveSettings.maxPort b));
    repeat constructor.
Qed.

Lemma put_settings_same (d : DB) : put settingT d (settings d) = d.
Proof. now destruct d. Qed.

Lemma update_refused {Row} (T : Table Row) (m : Row -> bool) (data : Row -> Row)
    (w : World) (e : Thrown) (x : Ext) :
  storeFault (ext w) = (Some e, x) ->
  update T m data w = (Throw e, {| db := db w; ext := x |}).
Proof. intros F. unfold update, storeCall. now rewrite F. Qed.

Lemma update_accepted {Row} (T : Table Row) (m : Row -> bool) (data : Row -> Row)
    (w : World) (x : Ext) :
  storeFault (ext w) = (None, x) -> existsb m (rows T (db w)) = true ->
  update T m data w
  = (Ok tt, {| db := put T (db w) (updateFirst m data (rows T (db w))); ext := x |}).
Proof. intros F E. unfold update, storeCall. now rewrite F, E. Qed.

Lemma update_not_found {Row} (T : Table Row) (m : Row -> bool) (data : Row -> Row)
    (w : World) (x : Ext) :
  storeFault (ext w) = (None, x) -> existsb m (rows T (db w)) = false ->
  update T m data w = (Throw recordNotFound, {| db := db w; ext := x |}).
Proof. intros F E. unfold update, storeCall. now rewrite F, E. Qed.

(** An update that keeps the id leaves the row findable by its id. *)
Lemma updateFirst_findable (id : string) (write : Setting.t -> Setting.t) (l : list Setting.t) :
  (forall s, Setting.id (write s) = Setting.id s) ->
  existsb (settingId id) (updateFirst (settingId id) write l) = existsb (settingId id) l.
Proof.
  intros Hw. induction l as [|r l IH]; [reflexivity|]. simpl.
  destruct (settingId id r) eqn:Mr; simpl.
  - unfold settingId in *. now rewrite Hw, Mr.
  - now rewrite Mr, IH.
Qed.

(** The store takes [k] of the updates and refuses the next one: the run
    stops there with what the store threw, and exactly the first [k]
    updates are in the table. *)
Lemma thenWrites_refused {A} (id : string) (writes : list (Setting.t -> Setting.t))
    (next : M A) (k : nat) (w : World) (x x' : Ext) (e : Thrown) :
  Forall (fun write => forall s, Setting.id (write s) = Setting.id s) writes ->
  existsb (settingId id) (settings (db w)) = true ->
  k < List.length writes ->
  accepts k (ext w) = Some x -> storeFault x = (Some e, x') ->
  thenWrites id writes next w
  = (Throw e,
     {| db := put settingT (db w) (applyWrites id (firstn k writes) (settings (db w)));
        ext := x' |}).
Proof.
  intros Hid. revert k w. induction Hid as [|write rest Hw _ IH]; intros k w Hrow Hk Hacc Hf.
  - simpl in Hk. lia.
  - cbn [thenWrites]. destruct k as [|k].
    + injection Hacc as <-. rewrite (bind_abort _ _ _ _ _ (update_refused _ _ _ _ _ _ Hf)).
      cbn [firstn applyWrites fold_left]. now rewrite put_settings_same.
    + cbn [accepts] in Hacc. destruct (storeFault (ext w)) as [[e0|] x1] eqn:F; [discriminate|].
      rewrite (bind_run _ _ _ _ _ (update_accepted settingT _ _ _ _ F Hrow)).
      rewrite (IH k _); cbn [db ext rows put settingT settings].
      * reflexivity.
      * now rewrite updateFirst_findable.
      * simpl in Hk. lia.
      * exact Hacc.
      * exact Hf.
Qed.

(** The store takes all the updates: they are all in the table when [next]
    starts. *)
Lemma thenWrites_accepted {A} (id : string) (writes : list (Setting.t -> Setting.t))
    (next : M A) (w : World) (x : Ext) :
  Forall (fun write => forall s, Setting.id (write s) = Setting.id s) writes ->
  existsb (settingId id) (settings (db w)) = true ->
  accepts (List.length writes) (ext w) = Some x ->
  thenWrites id writes next w
  = next {| db := put settingT (db w) (applyWrites id writes (settings (db w))); ext := x |}.
Proof.
  intros Hid. revert w. induction Hid as [|write rest Hw _ IH]; intros w Hrow Hacc.
  - injection Hacc as <-. cbn [thenWrites applyWrites fold_left].
    rewrite put_settings_same. now destruct w.
  - cbn [thenWrites]. cbn [List.length accepts] in Hacc.
    destruct (storeFault (ext w)) as [[e0|] x1] eqn:F; [discriminate|].
    rewrite (bind_run _ _ _ _ _ (update_accepted settingT _ _ _ _ F Hrow)).
    rewrite IH; cbn [db ext rows put settingT settings].
    + reflexivity.
    + now rewrite updateFirst_findable.
    + exact Hacc.
Qed.

Lemma saveSettings_try_with_row (request : Request SaveSettings.Body unit) (w : World)
    (row : Setting.t) (x : Ext) :
  listSettings (db w) (ext w) = (Ok (Some row), x) ->
  saveSettings_try request w =
  thenWrites (Setting.id row) (settingWrites (body request))
    (when (isFalse (SaveSettings.doNotTrack (body request)))
       (outside (Sentry_init sentryDSN (if isDev then "development" else "production") version) ;;
        effect (console_log "Sentry initialized")) ;;
     ret (Reply 201))
    {| db := db w; ext := x |}.
Proof.
  intros L. rewrite saveSettings_try_as_writes.
  assert (R : reading listSettings w = (Ok (Some row), {| db := db w; ext := x |}))
    by (unfold reading; now rewrite L).
  rewrite (bind_run _ _ _ _ _ R).
  now rewrite (bind_run (destructure "id" Setting.id (Some row)) _ _ (Setting.id row) _ eq_refl).
Qed.

(** C2 (as amended). [saveSettings] changes the store through the update
    calls of lines 561-571, sent one by one to the row whose id
    [listSettings] gave, with nothing to undo them. In any run, also one
    that fails and takes the error path, the settings table afterwards is
    the table before with the first [done] of these updates applied, for
    some [done]; all of them when the handler replies 201; the other
    tables are untouched. And [done] is the number of updates the store
    took: when it takes [k] of them and refuses the next one with [e], the
    [try] block throws [e], the handler's outcome is that of [errorHandler]
    on [e], and the first [k] updates, no more and no fewer, are in the
    table. When the store takes them all, they are all in the table
    whatever happens afterwards. Nothing is written when [listSettings]
    throws or gives [null], or when the table has no row with the id (the
    first update then throws). *)
Theorem saveSettings_applies_a_prefix (request : Request SaveSettings.Body unit) (w : World) :
  let writes := settingWrites (body request) in
  let d' := db (snd (saveSettings request w)) in
  (exists id done,
     done <= List.length writes
     /\ settings d' = applyWrites id (firstn done writes) (settings (db w))
     /\ sameButSettings (db w) d'
     /\ (fst (saveSettings request w) = Ok (Reply 201) -> done = List.length writes)
     /\ (0 < done -> exists row,
           fst (listSettings (db w) (ext w)) = Ok (Some row) /\ Setting.id row = id))
  /\ (forall row x0,
        listSettings (db w) (ext w) = (Ok (Some row), x0) ->
        existsb (settingId (Setting.id row)) (settings (db w)) = true ->
        (forall k x e x',
           k < List.length writes -> accepts k x0 = Some x -> storeFault x = (Some e, x') ->
           let partly :=
             {| db := put settingT (db w)
                        (applyWrites (Setting.id row) (firstn k writes) (settings (db w)));
                ext := x' |} in
           saveSettings_try request w = (Throw e, partly)
           /\ saveSettings request w = toErrorHandler e partly
           /\ settings d' = applyWrites (Setting.id row) (firstn k writes) (settings (db w)))
        /\ (forall x,
              accepts (List.length writes) x0 = Some x ->
              settings d' = applyWrites (Setting.id row) writes (settings (db w))))
  /\ (forall row x0 x,
        listSettings (db w) (ext w) = (Ok (Some row), x0) ->
        existsb (settingId (Setting.id row)) (settings (db w)) = false ->
        storeFault x0 = (None, x) ->
        saveSettings_try request w = (Throw recordNotFound, {| db := db w; ext := x |}))
  /\ (fst (listSettings (db w) (ext w)) <> Ok None
      \/ saveSettings_try request w
         = (Throw (destructureNull "id"),
            {| db := db w; ext := snd (listSettings (db w) (ext w)) |}))
  /\ ((forall row, fst (listSettings (db w) (ext w)) <> Ok (Some row)) -> d' = db w).
Proof.
  cbv zeta. split; [|split; [|split; [|split]]].
  - unfold saveSettings. rewrite tryCatch_db.
    destruct (saveSettings_try_cases request w) as [(e & x & R)|(row & x & L & R)].
    + exists "", 0. rewrite R. cbn. repeat split; try lia.
      intros H. apply replied_fst in H. rewrite R in H. discriminate.
    + set (w0 := {| db := db w; ext := x |}) in *.
      destruct (thenWrites (Setting.id row) (settingWrites (body request)) _ w0)
        as [r w'] eqn:T.
      rewrite R. cbn [snd].
      assert (Hfst : fst (tryCatch (saveSettings_try request) toErrorHandler w) = Ok (Reply 201) ->
                     r = Ok (Reply 201)).
      { intros H. apply replied_fst in H. now rewrite R in H. }
      apply thenWrites_inv in T as [(done & e & Hlt & -> & S & Hs)|(w1 & S & Hs & Hn)].
      * exists (Setting.id row), done.
        split; [lia|]. split; [exact Hs|]. split; [exact S|]. split.
        -- intros H. apply Hfst in H. discriminate.
        -- intros _. exists row. now rewrite L.
      * exists (Setting.id row), (List.length (settingWrites (body request))).
        pose proof (after_writes_db (body request) w1) as D. cbv zeta in D.
        rewrite Hn in D. cbn [fst snd] in D. rewrite firstn_all.
        split; [lia|]. split; [now rewrite D, Hs|]. split.
        -- unfold sameButSettings in *. rewrite D. exact S.
        -- split; [reflexivity|]. intros _. exists row. now rewrite L.
  - intros row x0 L Hrow.
    pose proof (saveSettings_try_with_row request w row x0 L) as R. split.
    + intros k x e x' Hk Hacc Hf.
      assert (T : saveSettings_try request w
                  = (Throw e,
                     {| db := put settingT (db w)
                                (applyWrites (Setting.id row)
                                   (firstn k (settingWrites (body request))) (settings (db w)));
                        ext := x' |})).
      { rewrite R.
        exact (thenWrites_refused _ _ _ k {| db := db w; ext := x0 |} x x' e
                 (settingWrites_keep_id _) Hrow Hk Hacc Hf). }
      split; [exact T|]. split.
      * unfold saveSettings, tryCatch. now rewrite T.
      * unfold saveSettings. rewrite tryCatch_db, T. reflexivity.
    + intros x Hacc. unfold saveSettings. rewrite tryCatch_db, R.
      rewrite (thenWrites_accepted _ _ _ {| db := db w; ext := x0 |} x
                 (settingWrites_keep_id _) Hrow Hacc).
      pose proof (after_writes_db (body request)
                    {| db := put settingT (db w)
                               (applyWrites (Setting.id row) (settingWrites (body request))
                                  (settings (db w))); ext := x |}) as D.
      cbv zeta in D. exact (f_equal settings D).
  - intros row x0 x L Hrow F. rewrite (saveSettings_try_with_row request w row x0 L).
    unfold settingWrites. cbn [app thenWrites].
    exact (bind_abort _ _ _ _ _
             (update_not_found settingT _ _ {| db := db w; ext := x0 |} x F Hrow)).
  - destruct (listSettings (db w) (ext w)) as [[[row|]|e] x] eqn:L; cbn [fst snd];
      try (left; discriminate).
    right. rewrite saveSettings_try_as_writes.
    assert (Q : reading listSettings w = (Ok None, {| db := db w; ext := x |}))
      by (unfold reading; now rewrite L).
    rewrite (bind_run _ _ _ _ _ Q).
    now rewrite (bind_abort (destructure "id" Setting.id None) _ _ (destructureNull "id") _ eq_refl).
  - intros Hno. unfold saveSettings. rewrite tryCatch_db.
    destruct (saveSettings_try_cases request w) as [(e & x & R)|(row & x & L & R)].
    + now rewrite R.
    + exfalso. apply (Hno row). now rewrite L.
Qed.

(** *** [saveSSHKey] *)

Lemma filter_nil_iff {A} (f : A -> bool) (l : list A) :
  Nat.ltb 0 (List.length (filter f l)) = existsb f l.
Proof.
  induction l as [|a l IH]; [reflexivity|]. simpl. destruct (f a); [reflexivity|exact IH].
Qed.

(** The four ways [saveSSHKey]'s [try] block can run. *)
Lemma saveSSHKey_try_run (request : Request SaveSSHKey.Body unit) (w w' : World)
    (r : Result Thrown Response) :
  saveSSHKey_try request w = (r, w') ->
  (db w' = db w
   /\ exists e, r = Throw e
      /\ (fst (storeFault (ext w)) = None ->
          nameTaken (SaveSSHKey.name (body request)) (db w) = true -> e = nameAlreadyUsed))
  \/ (r = Ok (Reply 201)
      /\ nameTaken (SaveSSHKey.name (body request)) (db w) = false
      /\ exists id now,
           db w' = put sshKeyT (db w) (sshKeys (db w) ++ [newKeyRow request id now])).
Proof.
  unfold saveSSHKey_try. cbv zeta. intros H.
  unfold bind at 1 in H.
  destruct (findMany sshKeyT _ w) as [r0 w0] eqn:F.
  pose proof F as F'. apply findMany_inv in F' as [D0 Hl].
  unfold findMany, storeCall in F.
  destruct (storeFault (ext w)) as [[e0|] x0] eqn:SF.
  - injection F as <- <-. injection H as <- <-. left. split; [reflexivity|].
    exists e0. split; [reflexivity|]. discriminate.
  - cbn [fst snd rows sshKeyT] in F. injection F as <- <-.
    unfold bind at 1 in H. rewrite filter_nil_iff in H.
    fold (nameTaken (SaveSSHKey.name (body request)) (db w)) in H.
    destruct (nameTaken (SaveSSHKey.name (body request)) (db w)) eqn:T.
    + cbn in H. injection H as <- <-. left. split; [reflexivity|].
      exists nameAlreadyUsed. auto.
    + cbn [ret] in H. unfold bind at 1 in H.
      match type of H with
      | context [create ?T ?b ?s] => destruct (create T b s) as [r1 w1] eqn:C
      end.
      apply create_inv in C as [(e & -> & D)|[-> (id & now & D)]].
      * injection H as <- <-. left. split; [exact D|]. exists e.
        split; [reflexivity|]. discriminate.
      * injection H as <- <-. right. split; [reflexivity|]. split; [reflexivity|].
        exists id, now. exact D.
Qed.

(** A key is never added under a name that is taken: names that were all
    different stay all different. *)
Lemma names_stay_different (request : Request SaveSSHKey.Body unit) (d : DB) (id : string) (now : Z) :
  nameTaken (SaveSSHKey.name (body request)) d = false ->
  NoDup (map SshKey.name (sshKeys d)) ->
  NoDup (map SshKey.name (sshKeys d ++ [newKeyRow request id now])).
Proof.
  intros T N. rewrite map_app. simpl.
  apply NoDup_app; [exact N|repeat constructor; auto|].
  intros name Hin [<-|[]]. simpl in Hin.
  apply in_map_iff in Hin as (k & Hk & Hin).
  unfold nameTaken in T. rewrite <- not_true_iff_false in T. apply T.
  apply existsb_exists. exists k. split; [exact Hin|]. now rewrite Hk, String.eqb_refl.
Qed.

(** C4 (as amended). [saveSSHKey] enforces the uniqueness of key names by a
    check in handler code: it looks the submitted name up among the keys of
    all teams and, when one has it, fails with "Name already used. Choose
    another one please." without writing; only when none has it does it
    make the create call, which adds one row with the name, the encrypted
    private key and the requester's team. So keys whose names are all
    different keep names that are all different. *)
Theorem saveSSHKey_checks_the_name (request : Request SaveSSHKey.Body unit) (w : World) :
  let name := SaveSSHKey.name (body request) in
  let d' := db (snd (saveSSHKey request w)) in
  (nameTaken name (db w) = true ->
     d' = db w
     /\ exists e, fst (saveSSHKey_try request w) = Throw e
        /\ (fst (storeFault (ext w)) = None ->
            e = {| status := None;
                   message := Some "Name already used. Choose another one please." |}))
  /\ (fst (saveSSHKey request w) = Ok (Reply 201) ->
      nameTaken name (db w) = false
      /\ exists id now, d' = put sshKeyT (db w) (sshKeys (db w) ++ [newKeyRow request id now]))
  /\ (d' = db w
      \/ exists id now, d' = put sshKeyT (db w) (sshKeys (db w) ++ [newKeyRow request id now]))
  /\ (NoDup (map SshKey.name (sshKeys (db w))) -> NoDup (map SshKey.name (sshKeys d'))).
Proof.
  cbv zeta. unfold saveSSHKey. rewrite tryCatch_db.
  destruct (saveSSHKey_try request w) as [r w'] eqn:R.
  pose proof (saveSSHKey_try_run request w w' r R) as [[D (e & -> & He)]|(-> & T & id & now & D)];
    cbn [fst snd].
  - split; [|split; [|split]].
    + intros T. split; [exact D|]. exists e. split; [reflexivity|]. intros SF. now apply He.
    + intros H. apply replied_fst in H. rewrite R in H. discriminate.
    + now left.
    + now rewrite D.
  - split; [|split; [|split]].
    + intros T'. congruence.
    + intros _. split; [exact T|]. now exists id, now.
    + right. now exists id, now.
    + intros N. rewrite D. simpl. now apply names_stay_different.
Qed.

(** *** [listAllSettings] *)

(** The loop of lines 520-524 pushes one entry per key; the guard on the
    length changes nothing. *)
Lemma pushed_keys (keys : list SshKey.t) :
  (if Nat.ltb 0 (List.length keys) then map unencryptedKey keys else [])
  = map unencryptedKey keys.
Proof. now destruct keys. Qed.

(** What the [try] block of [listAllSettings] returned, when it returned. *)
Lemma listAllSettings_try_ok (request : Request unit unit) (w w' : World) (v : Response) :
  listAllSettings_try request w = (Ok v, w') ->
  let t := teamId (user request) in
  exists o,
    v = Object o /\ db w' = db w
    /\ all_sshKeys o = map unencryptedKey (filter (ofTeam SshKey.teamId t) (sshKeys (db w)))
    /\ public (all_registries o)
       = map decryptPassword (filter DockerRegistry.isSystemWide (dockerRegistries (db w)))
    /\ private (all_registries o)
       = map decryptPassword
           (filter (fun r => ofTeam DockerRegistry.teamId t r
                             && negb (DockerRegistry.isSystemWide r))
              (dockerRegistries (db w)))
    /\ certEntries (filter (ofTeam Certificate.teamId t) (certificates (db w)))
       = Ok (all_certificates o).
Proof.
  unfold listAllSettings_try. cbv zeta. intros H.
  apply bind_ok in H as (s & w1 & R1 & H).
  pose proof (reading_db listSettings w) as D1. rewrite R1 in D1. simpl in D1.
  apply bind_ok in H as (keys & w2 & R2 & H). apply findMany_inv in R2 as [D2 K].
  apply bind_ok in H as (pub & w3 & R3 & H). apply findMany_inv in R3 as [D3 P].
  apply bind_ok in H as (priv & w4 & R4 & H). apply findMany_inv in R4 as [D4 Q].
  apply bind_ok in H as (certs & w5 & R5 & H). apply findMany_inv in R5 as [D5 C].
  apply bind_ok in H as (cns & w6 & R6 & H).
  unfold liftResult in R6. injection R6 as R6 <-. injection H as <- <-.
  rewrite (K _ eq_refl), (P _ eq_refl), (Q _ eq_refl). rewrite (C _ eq_refl) in R6.
  assert (E4 : db w4 = db w) by congruence.
  assert (E3 : db w3 = db w) by congruence.
  assert (E2 : db w2 = db w) by congruence.
  rewrite pushed_keys.
  eexists. split; [reflexivity|]. cbn.
  rewrite E4 in R6. cbn in R6.
  rewrite D5, E4, E3, E2, D1. repeat split. exact R6.
Qed.

(** When the loop over the certificates ends, each certificate has its
    entry, in order. *)
Lemma certEntry_describes (c : Certificate.t) (entry : CertEntry) :
  certEntry c = Ok entry -> describes c entry.
Proof.
  unfold certEntry, describes.
  destruct (x509_subject (Certificate.cert c)) as [subject|e]; [|discriminate].
  destruct (find _ _) as [line|] eqn:F; [|discriminate].
  intros [= <-]. cbn. split; [reflexivity|]. split; [reflexivity|].
  exists subject, line. split; [reflexivity|].
  destruct (find_first _ _ _ F) as (before & after & Hs & Hl & Hb).
  split.
  - now exists before, after.
  - symmetry. exact (replace_removes_prefix "CN=" line Hl).
Qed.

Lemma certEntries_describe (cs : list Certificate.t) (entries : list CertEntry) :
  certEntries cs = Ok entries -> Forall2 describes cs entries.
Proof.
  revert entries. induction cs as [|c cs IH]; intros entries.
  - intros [= <-]. constructor.
  - cbn [certEntries].
    destruct (certEntry c) as [entry|e] eqn:E; [|discriminate].
    destruct (certEntries cs) as [rest|e]; [|discriminate].
    intros [= <-]. constructor; [now apply certEntry_describes|now apply IH].
Qed.

(** One certificate on which the extraction throws makes the loop throw. *)
Lemma certEntries_throw (cs : list Certificate.t) (c : Certificate.t) (e : Thrown) :
  In c cs -> certEntry c = Throw e -> exists e', certEntries cs = Throw e'.
Proof.
  induction cs as [|c0 cs IH]; [contradiction|].
  intros [->|Hin] Hc; cbn [certEntries].
  - rewrite Hc. eauto.
  - destruct (certEntry c0) as [entry|e0]; [|eauto].
    destruct (IH Hin Hc) as (e' & ->). eauto.
Qed.

(** A subject with no [CN=] line: [find] gives [undefined] and [.replace]
    throws. *)
Lemma certEntry_without_CN (c : Certificate.t) (subject : string) :
  x509_subject (Certificate.cert c) = Ok subject ->
  (forall line, In line (Js.split Js.newline subject) -> Js.startsWith "CN=" line = false) ->
  certEntry c = Throw replaceOfUndefined.
Proof.
  intros Hs Hn. unfold certEntry. rewrite Hs.
  destruct (find _ _) as [line|] eqn:F; [|reflexivity].
  apply find_some in F as [Hin Hl]. rewrite (Hn line Hin) in Hl. discriminate.
Qed.

Lemma find_of_first {A} (f : A -> bool) (before after : list A) (x : A) :
  f x = true -> forallb (fun y => negb (f y)) before = true ->
  find f (before ++ x :: after) = Some x.
Proof.
  intros Fx. induction before as [|a before IH]; simpl; intros Hb.
  - now rewrite Fx.
  - apply andb_true_iff in Hb as [Ha Hb]. apply negb_true_iff in Ha. rewrite Ha. now apply IH.
Qed.

Lemma certEntry_returns (c : Certificate.t) :
  hasCommonName c -> exists entry, certEntry c = Ok entry.
Proof.
  intros (subject & line & Hs & before & after & Hsplit & Hl & Hb).
  unfold certEntry. rewrite Hs, Hsplit, (find_of_first _ _ _ _ Hl Hb). eauto.
Qed.

(** The loop ends when every certificate has a common name. *)
Lemma certEntries_return (cs : list Certificate.t) :
  Forall hasCommonName cs -> exists entries, certEntries cs = Ok entries.
Proof.
  induction 1 as [|c cs Hc _ IH]; cbn [certEntries]; [eauto|].
  destruct (certEntry_returns c Hc) as (entry & ->). destruct IH as (entries & ->). eauto.
Qed.

Lemma findMany_run {Row} (T : Table Row) (m : Row -> bool) (d : DB) (x x' : Ext) :
  storeFault x = (None, x') ->
  findMany T m {| db := d; ext := x |} = (Ok (filter m (rows T d)), {| db := d; ext := x' |}).
Proof. intros H. unfold findMany, storeCall. cbn. now rewrite H. Qed.

(** [listAllSettings] returns when the store answers its four reads and
    every certificate of the team has a common name. *)
Lemma listAllSettings_try_returns (request : Request unit unit) (w : World)
    (s : option Setting.t) (x0 x1 x2 x3 x4 : Ext) (entries : list CertEntry) :
  listSettings (db w) (ext w) = (Ok s, x0) ->
  storeFault x0 = (None, x1) -> storeFault x1 = (None, x2) ->
  storeFault x2 = (None, x3) -> storeFault x3 = (None, x4) ->
  certEntries (filter (ofTeam Certificate.teamId (teamId (user request))) (certificates (db w)))
  = Ok entries ->
  exists o,
    listAllSettings_try request w = (Ok (Object o), {| db := db w; ext := x4 |})
    /\ all_certificates o = entries.
Proof.
  intros L F1 F2 F3 F4 C. unfold listAllSettings_try. cbv zeta.
  assert (R : reading listSettings w = (Ok s, {| db := db w; ext := x0 |}))
    by (unfold reading; now rewrite L).
  rewrite (bind_run _ _ _ _ _ R).
  rewrite (bind_run _ _ _ _ _ (findMany_run sshKeyT _ (db w) x0 x1 F1)).
  rewrite (bind_run _ _ _ _ _ (findMany_run dockerRegistryT _ (db w) x1 x2 F2)).
  rewrite (bind_run _ _ _ _ _ (findMany_run dockerRegistryT _ (db w) x2 x3 F3)).
  rewrite (bind_run _ _ _ _ _ (findMany_run certificateT _ (db w) x3 x4 F4)).
  cbn [rows certificateT]. unfold bind, liftResult. rewrite C. cbn [ret].
  eexists. split; reflexivity.
Qed.

(** Under the same conditions the handler returns the object, with the
    keys of the team decrypted and the registries as the store has them,
    their passwords decrypted. *)
Lemma listAllSettings_returns (request : Request unit unit) (w : World)
    (s : option Setting.t) (x0 x1 x2 x3 x4 : Ext) :
  let t := teamId (user request) in
  listSettings (db w) (ext w) = (Ok s, x0) ->
  storeFault x0 = (None, x1) -> storeFault x1 = (None, x2) ->
  storeFault x2 = (None, x3) -> storeFault x3 = (None, x4) ->
  Forall hasCommonName (filter (ofTeam Certificate.teamId t) (certificates (db w))) ->
  exists o,
    listAllSettings request w = (Ok (Object o), {| db := db w; ext := x4 |})
    /\ all_sshKeys o = map unencryptedKey (filter (ofTeam SshKey.teamId t) (sshKeys (db w)))
    /\ public (all_registries o)
       = map decryptPassword (filter DockerRegistry.isSystemWide (dockerRegistries (db w)))
    /\ private (all_registries o)
       = map decryptPassword
           (filter (fun r => ofTeam DockerRegistry.teamId t r
                             && negb (DockerRegistry.isSystemWide r))
              (dockerRegistries (db w))).
Proof.
  cbv zeta. intros L F1 F2 F3 F4 Hcn.
  destruct (certEntries_return _ Hcn) as (entries & C).
  destruct (listAllSettings_try_returns request w s x0 x1 x2 x3 x4 entries L F1 F2 F3 F4 C)
    as (o & R & _).
  exists o. split.
  - unfold listAllSettings, tryCatch. now rewrite R.
  - apply listAllSettings_try_ok in R as (o' & [= <-] & _ & K & P & Q & _). auto.
Qed.

(** C7. When [listAllSettings] returns its object, the [certificates] it
    holds are, in the order the store returned the requesting team's
    certificates, one entry per certificate, with the certificate's [id]
    and [createdAt] and, as [commonName], the first line of the X.509
    subject that starts with [CN=], without that prefix. And it does return
    such an object when [listSettings] and the four reads of the store
    succeed and every certificate of the team has such a line. *)
Theorem listAllSettings_common_names (request : Request unit unit) (w : World) :
  let mine := filter (ofTeam Certificate.teamId (teamId (user request)))
                (certificates (db w)) in
  (forall (w' : World) (o : AllSettings),
     listAllSettings request w = (Ok (Object o), w') ->
     Forall2 describes mine (all_certificates o))
  /\ (forall (s : option Setting.t) (x0 x1 x2 x3 x4 : Ext),
       listSettings (db w) (ext w) = (Ok s, x0) ->
       storeFault x0 = (None, x1) -> storeFault x1 = (None, x2) ->
       storeFault x2 = (None, x3) -> storeFault x3 = (None, x4) ->
       Forall hasCommonName mine ->
       exists o,
         listAllSettings request w = (Ok (Object o), {| db := db w; ext := x4 |})
         /\ Forall2 describes mine (all_certificates o)).
Proof.
  cbv zeta. split.
  - intros w' o H. apply answered_from_try in H.
    apply listAllSettings_try_ok in H as (o' & [= <-] & _ & _ & _ & _ & C).
    now apply certEntries_describe.
  - intros s x0 x1 x2 x3 x4 L F1 F2 F3 F4 Hcn.
    destruct (certEntries_return _ Hcn) as (entries & C).
    destruct (listAllSettings_try_returns request w s x0 x1 x2 x3 x4 entries L F1 F2 F3 F4 C)
      as (o & R & <-).
    exists o. split.
    + unfold listAllSettings, tryCatch. now rewrite R.
    + now apply certEntries_describe.
Qed.

(** C9. If a certificate of the requesting team has a subject with no line
    that starts with [CN=], the extraction of its common name throws
    (reading [replace] of [undefined]); the [try] block of
    [listAllSettings] throws, the [catch] takes over, and in no state does
    the handler return the settings object. *)
Theorem certificate_without_CN_fails_listing (request : Request unit unit) (w : World)
    (c : Certificate.t) (subject : string) :
  In c (certificates (db w)) ->
  Certificate.teamId c = Some (teamId (user request)) ->
  x509_subject (Certificate.cert c) = Ok subject ->
  (forall line, In line (Js.split Js.newline subject) -> Js.startsWith "CN=" line = false) ->
  certEntry c = Throw replaceOfUndefined
  /\ (exists e w1,
        listAllSettings_try request w = (Throw e, w1)
        /\ listAllSettings request w = toErrorHandler e w1)
  /\ (forall o w', listAllSettings request w <> (Ok (Object o), w')).
Proof.
  intros Hin Ht Hs Hn.
  pose proof (certEntry_without_CN c subject Hs Hn) as Hc.
  assert (Hteam : In c (filter (ofTeam Certificate.teamId (teamId (user request)))
                          (certificates (db w)))).
  { apply filter_In. split; [exact Hin|].
    unfold ofTeam, columnIs. rewrite Ht. apply String.eqb_refl. }
  destruct (certEntries_throw _ _ _ Hteam Hc) as (e' & He').
  assert (Hno : forall v w', listAllSettings_try request w <> (Ok v, w')).
  { intros v w' H. apply listAllSettings_try_ok in H as (o & _ & _ & _ & _ & _ & C).
    cbv zeta in C. congruence. }
  split; [exact Hc|]. split.
  - unfold listAllSettings, tryCatch.
    destruct (listAllSettings_try request w) as [[v|e] w1] eqn:R.
    + exfalso. exact (Hno _ _ eq_refl).
    + now exists e, w1.
  - intros o w' H. apply answered_from_try in H. now apply Hno in H.
Qed.

(** *** Secrets: stored encrypted, listed decrypted *)

Lemma decryptPassword_stored (r : DockerRegistry.t) (stored : string) :
  DockerRegistry.password r = Some stored -> stored <> "" ->
  DockerRegistry.password (decryptPassword r) = Some (decrypt stored).
Proof.
  intros Hp Hs. unfold decryptPassword. rewrite Hp.
  destruct stored; [congruence|]. reflexivity.
Qed.

Lemma encryptedPassword_truthy (pw : string) :
  pw <> "" -> encryptedPassword (Some pw) = encrypt pw.
Proof. destruct pw; [congruence|reflexivity]. Qed.

(** C6. Provided [decrypt] undoes [encrypt]: when [saveSSHKey] replies 201
    to a request with private key [p], the store holds one more key row,
    with [encrypt p] as its private key, and every later [listAllSettings]
    of the same team that returns its object, run on these tables, lists
    that key with private key [decrypt (encrypt p)], that is [p]; and the
    listing does return its object, with that key in it, whenever
    [listSettings] and the four reads of the store succeed and the
    certificates of the team have their common names. Likewise the
    registries [listAllSettings] returns are the stored ones with every
    non-empty stored password decrypted, so a password stored as
    [encrypt pw] comes back as [pw]. *)
Theorem stored_secrets_round_trip
    (round_trip : decryptUndoesEncrypt)
    (save : Request SaveSSHKey.Body unit) (w w1 : World) :
  saveSSHKey save w = (Ok (Reply 201), w1) ->
  (exists id now,
     sshKeys (db w1) = sshKeys (db w) ++ [newKeyRow save id now]
     /\ SshKey.privateKey (newKeyRow save id now) = encrypt (SaveSSHKey.privateKey (body save))
     /\ (forall (list : Request unit unit) (w2 w3 : World) (o : AllSettings),
           teamId (user list) = teamId (user save) ->
           sshKeys (db w2) = sshKeys (db w1) ->
           listAllSettings list w2 = (Ok (Object o), w3) ->
           In {| key_id := id;
                 key_name := SaveSSHKey.name (body save);
                 key_privateKey := SaveSSHKey.privateKey (body save);
                 key_createdAt := now |} (all_sshKeys o))
     /\ (forall (list : Request unit unit) (w2 : World)
                (s : option Setting.t) (x0 x1 x2 x3 x4 : Ext),
           teamId (user list) = teamId (user save) ->
           sshKeys (db w2) = sshKeys (db w1) ->
           listSettings (db w2) (ext w2) = (Ok s, x0) ->
           storeFault x0 = (None, x1) -> storeFault x1 = (None, x2) ->
           storeFault x2 = (None, x3) -> storeFault x3 = (None, x4) ->
           Forall hasCommonName
             (filter (ofTeam Certificate.teamId (teamId (user list))) (certificates (db w2))) ->
           exists o,
             listAllSettings list w2 = (Ok (Object o), {| db := db w2; ext := x4 |})
             /\ In {| key_id := id;
                      key_name := SaveSSHKey.name (body save);
                      key_privateKey := SaveSSHKey.privateKey (body save);
                      key_createdAt := now |} (all_sshKeys o)))
  /\ (forall (list : Request unit unit) (w2 w3 : World) (o : AllSettings),
        listAllSettings list w2 = (Ok (Object o), w3) ->
        public (all_registries o)
        = map decryptPassword (filter DockerRegistry.isSystemWide (dockerRegistries (db w2)))
        /\ private (all_registries o)
           = map decryptPassword
               (filter (fun r => ofTeam DockerRegistry.teamId (teamId (user list)) r
                                 && negb (DockerRegistry.isSystemWide r))
                  (dockerRegistries (db w2))))
  /\ (forall (r : DockerRegistry.t) (pw : string),
        pw <> "" -> encrypt pw <> "" ->
        DockerRegistry.password r = Some (encryptedPassword (Some pw)) ->
        DockerRegistry.password (decryptPassword r) = Some pw).
Proof.
  intros H. apply replied_from_try in H.
  apply saveSSHKey_try_run in H as [[_ (e & He & _)]|(_ & _ & id & now & D)]; [discriminate|].
  assert (Listed : forall (asker : Request unit unit) (keys : list SshKey.t),
            teamId (user asker) = teamId (user save) ->
            keys = sshKeys (db w1) ->
            In {| key_id := id;
                  key_name := SaveSSHKey.name (body save);
                  key_privateKey := SaveSSHKey.privateKey (body save);
                  key_createdAt := now |}
               (map unencryptedKey (filter (ofTeam SshKey.teamId (teamId (user asker))) keys))).
  { intros asker keys Ht ->. rewrite D. cbn [sshKeys put sshKeyT]. apply in_map_iff.
    exists (newKeyRow save id now). split.
    - unfold unencryptedKey, newKeyRow. cbn. now rewrite round_trip.
    - apply filter_In. split; [apply in_or_app; right; now left|].
      unfold ofTeam, columnIs, newKeyRow. cbn. rewrite Ht. apply String.eqb_refl. }
  split; [|split].
  - exists id, now. split; [now rewrite D|]. split; [reflexivity|]. split.
    + intros list w2 w3 o Ht Hk L. apply answered_from_try in L.
      apply listAllSettings_try_ok in L as (o' & [= <-] & _ & K & _). cbv zeta in K.
      rewrite K. now apply Listed.
    + intros list w2 s x0 x1 x2 x3 x4 Ht Hk L F1 F2 F3 F4 Hcn.
      destruct (listAllSettings_returns list w2 s x0 x1 x2 x3 x4 L F1 F2 F3 F4 Hcn)
        as (o & R & K & _).
      exists o. split; [exact R|]. rewrite K. now apply Listed.
  - intros list w2 w3 o L. apply answered_from_try in L.
    apply listAllSettings_try_ok in L as (o' & [= <-] & _ & _ & P & Q & _). now split.
  - intros r pw Hpw He Hr. rewrite (encryptedPassword_truthy pw Hpw) in Hr.
    rewrite (decryptPassword_stored r _ Hr He). now rewrite round_trip.
Qed.

End Properties.

(** ** Runs on the lab installation *)

(** [checkDomain] on the lab: the fqdn is checked in lower case, the
    hostname without its port; a forced save skips the DNS check. *)
Example checkDomain_runs :
  let ask fqdn force : Request CheckDomain.Body CheckDomain.Params :=
    {| user := {| teamId := "team-a" |}; hostname := "coolify.example:3000";
       body := {| CheckDomain.fqdn := Some fqdn; CheckDomain.forceSave := force;
                  CheckDomain.dualCerts := false; CheckDomain.isDNSCheckEnabled := true |};
       params := {| CheckDomain.id := "app1" |} |} in
  fst (checkDomain (X := Lab.externals) (ask "App.Example.ORG" false)
         (Lab.world Lab.tablesWithDomain Lab.quiet))
  = Ok (Passed (X := Lab.externals) "coolify.example serves app.example.org")
  /\ fst (checkDomain (X := Lab.externals) (ask "Coolify.Example" false)
            (Lab.world Lab.tablesWithDomain Lab.quiet))
     = Ok (Passed (X := Lab.externals) "Domain already configured")
  /\ fst (checkDomain (X := Lab.externals) (ask "App.Example.ORG" true)
            (Lab.world Lab.tablesWithDomain Lab.quiet))
     = Ok Empty.
Proof. repeat split. Qed.


(** C2, as first stated, fails when a later update is refused: the store
    takes the first update of [saveSettings] and refuses the second (the
    one of [fqdn]); the request takes the error path and the settings row
    keeps the flags of the first update. *)
Lemma saveSettings_leaves_a_partial_update :
  saveSettings_try (X := Lab.externals) (Lab.from "team-a" Lab.newSettings)
    (Lab.world Lab.tables Lab.secondCallFails)
  = (Throw Lab.lockedDatabase, Lab.world Lab.tablesHalfSaved Lab.quiet)
  /\ saveSettings (X := Lab.externals) (Lab.from "team-a" Lab.newSettings)
       (Lab.world Lab.tables Lab.secondCallFails)
     = (Ok (Passed (X := Lab.externals) "database is locked"),
        Lab.world Lab.tablesHalfSaved Lab.quiet)
  /\ map Setting.doNotTrack (settings Lab.tables) = [false]
  /\ map Setting.doNotTrack (settings Lab.tablesHalfSaved) = [true]
  /\ map Setting.fqdn (settings Lab.tablesHalfSaved) = [None]
  /\ settings Lab.tablesHalfSaved <> settings Lab.tables.
Proof. repeat split. discriminate. Qed.

Lemma saveSettings_applies_a_prefix_witness :
  saveSettings (X := Lab.externals) (Lab.from "team-a" Lab.newSettings)
    (Lab.world Lab.tables Lab.secondCallFails)
  = toErrorHandler (X := Lab.externals) Lab.lockedDatabase
      (Lab.world Lab.tablesHalfSaved Lab.quiet)
  /\ settings (db (snd (saveSettings (X := Lab.externals)
                          (Lab.from "team-a" Lab.newSettings)
                          (Lab.world Lab.tables Lab.secondCallFails))))
     = [writeFlags Lab.newSettings Lab.theSetting].
Proof.
  pose proof (saveSettings_applies_a_prefix (X := Lab.externals)
                (Lab.from "team-a" Lab.newSettings)
                (Lab.world Lab.tables Lab.secondCallFails)) as H.
  cbv zeta in H. destruct H as (_ & T & _).
  destruct (T Lab.theSetting Lab.secondCallFails eq_refl eq_refl) as [P _].
  assert (K : 1 < List.length (settingWrites Lab.newSettings)) by (cbn; lia).
  destruct (P 1
              {| Lab.script := [Some Lab.lockedDatabase]; Lab.clock := 1700000000000 |}
              Lab.lockedDatabase Lab.quiet K eq_refl eq_refl) as (_ & H1 & H2).
  split; [exact H1|exact H2].
Defined.

(** C4, as first stated, fails: the store would take a second key named
    [deploy] (the create call alone adds the row), and it is the handler
    that refuses it, with its own message and without writing. *)
Lemma saveSSHKey_refuses_a_taken_name :
  create (X := Lab.externals) sshKeyT (newKeyRow (X := Lab.externals) Lab.secondDeployKey)
    (Lab.world Lab.tables Lab.quiet)
  = (Ok tt,
     Lab.world
       (put sshKeyT Lab.tables
          (sshKeys Lab.tables
           ++ [newKeyRow (X := Lab.externals) Lab.secondDeployKey "fresh" 1700000000000]))
       {| Lab.script := []; Lab.clock := 1700000000001 |})
  /\ saveSSHKey_try (X := Lab.externals) Lab.secondDeployKey (Lab.world Lab.tables Lab.quiet)
     = (Throw {| status := None;
                 message := Some "Name already used. Choose another one please." |},
        Lab.world Lab.tables Lab.quiet)
  /\ saveSSHKey (X := Lab.externals) Lab.secondDeployKey (Lab.world Lab.tables Lab.quiet)
     = (Ok (Passed (X := Lab.externals) "Name already used. Choose another one please."),
        Lab.world Lab.tables Lab.quiet).
Proof. repeat split. Qed.


Lemma deleteDockerRegistry_resets_references_witness :
  deleteDockerRegistry (X := Lab.externals) (Lab.from "team-a" {| OnlyIdInBody.id := "r1" |})
    (Lab.world Lab.tables Lab.quiet)
  = (Ok (Reply 201),
     Lab.world
       {| settings := settings Lab.tables;
          sshKeys := sshKeys Lab.tables;
          certificates := certificates Lab.tables;
          dockerRegistries := [Lab.dockerHub];
          applications := [Lab.appOnHub; toDefaultRegistry Lab.appOnTeamRegistry] |}
       Lab.quiet)
  /\ deleteDockerRegistry (X := Lab.externals) (Lab.from "0" {| OnlyIdInBody.id := "0" |})
       (Lab.world Lab.tables Lab.quiet)
     = (Ok (Reply 201), Lab.world Lab.tablesWithoutHub Lab.quiet)
  /\ (forall a,
        In a (applications
                (db (snd (deleteDockerRegistry (X := Lab.externals)
                            (Lab.from "team-a" {| OnlyIdInBody.id := "r1" |})
                            (Lab.world Lab.tables Lab.quiet))))) ->
        Application.dockerRegistryId a <> Some "r1")
  /\ (forall a,
        In a (applications
                (db (snd (deleteDockerRegistry (X := Lab.externals)
                            (Lab.from "0" {| OnlyIdInBody.id := "0" |})
                            (Lab.world Lab.tables Lab.quiet))))) ->
        Application.dockerRegistryId a <> Some "0").
Proof.
  split; [reflexivity|]. split; [reflexivity|]. split.
  - pose proof (deleteDockerRegistry_resets_references (X := Lab.externals)
                  (Lab.from "team-a" {| OnlyIdInBody.id := "r1" |})
                  (Lab.world Lab.tables Lab.quiet)) as H.
    cbv zeta in H. destruct H as (_ & _ & R).
    destruct (R eq_refl) as (_ & _ & Q & _). apply Q. discriminate.
  - pose proof (deleteDockerRegistry_resets_references (X := Lab.externals)
                  (Lab.from "0" {| OnlyIdInBody.id := "0" |})
                  (Lab.world Lab.tables Lab.quiet)) as H.
    cbv zeta in H. destruct H as (_ & _ & R).
    destruct (R eq_refl) as (_ & _ & _ & _ & Q).
    intros a. apply (Q ltac:(repeat constructor; simpl; intuition discriminate) Lab.dockerHub).
    now left.
Defined.

Lemma listAllSettings_common_names_witness :
  listAllSettings (X := Lab.externals) (Lab.from "team-a" tt) (Lab.world Lab.tables Lab.quiet)
  = (Ok (Object Lab.listed), Lab.world Lab.tables Lab.quiet)
  /\ Forall2 (describes (X := Lab.externals))
       [Lab.withCN; Lab.wildcard]
       [ {| commonName := "coolify.example"; cert_id := "c1"; cert_createdAt := 1600000000001 |};
         {| commonName := "*.example.org"; cert_id := "c3"; cert_createdAt := 1600000000003 |} ].
Proof.
  split; [reflexivity|].
  exact (proj1 (listAllSettings_common_names (X := Lab.externals) (Lab.from "team-a" tt)
                  (Lab.world Lab.tables Lab.quiet))
           (Lab.world Lab.tables Lab.quiet) Lab.listed eq_refl).
Defined.

Lemma certificate_without_CN_fails_listing_witness :
  In Lab.withoutCN (certificates Lab.tablesWithBadCertificate)
  /\ certEntry (X := Lab.externals) Lab.withoutCN = Throw replaceOfUndefined
  /\ (exists e w1,
        listAllSettings_try (X := Lab.externals) (Lab.from "team-a" tt)
          (Lab.world Lab.tablesWithBadCertificate Lab.quiet) = (Throw e, w1)
        /\ listAllSettings (X := Lab.externals) (Lab.from "team-a" tt)
             (Lab.world Lab.tablesWithBadCertificate Lab.quiet) = toErrorHandler e w1)
  /\ (forall o w',
        listAllSettings (X := Lab.externals) (Lab.from "team-a" tt)
          (Lab.world Lab.tablesWithBadCertificate Lab.quiet) <> (Ok (Object o), w')).
Proof.
  assert (I : In Lab.withoutCN (certificates Lab.tablesWithBadCertificate))
    by (right; left; reflexivity).
  split; [exact I|].
  apply (certificate_without_CN_fails_listing (X := Lab.externals) (Lab.from "team-a" tt)
           (Lab.world Lab.tablesWithBadCertificate Lab.quiet) Lab.withoutCN
           (Certificate.cert Lab.withoutCN)).
  - exact I.
  - reflexivity.
  - reflexivity.
  - intros line H. simpl in H. destruct H as [<-|[<-|[]]]; reflexivity.
Defined.

(** The certificates of team-a on the lab have their common names. *)
Lemma lab_certificates_have_common_names :
  Forall (hasCommonName (X := Lab.externals))
    (filter (ofTeam Certificate.teamId "team-a") (certificates Lab.tables)).
Proof.
  repeat constructor.
  - exists (Certificate.cert Lab.withCN), "CN=coolify.example". split; [reflexivity|].
    exists ["C=HU"], ["O=Lab"]. repeat split.
  - exists (Certificate.cert Lab.wildcard), "CN=*.example.org". split; [reflexivity|].
    exists ["O=Lab"], ["CN=second"]. repeat split.
Qed.

Lemma stored_secrets_round_trip_witness :
  decryptUndoesEncrypt (X := Lab.externals)
  /\ saveSSHKey (X := Lab.externals) Lab.ciKey (Lab.world Lab.tables Lab.quiet)
     = (Ok (Reply 201),
        Lab.world (put sshKeyT Lab.tables
                     (sshKeys Lab.tables
                      ++ [newKeyRow (X := Lab.externals) Lab.ciKey "fresh" 1700000000000]))
          {| Lab.script := []; Lab.clock := 1700000000001 |})
  /\ exists id now,
       sshKeys (db (snd (saveSSHKey (X := Lab.externals) Lab.ciKey
                           (Lab.world Lab.tables Lab.quiet))))
       = sshKeys Lab.tables ++ [newKeyRow (X := Lab.externals) Lab.ciKey id now]
       /\ SshKey.privateKey (newKeyRow (X := Lab.externals) Lab.ciKey id now) = "enc:SECRET"
       /\ exists o,
            listAllSettings (X := Lab.externals) (Lab.from "team-a" tt)
              (snd (saveSSHKey (X := Lab.externals) Lab.ciKey (Lab.world Lab.tables Lab.quiet)))
            = (Ok (Object o),
               Lab.world (put sshKeyT Lab.tables
                            (sshKeys Lab.tables
                             ++ [newKeyRow (X := Lab.externals) Lab.ciKey "fresh" 1700000000000]))
                 {| Lab.script := []; Lab.clock := 1700000000001 |})
            /\ In {| key_id := id; key_name := "ci"; key_privateKey := "SECRET";
                     key_createdAt := now |} (all_sshKeys o).
Proof.
  split; [intros p; reflexivity|]. split; [reflexivity|].
  destruct (stored_secrets_round_trip (X := Lab.externals) (fun p => eq_refl)
              Lab.ciKey (Lab.world Lab.tables Lab.quiet)
              (snd (saveSSHKey (X := Lab.externals) Lab.ciKey
                      (Lab.world Lab.tables Lab.quiet)))
              eq_refl) as ((id & now & Hrows & Hkey & _ & Hlist) & _).
  exists id, now. split; [exact Hrows|]. split; [exact Hkey|].
  exact (Hlist (Lab.from "team-a" tt)
           (snd (saveSSHKey (X := Lab.externals) Lab.ciKey (Lab.world Lab.tables Lab.quiet)))
           (Some Lab.theSetting)
           {| Lab.script := []; Lab.clock := 1700000000001 |}
           {| Lab.script := []; Lab.clock := 1700000000001 |}
           {| Lab.script := []; Lab.clock := 1700000000001 |}
           {| Lab.script := []; Lab.clock := 1700000000001 |}
           {| Lab.script := []; Lab.clock := 1700000000001 |}
           eq_refl eq_refl eq_refl eq_refl eq_refl eq_refl eq_refl
           lab_certificates_have_common_names).
Defined.

(** ** Two more facts about the handlers *)

(** X1. The reset of [deleteDockerRegistry] is not scoped by team: when no
    registry row carries both the id and the requester's team and the
    handler replies 201, no registry is deleted, and yet the applications
    are the reset ones: every application that named the id, whoever uses
    it, names ['0']. *)
Theorem deleteDockerRegistry_resets_whatever_the_team {X : Externals}
    (request : Request OnlyIdInBody.Body unit) (w : World) :
  let id := OnlyIdInBody.id (body request) in
  let t := teamId (user request) in
  let d' := db (snd (deleteDockerRegistry request w)) in
  (forall r, In r (dockerRegistries (db w)) ->
             idAndTeam DockerRegistry.id DockerRegistry.teamId id t r = false) ->
  fst (deleteDockerRegistry request w) = Ok (Reply 201) ->
  dockerRegistries d' = dockerRegistries (db w)
  /\ applications d' = updateAll (usesRegistry id) toDefaultRegistry (applications (db w))
  /\ (forall a, In a (applications (db w)) -> Application.dockerRegistryId a = Some id ->
                In (toDefaultRegistry a) (applications d')).
Proof.
  cbv zeta. intros Hnone H.
  apply deleteDockerRegistry_replied in H as (apps & A & ->). cbv zeta in A. simpl.
  rewrite (filter_none _ _ Hnone) in A.
  rewrite referentialAction_none in A by reflexivity. injection A as <-.
  split; [now apply deleteAll_none|]. split; [reflexivity|].
  intros a. apply reset_rewrites_references.
Qed.

Lemma deleteDockerRegistry_resets_whatever_the_team_witness :
  fst (deleteDockerRegistry (X := Lab.externals) (Lab.from "team-b" {| OnlyIdInBody.id := "r1" |})
         (Lab.world Lab.tables Lab.quiet)) = Ok (Reply 201)
  /\ dockerRegistries
       (db (snd (deleteDockerRegistry (X := Lab.externals)
                   (Lab.from "team-b" {| OnlyIdInBody.id := "r1" |})
                   (Lab.world Lab.tables Lab.quiet))))
     = [Lab.dockerHub; Lab.teamRegistry]
  /\ applications
       (db (snd (deleteDockerRegistry (X := Lab.externals)
                   (Lab.from "team-b" {| OnlyIdInBody.id := "r1" |})
                   (Lab.world Lab.tables Lab.quiet))))
     = [Lab.appOnHub; toDefaultRegistry Lab.appOnTeamRegistry].
Proof.
  split; [reflexivity|].
  pose proof (deleteDockerRegistry_resets_whatever_the_team (X := Lab.externals)
                (Lab.from "team-b" {| OnlyIdInBody.id := "r1" |})
                (Lab.world Lab.tables Lab.quiet)) as H.
  cbv zeta in H.
  destruct (H ltac:(intros r [<-|[<-|[]]]; reflexivity) eq_refl) as (R & A & _).
  split; [exact R|exact A].
Defined.

(** * More properties *)

(** ** [load] with a token *)

(** X2. With a [token] cookie and [get('/user')] answering, [load] resolves
    to an object with no status and no redirect whose [props] hold the
    answer and [baseSettings] and whose [stuff] holds the answer, on every
    path, and the cookie is not touched. *)
Theorem load_signed_in {C : Layout.Client} (pathname token : string)
    (b b1 b2 : Layout.Browser) (bs r : Layout.Payload) :
  Layout.get "/base" b = (Ok bs, b1) ->
  Layout.Cookies_get "token" b1 = Some token -> token <> "" ->
  Layout.get "/user" b1 = (Ok r, b2) ->
  Layout.load pathname b =
  (Ok {| Layout.out_status := None; Layout.out_redirect := None; Layout.out_error := None;
         Layout.out_props := {| Layout.response := Some r; Layout.baseSettings := bs |};
         Layout.out_stuff := Some r |}, b2).
Proof.
  intros Hbase Htoken Hne Huser.
  unfold Layout.load. rewrite (bind_run _ _ _ _ _ Hbase).
  unfold tryCatch, bind, Layout.readCookie. rewrite Htoken.
  destruct token; [congruence|]. cbn [Js.truthyOpt Js.truthy]. now rewrite Huser.
Qed.

Lemma load_signed_in_witness :
  Layout.load (C := Lab.client) "/settings" (Some "jwt") =
  (Ok {| Layout.out_status := None; Layout.out_redirect := None; Layout.out_error := None;
         Layout.out_props := @Layout.Build_Props Lab.client (Some "/user") "/base";
         Layout.out_stuff := Some "/user" |}, Some "jwt").
Proof.
  apply (load_signed_in (C := Lab.client) "/settings" "jwt" (Some "jwt") (Some "jwt")
           (Some "jwt") "/base" "/user"); try reflexivity. discriminate.
Defined.

(** X3. With a [token] cookie and [get('/user')] throwing [e], [load] runs
    its [catch]. When the test of the [catch] itself throws on [e] (as it
    does on [undefined], on [null] and on a code with nothing to call),
    [load] rejects with what the test threw and leaves the cookie. When
    the test answers, the [token] cookie is removed exactly when it
    answered true; off [/login] (also on [/register]) [load] then resolves
    to the 302 redirect to [/login], and on [/login] it resolves to status
    500 carrying the message of [new Error(e)], or rejects when making that
    message throws. For an error whose [code] is a string or nullish and
    whose reads all answer, [load] resolves and the test is: the code
    starts with [FAST_JWT], or the status is 401. *)
Theorem load_when_the_user_request_fails {C : Layout.Client} (pathname token : string)
    (b b1 b2 : Layout.Browser) (bs : Layout.Payload) (e : Layout.ApiError) :
  Layout.get "/base" b = (Ok bs, b1) ->
  Layout.Cookies_get "token" b1 = Some token -> token <> "" ->
  Layout.get "/user" b1 = (Throw e, b2) ->
  (forall t, Layout.rejectedToken e = Throw t -> Layout.load pathname b = (Throw t, b2))
  /\ (forall r, Layout.rejectedToken e = Ok r ->
        let b3 := if r then Layout.Cookies_remove "token" b2 else b2 in
        (pathname <> "/login" -> Layout.load pathname b = (Ok (Layout.redirectToLogin bs), b3))
        /\ (forall m, pathname = "/login" -> Layout.newError e = Ok m ->
              Layout.load pathname b = (Ok (Layout.serverError m bs), b3))
        /\ (forall t, pathname = "/login" -> Layout.newError e = Throw t ->
              Layout.load pathname b = (Throw t, b3)))
  /\ (e = Layout.Undefined \/ e = Layout.Null
      \/ (exists status text, e = Layout.Value (Ok (Layout.OtherCode None)) status text) ->
      Layout.load pathname b = (Throw (Layout.raised e), b2))
  /\ (forall code status text,
        e = Layout.plain code status text ->
        Layout.load pathname b =
        (Ok (if String.eqb pathname "/login" then Layout.serverError text bs
             else Layout.redirectToLogin bs),
         if match code with Some c => Js.startsWith "FAST_JWT" c | None => false end
            || match status with Some n => Z.eqb n 401 | None => false end
         then Layout.Cookies_remove "token" b2 else b2)).
Proof.
  intros Hbase Htoken Hne Huser.
  assert (L : Layout.load pathname b =
              match Layout.rejectedToken e with
              | Throw t => (Throw t, b2)
              | Ok r =>
                  let b3 := if r then Layout.Cookies_remove "token" b2 else b2 in
                  if String.eqb pathname "/login"
                  then match Layout.newError e with
                       | Ok m => (Ok (Layout.serverError m bs), b3)
                       | Throw t => (Throw t, b3)
                       end
                  else (Ok (Layout.redirectToLogin bs), b3)
              end).
  { unfold Layout.load. rewrite (bind_run _ _ _ _ _ Hbase).
    unfold tryCatch, bind, Layout.readCookie. rewrite Htoken.
    destruct token; [congruence|]. cbn [Js.truthyOpt Js.truthy]. rewrite Huser.
    unfold Layout.removeCookie, liftResult.
    destruct (Layout.rejectedToken e) as [[|]|t]; [| |reflexivity];
      destruct (String.eqb pathname "/login"); cbn;
      try reflexivity; destruct (Layout.newError e); reflexivity. }
  split; [|split; [|split]].
  - intros t R. now rewrite L, R.
  - intros r R b3. rewrite L, R. fold b3. split; [|split].
    + intros N. apply String.eqb_neq in N. now rewrite N.
    + intros m -> E. now rewrite E.
    + intros t -> E. now rewrite E.
  - intros [->|[->|(status & text & ->)]]; rewrite L; reflexivity.
  - intros code status text ->. rewrite L.
    destruct code as [c|], status as [n|]; cbn;
      try destruct (Js.startsWith "FAST_JWT" c); cbn;
      try destruct (Z.eqb n 401); cbn;
      destruct (String.eqb pathname "/login"); reflexivity.
Qed.

Lemma load_when_the_user_request_fails_witness :
  Layout.load (C := Trial.client Trial.expiredToken) "/register" (Some "jwt")
  = (Ok (Layout.redirectToLogin (C := Trial.client Trial.expiredToken) "/base"), None)
  /\ Layout.load (C := Trial.client Trial.unreachable) "/login" (Some "jwt")
     = (Ok (Layout.serverError (C := Trial.client Trial.unreachable)
              "Error: Bad Gateway" "/base"),
        Some "jwt")
  /\ Layout.load (C := Trial.client Layout.Undefined) "/settings" (Some "jwt")
     = (Throw (Layout.Value (Ok Layout.NoCode) (Ok None)
                 (Ok "TypeError: Cannot read properties of undefined (reading 'status')")),
        Some "jwt")
  /\ Layout.load (C := Trial.client Trial.numbered) "/login" (Some "jwt")
     = (Throw (Layout.Value (Ok Layout.NoCode) (Ok None)
                 (Ok "TypeError: error.code.startsWith is not a function")),
        Some "jwt").
Proof.
  split; [|split; [|split]].
  - destruct (load_when_the_user_request_fails (C := Trial.client Trial.expiredToken)
                "/register" "jwt" (Some "jwt") (Some "jwt") (Some "jwt") "/base"
                Trial.expiredToken eq_refl eq_refl ltac:(discriminate) eq_refl)
      as (_ & _ & _ & P).
    exact (P (Some "FAST_JWT_EXPIRED") (Some 401%Z) "Error: jwt expired" eq_refl).
  - destruct (load_when_the_user_request_fails (C := Trial.client Trial.unreachable)
                "/login" "jwt" (Some "jwt") (Some "jwt") (Some "jwt") "/base"
                Trial.unreachable eq_refl eq_refl ltac:(discriminate) eq_refl)
      as (_ & _ & _ & P).
    exact (P None (Some 502%Z) "Error: Bad Gateway" eq_refl).
  - destruct (load_when_the_user_request_fails (C := Trial.client Layout.Undefined)
                "/settings" "jwt" (Some "jwt") (Some "jwt") (Some "jwt") "/base"
                Layout.Undefined eq_refl eq_refl ltac:(discriminate) eq_refl)
      as (_ & _ & U & _).
    apply U. now left.
  - destruct (load_when_the_user_request_fails (C := Trial.client Trial.numbered)
                "/login" "jwt" (Some "jwt") (Some "jwt") (Some "jwt") "/base"
                Trial.numbered eq_refl eq_refl ltac:(discriminate) eq_refl)
      as (_ & _ & U & _).
    apply U. right. right. now eexists _, _.
Defined.

(** X4. Once [get('/base')] has answered, [load] either resolves, with
    [props] that carry [baseSettings] and with no redirect but the 302 to
    [/login], which it never gives on [/login] itself; or it rejects, and
    that only when there is a [token] cookie, [get('/user')] threw a value
    [e], and the [catch] itself threw on [e]: in its test, or on [/login]
    in [new Error(e)]. When [get('/base')] fails, [load] rejects with that
    error: that call stands before the [try]. *)
Theorem load_resolves {C : Layout.Client} (pathname : string) (b : Layout.Browser) :
  (forall bs b1,
     Layout.get "/base" b = (Ok bs, b1) ->
     (exists out b',
        Layout.load pathname b = (Ok out, b')
        /\ Layout.baseSettings (Layout.out_props out) = bs
        /\ (Layout.out_redirect out = None
            \/ (Layout.out_redirect out = Some "/login"
                /\ Layout.out_status out = Some 302%Z /\ pathname <> "/login")))
     \/ (exists e b2 t b',
           Js.truthyOpt (Layout.Cookies_get "token" b1) = true
           /\ Layout.get "/user" b1 = (Throw e, b2)
           /\ Layout.load pathname b = (Throw t, b')
           /\ (Layout.rejectedToken e = Throw t
               \/ (pathname = "/login" /\ Layout.newError e = Throw t))))
  /\ (forall e b1,
        Layout.get "/base" b = (Throw e, b1) -> Layout.load pathname b = (Throw e, b1)).
Proof.
  split.
  - intros bs b1 Hbase. unfold Layout.load. rewrite (bind_run _ _ _ _ _ Hbase).
    unfold tryCatch, bind, Layout.readCookie, Layout.removeCookie, liftResult.
    destruct (Js.truthyOpt (Layout.Cookies_get "token" b1)) eqn:T.
    + destruct (Layout.get "/user" b1) as [[r|e] b2].
      * left. cbn. eexists _, _. split; [reflexivity|]. cbn. auto.
      * destruct (Layout.rejectedToken e) as [r|t] eqn:R.
        -- destruct (String.eqb_spec pathname "/login") as [L|L].
           ++ destruct (Layout.newError e) as [m|t] eqn:N.
              ** left. destruct r; cbn;
                   (eexists _, _; split; [reflexivity|]; cbn; auto).
              ** right. exists e, b2, t. destruct r; cbn;
                   (eexists; repeat split; auto).
           ++ left. destruct r; cbn;
                (eexists _, _; split; [reflexivity|]; cbn; auto).
        -- right. exists e, b2, t, b2. auto.
    + left. destruct (String.eqb_spec pathname "/login") as [L|L]; cbn.
      * eexists _, _. split; [reflexivity|]. cbn. auto.
      * destruct (String.eqb pathname "/register"); cbn;
          (eexists _, _; split; [reflexivity|]; cbn; auto).
  - intros e b1 Hbase. unfold Layout.load. now rewrite (bind_abort _ _ _ _ _ Hbase).
Qed.

(** ** The [start-service] listener *)

Lemma lookup_replace (id k : string) (v : Z) (m : Shell.Startup) :
  Shell.has id m = true ->
  Shell.lookup k (Shell.replace id v m)
  = if String.eqb k id then Some v else Shell.lookup k m.
Proof.
  unfold Shell.has. induction m as [|[k0 v0] m IH]; simpl; [discriminate|].
  destruct (String.eqb_spec k0 id) as [->|N]; simpl.
  - intros _. destruct (String.eqb_spec id k) as [->|N'].
    + now rewrite String.eqb_refl.
    + destruct (String.eqb_spec k id); [congruence|reflexivity].
  - intros H. destruct (String.eqb_spec k0 k) as [->|N'].
    + destruct (String.eqb_spec k id); [congruence|reflexivity].
    + now apply IH.
Qed.

Lemma lookup_insert (id k : string) (v : Z) (m : Shell.Startup) :
  Shell.has id m = false ->
  Shell.lookup k (Shell.insert id v m)
  = if String.eqb k id then Some v else Shell.lookup k m.
Proof.
  unfold Shell.has. induction m as [|[k0 v0] m IH]; simpl.
  - intros _. now rewrite (String.eqb_sym id k).
  - intros H. apply orb_false_iff in H as [H0 H].
    destruct (Shell.listedBefore id k0); simpl.
    + rewrite (String.eqb_sym id k). now destruct (String.eqb k id).
    + destruct (String.eqb_spec k0 k) as [->|N'].
      * now rewrite H0.
      * now apply IH.
Qed.

Lemma lookup_assign (id k : string) (v : Z) (m : Shell.Startup) :
  Shell.lookup k (Shell.assign id v m)
  = if String.eqb k id then Some v else Shell.lookup k m.
Proof.
  unfold Shell.assign. destruct (Shell.has id m) eqn:H.
  - now apply lookup_replace.
  - now apply lookup_insert.
Qed.

Lemma lookup_remove (id k : string) (m : Shell.Startup) :
  Shell.lookup k (Shell.remove id m)
  = if String.eqb k id then None else Shell.lookup k m.
Proof.
  unfold Shell.remove. induction m as [|[k0 v0] m IH]; simpl.
  - now destruct (String.eqb k id).
  - destruct (String.eqb_spec k0 id) as [->|N]; simpl.
    + rewrite IH. destruct (String.eqb_spec k id) as [->|N'].
      * reflexivity.
      * destruct (String.eqb_spec id k); [congruence|reflexivity].
    + destruct (String.eqb_spec k0 k) as [->|N'].
      * destruct (String.eqb_spec k id); [congruence|reflexivity].
      * exact IH.
Qed.

Lemma replace_keys (id : string) (v : Z) (m : Shell.Startup) :
  map fst (Shell.replace id v m) = map fst m.
Proof.
  induction m as [|[k0 v0] m IH]; simpl; [reflexivity|].
  destruct (String.eqb k0 id); simpl; [reflexivity|]. now rewrite IH.
Qed.

Lemma insert_keys (id k : string) (v : Z) (m : Shell.Startup) :
  In k (map fst (Shell.insert id v m)) <-> k = id \/ In k (map fst m).
Proof.
  induction m as [|[k0 v0] m IH]; simpl.
  - intuition.
  - destruct (Shell.listedBefore id k0); simpl; [intuition|].
    rewrite IH. intuition.
Qed.

Lemma has_keys (id : string) (m : Shell.Startup) :
  Shell.has id m = false -> ~ In id (map fst m).
Proof.
  unfold Shell.has. intros H Hin. apply in_map_iff in Hin as ([k v] & E & Hin).
  simpl in E. subst k. rewrite <- not_true_iff_false in H. apply H.
  apply existsb_exists. exists (id, v). split; [exact Hin|apply String.eqb_refl].
Qed.

(** Assigning keeps the keys of the object distinct. *)
Lemma assign_keys (id : string) (v : Z) (m : Shell.Startup) :
  NoDup (map fst m) -> NoDup (map fst (Shell.assign id v m)).
Proof.
  unfold Shell.assign. destruct (Shell.has id m) eqn:H.
  - now rewrite replace_keys.
  - apply has_keys in H. induction m as [|[k0 v0] m IH]; simpl; intros N.
    + repeat constructor. auto.
    + destruct (Shell.listedBefore id k0); simpl.
      * constructor; [exact H|exact N].
      * inversion N as [|? ? Hn N']; subst. constructor.
        -- rewrite insert_keys. intros [->|Hin]; [|contradiction].
           apply H. now left.
        -- apply IH; [|exact N']. intros Hin. apply H. now right.
Qed.

Lemma remove_assign (id : string) (v : Z) (m : Shell.Startup) :
  Shell.remove id (Shell.assign id v m) = Shell.remove id m.
Proof.
  unfold Shell.assign, Shell.remove. destruct (Shell.has id m).
  - induction m as [|[k0 v0] m IH]; simpl; [reflexivity|].
    destruct (String.eqb k0 id) eqn:E; simpl; rewrite E; simpl; [reflexivity|].
    now rewrite IH.
  - induction m as [|[k0 v0] m IH]; simpl.
    + now rewrite String.eqb_refl.
    + destruct (Shell.listedBefore id k0); simpl.
      * now rewrite String.eqb_refl.
      * destruct (String.eqb k0 id); simpl; now rewrite IH.
Qed.

Lemma NoDup_filter {A} (f : A -> bool) (g : A -> string) (l : list A) :
  NoDup (map g l) -> NoDup (map g (filter f l)).
Proof.
  induction l as [|a l IH]; simpl; [trivial|].
  intros N. inversion N as [|? ? Hn N']; subst.
  destruct (f a); simpl; [|now apply IH].
  constructor; [|now apply IH].
  intros Hin. apply Hn. apply in_map_iff in Hin as (a' & E & Hin).
  apply in_map_iff. exists a'. split; [exact E|]. now apply filter_In in Hin.
Qed.

(** X5. After the [start-service] listener has handled a message, the entry
    of the message's service is gone when the state is 0 or 1 and is the
    state otherwise; every other service's entry is as before; with state
    0 or 1 the result is the map before without that service (the
    assignment leaves no trace), and keys that were distinct stay
    distinct. *)
Theorem start_service_listener (message : Shell.StartService) (startup : Shell.Startup) :
  let id := Shell.serviceId message in
  let st := Shell.state message in
  let ended := Z.eqb st 0 || Z.eqb st 1 in
  (forall k, Shell.lookup k (Shell.onStartService message startup)
             = if String.eqb k id then (if ended then None else Some st)
               else Shell.lookup k startup)
  /\ (ended = true -> Shell.onStartService message startup = Shell.remove id startup)
  /\ (NoDup (map fst startup) -> NoDup (map fst (Shell.onStartService message startup))).
Proof.
  cbv zeta. unfold Shell.onStartService. cbv zeta.
  destruct (Z.eqb (Shell.state message) 0 || Z.eqb (Shell.state message) 1) eqn:E.
  - split; [|split].
    + intros k. rewrite lookup_remove, lookup_assign.
      now destruct (String.eqb k (Shell.serviceId message)).
    + intros _. apply remove_assign.
    + intros N. rewrite remove_assign. now apply NoDup_filter.
  - split; [|split].
    + intros k. apply lookup_assign.
    + discriminate.
    + intros N. now apply assign_keys.
Qed.

(** ** The navigation *)

Lemma starts_with_split (p s : string) :
  Js.startsWith p s = true -> exists rest, s = String.append p rest.
Proof.
  intros H. exists (Js.drop (String.length p) s). symmetry. now apply prefix_drop.
Qed.

(** The four tests on the path that highlight a link exclude one another. *)
Lemma highlights_exclude (wide : bool) (p : string) :
  let dashboard := String.eqb p "/" in
  let servers := if wide then Js.startsWith "/servers" p else String.eqb p "/servers" in
  let iam := Js.startsWith "/iam" p in
  let settings := Js.startsWith "/settings" p in
  (dashboard = true -> servers = false /\ iam = false /\ settings = false)
  /\ (servers = true -> iam = false /\ settings = false)
  /\ (iam = true -> settings = false).
Proof.
  cbv zeta. split; [|split].
  - intros H. apply String.eqb_eq in H. subst. now destruct wide.
  - intros H.
    assert (S : exists rest, p = String.append "/servers" rest).
    { destruct wide; [now apply starts_with_split|].
      apply String.eqb_eq in H. subst. now exists "". }
    destruct S as (rest & ->). now split.
  - intros H. apply starts_with_split in H as (rest & ->). reflexivity.
Qed.

(** X6. Whatever the session and the path, the side bar highlights at most
    one of its links, and so does the drawer. *)
Theorem navigation_highlights_at_most_one (s : Shell.Session) (pathname : string) :
  (List.length (Shell.lit (Shell.sidebar s pathname)) <= 1)%nat
  /\ (List.length (Shell.lit (Shell.drawer s pathname)) <= 1)%nat.
Proof.
  pose proof (highlights_exclude false pathname) as (D & Sv & I).
  pose proof (highlights_exclude true pathname) as (D' & Sv' & I').
  cbv zeta in *. unfold Shell.lit, Shell.sidebar, Shell.drawer. split.
  - destruct (Js.truthyOpt (Shell.userId s)); [|simpl; lia].
    destruct (Shell.rootTeam s); cbn [app filter map Shell.highlighted].
    + destruct (String.eqb pathname "/") eqn:E1.
      * destruct (D eq_refl) as (-> & -> & ->). simpl. lia.
      * destruct (String.eqb pathname "/servers") eqn:E2.
        -- destruct (Sv eq_refl) as (-> & ->). simpl. lia.
        -- destruct (Js.startsWith "/iam" pathname) eqn:E3.
           ++ rewrite (I eq_refl). simpl. lia.
           ++ destruct (Js.startsWith "/settings" pathname); simpl; lia.
    + destruct (String.eqb pathname "/") eqn:E1.
      * destruct (D eq_refl) as (_ & -> & ->). simpl. lia.
      * destruct (Js.startsWith "/iam" pathname) eqn:E3.
        -- rewrite (I eq_refl). simpl. lia.
        -- destruct (Js.startsWith "/settings" pathname); simpl; lia.
  - cbn [filter map Shell.highlighted].
    destruct (String.eqb pathname "/") eqn:E1.
    + destruct (D' eq_refl) as (-> & -> & ->). simpl. lia.
    + destruct (Js.startsWith "/servers" pathname) eqn:E2.
      * destruct (Sv' eq_refl) as (-> & ->). simpl. lia.
      * destruct (Js.startsWith "/iam" pathname) eqn:E3.
        -- rewrite (I' eq_refl). simpl. lia.
        -- destruct (Js.startsWith "/settings" pathname); simpl; lia.
Qed.

(** X7. Following a link of a menu highlights that link and no other: for
    every link the side bar (or the drawer) shows, on whatever path, the
    menu rendered on the link's [href] highlights exactly the link's item. *)
Theorem navigation_link_highlights_itself (s : Shell.Session) (pathname : string)
    (l : Shell.Link) :
  (In l (Shell.sidebar s pathname) ->
   Shell.lit (Shell.sidebar s (Shell.href l)) = [Shell.item l])
  /\ (In l (Shell.drawer s pathname) ->
      Shell.lit (Shell.drawer s (Shell.href l)) = [Shell.item l]).
Proof.
  unfold Shell.lit, Shell.sidebar, Shell.drawer, Shell.settingsHref. split.
  - destruct (Js.truthyOpt (Shell.userId s)); [|contradiction].
    destruct (Shell.rootTeam s); destruct (Nat.ltb 0 (Shell.pendingInvitations s));
      cbn [app In]; intros H;
      repeat (destruct H as [<-|H]; [reflexivity|]); contradiction.
  - destruct (Shell.rootTeam s); cbn [In]; intros H;
      repeat (destruct H as [<-|H]; [reflexivity|]); contradiction.
Qed.

(** ** More on the handlers *)

Section MoreProperties.
Context {X : Externals}.

(** *** Handlers that only read *)

Lemma keeps_ret {A} (a : A) : keepsTables (ret a).
Proof. now intros w. Qed.

Lemma keeps_throw {A} (e : Thrown) : keepsTables (throw e : M A).
Proof. now intros w. Qed.

Lemma keeps_liftResult {A} (r : Result Thrown A) : keepsTables (liftResult r).
Proof. now intros w. Qed.

Lemma keeps_outside {A} (f : Ext -> Result Thrown A * Ext) : keepsTables (outside f).
Proof. intros w. apply outside_db. Qed.

Lemma keeps_reading {A} (f : DB -> Ext -> Result Thrown A * Ext) : keepsTables (reading f).
Proof. intros w. apply reading_db. Qed.

Lemma keeps_effect (f : Ext -> Ext) : keepsTables (effect f).
Proof. now intros w. Qed.

Lemma keeps_findMany {Row} (T : Table Row) (m : Row -> bool) : keepsTables (findMany T m).
Proof.
  intros w. destruct (findMany T m w) as [r w'] eqn:F.
  now apply findMany_inv in F as [D _].
Qed.

Lemma keeps_bind {A B} (c : M A) (k : A -> M B) :
  keepsTables c -> (forall a, keepsTables (k a)) -> keepsTables (bind c k).
Proof.
  intros Hc Hk w. unfold bind. specialize (Hc w).
  destruct (c w) as [[a|e] w1]; simpl in Hc.
  - now rewrite Hk.
  - exact Hc.
Qed.

Lemma keeps_if {A} (b : bool) (c1 c2 : M A) :
  keepsTables c1 -> keepsTables c2 -> keepsTables (if b then c1 else c2).
Proof. now destruct b. Qed.

Lemma keeps_tryCatch {A} (c : M A) (h : Thrown -> M A) :
  keepsTables c -> (forall e, keepsTables (h e)) -> keepsTables (tryCatch c h).
Proof.
  intros Hc Hh w. unfold tryCatch. specialize (Hc w).
  destruct (c w) as [[a|e] w1]; simpl in Hc.
  - exact Hc.
  - now rewrite Hh.
Qed.

Lemma keeps_toErrorHandler (e : Thrown) : keepsTables (toErrorHandler e).
Proof. intros w. apply toErrorHandler_db. Qed.

Ltac keeps :=
  repeat first
    [ apply keeps_ret | apply keeps_throw | apply keeps_liftResult | apply keeps_outside
    | apply keeps_reading | apply keeps_effect | apply keeps_findMany
    | apply keeps_toErrorHandler
    | apply keeps_bind; [|intro] | apply keeps_if | apply keeps_tryCatch; [|intro] ].

(** X8. [listAllSettings], [checkDomain] and [checkDNS] never write: in
    every run, also one that fails at any step, the tables afterwards are
    the tables before. *)
Theorem reading_handlers_never_write
    (list : Request unit unit) (check : Request CheckDomain.Body CheckDomain.Params)
    (dns : Request unit CheckDNS.Params) (w : World) :
  db (snd (listAllSettings list w)) = db w
  /\ db (snd (checkDomain check w)) = db w
  /\ db (snd (checkDNS dns w)) = db w.
Proof.
  split; [|split].
  - assert (K : keepsTables (listAllSettings list)).
    { unfold listAllSettings, listAllSettings_try. cbv zeta. keeps. }
    apply K.
  - assert (K : keepsTables (checkDomain check)).
    { unfold checkDomain, checkDomain_try. cbv zeta. keeps. }
    apply K.
  - assert (K : keepsTables (checkDNS dns)).
    { unfold checkDNS, checkDNS_try. cbv zeta. keeps. }
    apply K.
Qed.

(** *** Who is shown what *)

Lemma columnIs_spec (column : option string) (wanted : string) :
  columnIs column wanted = true <-> column = Some wanted.
Proof.
  unfold columnIs. destruct column as [v|].
  - rewrite String.eqb_eq. split; congruence.
  - split; discriminate.
Qed.

(** X9. When [listAllSettings] returns its object to a user of team [t],
    it lists exactly the SSH keys of team [t], each with its private key
    decrypted; as private registries exactly the registries of team [t]
    that are not system-wide; and as public registries every system-wide
    registry, of whatever team; registries come with a non-empty stored
    password decrypted. *)
Theorem listAllSettings_scope (request : Request unit unit) (w w' : World) (o : AllSettings) :
  listAllSettings request w = (Ok (Object o), w') ->
  let t := teamId (user request) in
  (forall k, In k (all_sshKeys o) <->
             exists row, In row (sshKeys (db w)) /\ SshKey.teamId row = Some t
                         /\ k = unencryptedKey row)
  /\ (forall r, In r (private (all_registries o)) <->
                exists row, In row (dockerRegistries (db w))
                            /\ DockerRegistry.teamId row = Some t
                            /\ DockerRegistry.isSystemWide row = false
                            /\ r = decryptPassword row)
  /\ (forall r, In r (public (all_registries o)) <->
                exists row, In row (dockerRegistries (db w))
                            /\ DockerRegistry.isSystemWide row = true
                            /\ r = decryptPassword row).
Proof.
  intros H. apply answered_from_try in H.
  apply listAllSettings_try_ok in H as (o' & [= <-] & _ & K & P & Q & _).
  cbv zeta in *. rewrite K, P, Q. split; [|split].
  - intros k. rewrite in_map_iff. split.
    + intros (row & <- & Hin). apply filter_In in Hin as [Hin Ht].
      exists row. split; [exact Hin|]. split; [now apply columnIs_spec|reflexivity].
    + intros (row & Hin & Ht & ->). exists row. split; [reflexivity|].
      apply filter_In. split; [exact Hin|]. now apply columnIs_spec.
  - intros r. rewrite in_map_iff. split.
    + intros (row & <- & Hin). apply filter_In in Hin as [Hin Ht].
      apply andb_true_iff in Ht as [Ht Hs]. apply negb_true_iff in Hs.
      exists row. split; [exact Hin|]. split; [now apply columnIs_spec|]. now split.
    + intros (row & Hin & Ht & Hs & ->). exists row. split; [reflexivity|].
      apply filter_In. split; [exact Hin|]. apply andb_true_iff. split.
      * now apply columnIs_spec.
      * now rewrite Hs.
  - intros r. rewrite in_map_iff. split.
    + intros (row & <- & Hin). apply filter_In in Hin as [Hin Hs]. now exists row.
    + intros (row & Hin & Hs & ->). exists row. split; [reflexivity|].
      apply filter_In. now split.
Qed.

(** *** The registry handlers *)

Lemma put_registry_same (d : DB) (l : list DockerRegistry.t) :
  sameButRegistries d (put dockerRegistryT d l).
Proof. now repeat split. Qed.

Lemma sameButRegistries_refl (d : DB) : sameButRegistries d d.
Proof. now repeat split. Qed.



Lemma setDockerRegistry_try_run (request : Request SetDefaultRegistry.Body unit)
    (w w' : World) (r : Result Thrown Response) :
  setDockerRegistry_try request w = (r, w') ->
  let b := body request in
  let t := teamId (user request) in
  let write := writeCredentials (SetDefaultRegistry.username b)
                 (encryptedPassword (SetDefaultRegistry.password b)) in
  (exists e, r = Throw e /\ db w' = db w)
  \/ (r = Ok (Reply 201)
      /\ db w' = put dockerRegistryT (db w)
                   (if String.eqb t "0"
                    then updateFirst
                           (fun row => String.eqb (DockerRegistry.id row) (SetDefaultRegistry.id b))
                           write (dockerRegistries (db w))
                    else updateAll
                           (idAndTeam DockerRegistry.id DockerRegistry.teamId
                              (SetDefaultRegistry.id b) t)
                           write (dockerRegistries (db w)))).
Proof.
  unfold setDockerRegistry_try. cbv zeta. unfold bind. intros H.
  destruct (String.eqb (teamId (user request)) "0").
  - match type of H with
    | context [update ?T ?m ?f ?s] => destruct (update T m f s) as [r1 w1] eqn:U
    end.
    apply update_inv in U as [(e & -> & D)|[-> D]]; injection H as <- <-.
    + left. eauto.
    + right. now split.
  - match type of H with
    | context [updateMany ?T ?m ?f ?s] => destruct (updateMany T m f s) as [r1 w1] eqn:U
    end.
    apply updateMany_inv in U as [(e & -> & D)|[-> D]]; injection H as <- <-.
    + left. eauto.
    + right. now split.
Qed.

Lemma storeCall_run {A} (f : DB -> Result Thrown A * DB) (w : World) :
  fst (storeFault (ext w)) = None ->
  fst (storeCall f w) = fst (f (db w)) /\ db (snd (storeCall f w)) = snd (f (db w)).
Proof.
  unfold storeCall. destruct (storeFault (ext w)) as [fault x]. simpl. intros ->.
  now destruct (f (db w)).
Qed.

(** Rows of other teams are not rewritten by an update by id and team. *)
Lemma updateAll_other_teams {Row} (rowId : Row -> string) (team : Row -> option string)
    (id t : string) (data : Row -> Row) (l : list Row) :
  (forall r, team (data r) = team r) ->
  ofOtherTeams team t (updateAll (idAndTeam rowId team id t) data l) = ofOtherTeams team t l.
Proof.
  intros Hteam. unfold ofOtherTeams, updateAll, idAndTeam.
  induction l as [|r l IH]; [reflexivity|]. simpl.
  destruct (columnIs (team r) t) eqn:Ht.
  - destruct (String.eqb (rowId r) id); simpl.
    + rewrite Hteam, Ht. simpl. exact IH.
    + rewrite Ht. simpl. exact IH.
  - rewrite andb_false_r. rewrite Ht. simpl. now rewrite IH.
Qed.

Lemma updateAll_rewritten {Row} (m : Row -> bool) (data : Row -> Row) (l : list Row) (r : Row) :
  (forall x, m (data x) = m x) ->
  In r (updateAll m data l) -> m r = true -> exists x, In x l /\ r = data x.
Proof.
  intros Hm Hin Hr. unfold updateAll in Hin. apply in_map_iff in Hin as (x & E & Hin).
  exists x. split; [exact Hin|]. destruct (m x) eqn:Mx; [now symmetry|].
  subst. congruence.
Qed.

Lemma update_ok_inv {Row} (T : Table Row) (m : Row -> bool) (data : Row -> Row)
    (w w' : World) (r : Result Thrown unit) :
  update T m data w = (r, w') ->
  (exists e, r = Throw e /\ db w' = db w)
  \/ (r = Ok tt /\ existsb m (rows T (db w)) = true
      /\ db w' = put T (db w) (updateFirst m data (rows T (db w)))).
Proof.
  intros H. apply storeCall_inv in H as [L|[-> D]]; [now left|].
  destruct (existsb m (rows T (db w))); simpl in *; [now right|left; eauto].
Qed.

(** X11. [setDockerRegistry] touches the registries only. For a requester
    outside team ['0'] it rewrites, in one call, the rows that carry both
    the id and the requester's team; the rows of every other team stay as
    they are; and it replies 201 whenever the store takes the call, also
    when no row matched. For a requester of team ['0'], when the store
    takes the call: if a row has the id, the handler replies 201 and the
    first such row, whatever its team, is rewritten; if none has it, the
    [try] block throws what [update] throws for a missing record and
    nothing is written; and a 201 reply means the row was there and was
    rewritten. A rewritten row gets the encrypted submitted password, which
    is the empty string when no password (or an empty one) was submitted:
    the stored password is then lost. *)
Theorem setDockerRegistry_scope (request : Request SetDefaultRegistry.Body unit) (w : World) :
  let b := body request in
  let t := teamId (user request) in
  let id := SetDefaultRegistry.id b in
  let stored := encryptedPassword (SetDefaultRegistry.password b) in
  let write := writeCredentials (SetDefaultRegistry.username b) stored in
  let hasId := fun row => String.eqb (DockerRegistry.id row) id in
  let mine := idAndTeam DockerRegistry.id DockerRegistry.teamId id t in
  let before := dockerRegistries (db w) in
  let d' := db (snd (setDockerRegistry request w)) in
  sameButRegistries (db w) d'
  /\ (t <> "0" ->
      (dockerRegistries d' = before \/ dockerRegistries d' = updateAll mine write before)
      /\ ofOtherTeams DockerRegistry.teamId t (dockerRegistries d')
         = ofOtherTeams DockerRegistry.teamId t before
      /\ (fst (storeFault (ext w)) = None ->
          fst (setDockerRegistry request w) = Ok (Reply 201)
          /\ dockerRegistries d' = updateAll mine write before)
      /\ (fst (setDockerRegistry request w) = Ok (Reply 201) ->
          forall r, In r (dockerRegistries d') -> mine r = true ->
                    DockerRegistry.password r = Some stored))
  /\ (t = "0" ->
      (dockerRegistries d' = before \/ dockerRegistries d' = updateFirst hasId write before)
      /\ (fst (storeFault (ext w)) = None -> existsb hasId before = false ->
          fst (setDockerRegistry_try request w) = Throw recordNotFound /\ d' = db w)
      /\ (fst (storeFault (ext w)) = None -> existsb hasId before = true ->
          fst (setDockerRegistry request w) = Ok (Reply 201)
          /\ dockerRegistries d' = updateFirst hasId write before)
      /\ (fst (setDockerRegistry request w) = Ok (Reply 201) ->
          existsb hasId before = true
          /\ dockerRegistries d' = updateFirst hasId write before
          /\ forall r rest, before = r :: rest -> hasId r = true ->
                            dockerRegistries d' = write r :: rest))
  /\ (Js.truthyOpt (SetDefaultRegistry.password b) = false -> stored = "").
Proof.
  cbv zeta. unfold setDockerRegistry. rewrite tryCatch_db.
  destruct (setDockerRegistry_try request w) as [r w'] eqn:R.
  pose proof (setDockerRegistry_try_run request w w' r R) as Run. cbv zeta in Run.
  cbn [snd]. split; [|split; [|split]].
  - destruct Run as [(e & _ & ->)|[_ ->]];
      [apply sameButRegistries_refl|apply put_registry_same].
  - intros Ht. apply String.eqb_neq in Ht. rewrite Ht in Run.
    assert (Hteam : forall x, DockerRegistry.teamId
                                (writeCredentials (SetDefaultRegistry.username (body request))
                                   (encryptedPassword (SetDefaultRegistry.password (body request))) x)
                              = DockerRegistry.teamId x) by reflexivity.
    split; [|split; [|split]].
    + destruct Run as [(e & _ & ->)|[_ ->]]; [now left|now right].
    + destruct Run as [(e & _ & ->)|[_ ->]]; [reflexivity|].
      cbn [dockerRegistries put dockerRegistryT]. now apply updateAll_other_teams.
    + intros SF.
      assert (T : setDockerRegistry_try request w
                  = (updateMany dockerRegistryT
                       (idAndTeam DockerRegistry.id DockerRegistry.teamId
                          (SetDefaultRegistry.id (body request)) (teamId (user request)))
                       (writeCredentials (SetDefaultRegistry.username (body request))
                          (encryptedPassword (SetDefaultRegistry.password (body request)))) ;;
                     ret (Reply 201)) w).
      { unfold setDockerRegistry_try. cbv zeta. now rewrite Ht. }
      rewrite R in T. unfold bind, updateMany in T.
      match type of T with
      | context [storeCall ?f w] =>
          pose proof (storeCall_run f w SF) as [F1 F2]; destruct (storeCall f w) as [r1 w1]
      end.
      cbn [fst snd] in *. subst r1. injection T as -> ->.
      unfold tryCatch. rewrite R. cbn [fst]. split; [reflexivity|]. now rewrite F2.
    + intros H201 r0 Hin Hm. apply replied_fst in H201. rewrite R in H201. cbn in H201.
      destruct Run as [(e & -> & _)|[_ D]]; [discriminate|]. rewrite D in Hin.
      cbn [dockerRegistries put dockerRegistryT] in Hin.
      apply updateAll_rewritten in Hin as (x & _ & ->); [reflexivity| |exact Hm].
      intros x. reflexivity.
  - intros Ht. rewrite Ht in Run. rewrite String.eqb_refl in Run.
    assert (T : setDockerRegistry_try request w
                = (update dockerRegistryT
                     (fun row => String.eqb (DockerRegistry.id row)
                                   (SetDefaultRegistry.id (body request)))
                     (writeCredentials (SetDefaultRegistry.username (body request))
                        (encryptedPassword (SetDefaultRegistry.password (body request)))) ;;
                   ret (Reply 201)) w).
    { unfold setDockerRegistry_try. cbv zeta. now rewrite Ht, String.eqb_refl. }
    split; [|split; [|split]].
    + destruct Run as [(e & _ & ->)|[_ ->]]; [now left|now right].
    + intros SF Hnone. destruct (storeFault (ext w)) as [fault x] eqn:F. simpl in SF. subst fault.
      rewrite (bind_abort _ _ _ _ _ (update_not_found dockerRegistryT _ _ w x F Hnone)) in T.
      rewrite T in R. injection R as <- <-. now split.
    + intros SF Hsome. destruct (storeFault (ext w)) as [fault x] eqn:F. simpl in SF. subst fault.
      rewrite (bind_run _ _ _ _ _ (update_accepted dockerRegistryT _ _ w x F Hsome)) in T.
      rewrite T in R. injection R as <- <-. unfold tryCatch. rewrite T. now split.
    + intros H201. apply replied_fst in H201. rewrite R in H201. cbn in H201. subst r.
      rewrite T in R. unfold bind in R.
      match type of R with
      | context [update ?T ?m ?f w] => destruct (update T m f w) as [r1 w1] eqn:U
      end.
      apply update_ok_inv in U as [(e & -> & _)|(-> & E & D)]; [discriminate|].
      injection R as <-. rewrite D. cbn [rows dockerRegistries put dockerRegistryT] in *.
      split; [exact E|]. split; [reflexivity|].
      intros r0 rest Hb Hr. rewrite Hb. cbn [updateFirst]. now rewrite Hr.
  - intros Hp. destruct (SetDefaultRegistry.password (body request)) as [[|c p]|];
      [reflexivity|discriminate|reflexivity].
Qed.

(** *** [deleteDomain] *)

Lemma bind_keeps_inv {A B} (c : M A) (k : A -> M B) (w w' : World) (r : Result Thrown B) :
  keepsTables c -> bind c k w = (r, w') ->
  (exists e, r = Throw e /\ db w' = db w)
  \/ (exists a w1, db w1 = db w /\ k a w1 = (r, w')).
Proof.
  intros K H. unfold bind in H. specialize (K w).
  destruct (c w) as [[a|e] w1]; simpl in K.
  - right. now exists a, w1.
  - injection H as <- <-. left. now exists e.
Qed.

Lemma redirected_fst (body : M Response) (w : World) (code : Z) (url : option string) :
  fst (tryCatch body toErrorHandler w) = Ok (Redirect code url) ->
  fst (body w) = Ok (Redirect code url).
Proof.
  unfold tryCatch. destruct (body w) as [[v|e] w1]; [trivial|].
  rewrite toErrorHandler_run. cbn [fst].
  destruct (fst (errorHandler (status e) (message e) (ext w1))); discriminate.
Qed.

(** The redirect of line 599. *)
Lemma deleteDomain_try_run (request : Request DeleteDomain.Body unit) (w w' : World)
    (r : Result Thrown Response) :
  deleteDomain_try request w = (r, w') ->
  let m := fun row => columnIs (Setting.fqdn row) (DeleteDomain.fqdn (body request)) in
  (exists e, r = Throw e /\ db w' = db w)
  \/ (existsb m (settings (db w)) = true
      /\ db w' = put settingT (db w) (updateFirst m (writeFqdn None) (settings (db w)))
      /\ (r = Ok (Redirect 302 None)
          \/ exists addresses,
               r = Ok (Redirect 302
                         (Some (String.append "http://"
                                  (String.append (Js.first addresses) ":3000/settings")))))).
Proof.
  unfold deleteDomain_try. cbv zeta. intros H.
  apply bind_keeps_inv in H as [L|(s & w1 & D1 & H)]; [now left| |apply keeps_reading].
  apply bind_keeps_inv in H as [(e & -> & D)|(dns & w2 & D2 & H)];
    [left; exists e; split; congruence| |destruct s; [apply keeps_ret|apply keeps_throw]].
  apply bind_keeps_inv in H as [(e & -> & D)|(u & w3 & D3 & H)];
    [left; exists e; split; congruence| |apply keeps_if; [apply keeps_outside|apply keeps_ret]].
  apply bind_keeps_inv in H as [(e & -> & D)|(ip & w4 & D4 & H)];
    [left; exists e; split; congruence| |].
  2:{ apply keeps_tryCatch; [|intro; apply keeps_ret].
      apply keeps_bind; [apply keeps_outside|intro; apply keeps_ret]. }
  assert (E : db w4 = db w) by congruence.
  unfold bind in H.
  match type of H with
  | context [update ?T ?m ?f ?s] => destruct (update T m f s) as [r1 w5] eqn:U
  end.
  apply update_ok_inv in U as [(e & -> & D)|(-> & Ex & D)]; injection H as <- <-.
  - left. exists e. split; congruence.
  - right. cbn [rows settingT] in *. rewrite E in Ex, D. split; [exact Ex|]. split; [exact D|].
    destruct ip as [addresses|]; [right; now exists addresses|now left].
Qed.

(** Up to its update, [deleteDomain] reads the settings, sets the DNS
    servers and resolves the domain. *)
Lemma deleteDomain_try_resolved (request : Request DeleteDomain.Body unit) (w : World)
    (row : Setting.t) (x1 x1' x2 : Ext) (resolved : Result Thrown (list string)) :
  listSettings (db w) (ext w) = (Ok (Some row), x1) ->
  serversSet row x1 = Some x1' ->
  dns_resolve (DeleteDomain.fqdn (body request)) x1' = (resolved, x2) ->
  deleteDomain_try request w
  = (update settingT (fun r => columnIs (Setting.fqdn r) (DeleteDomain.fqdn (body request)))
       (writeFqdn None) ;;
     ret (Redirect 302 (redirectTarget resolved))) {| db := db w; ext := x2 |}.
Proof.
  intros L S R. unfold deleteDomain_try. cbv zeta.
  assert (R1 : reading listSettings w = (Ok (Some row), {| db := db w; ext := x1 |}))
    by (unfold reading; now rewrite L).
  rewrite (bind_run _ _ _ _ _ R1).
  rewrite (bind_run (destructure "DNSServers" Setting.DNSServers (Some row)) _ _
             (Setting.DNSServers row) _ eq_refl).
  assert (R2 : when (Js.truthyOpt (Setting.DNSServers row))
                 (outside (dns_setServers (Js.split Js.comma (orKeep (Setting.DNSServers row) ""))))
                 {| db := db w; ext := x1 |}
               = (Ok tt, {| db := db w; ext := x1' |})).
  { unfold serversSet in S. unfold when.
    destruct (Js.truthyOpt (Setting.DNSServers row)).
    - unfold outside. cbn [ext db].
      destruct (dns_setServers _ x1) as [[[]|e] x] eqn:D; [|discriminate]. now injection S as <-.
    - now injection S as <-. }
  rewrite (bind_run _ _ _ _ _ R2).
  assert (R3 : tryCatch
                 (r <- outside (dns_resolve (DeleteDomain.fqdn (body request))) ;; ret (Some r))
                 (fun _ => ret None) {| db := db w; ext := x1' |}
               = (Ok (match resolved with Ok a => Some a | Throw _ => None end),
                  {| db := db w; ext := x2 |})).
  { unfold tryCatch, bind, outside. cbn [ext db]. rewrite R. now destruct resolved. }
  rewrite (bind_run _ _ _ _ _ R3). now destruct resolved.
Qed.

(** A run of the [try] block that returned went through all of that. *)
Lemma deleteDomain_try_returned (request : Request DeleteDomain.Body unit) (w w' : World)
    (v : Response) :
  deleteDomain_try request w = (Ok v, w') ->
  exists row x1 x1' resolved x2,
    listSettings (db w) (ext w) = (Ok (Some row), x1)
    /\ serversSet row x1 = Some x1'
    /\ dns_resolve (DeleteDomain.fqdn (body request)) x1' = (resolved, x2)
    /\ fst (storeFault x2) = None
    /\ ext w' = snd (storeFault x2)
    /\ v = Redirect 302 (redirectTarget resolved).
Proof.
  intros H.
  destruct (listSettings (db w) (ext w)) as [[[row|]|e] x1] eqn:L.
  - destruct (serversSet row x1) as [x1'|] eqn:S.
    + destruct (dns_resolve (DeleteDomain.fqdn (body request)) x1') as [resolved x2] eqn:R.
      rewrite (deleteDomain_try_resolved request w row x1 x1' x2 resolved L S R) in H.
      apply bind_ok in H as ([] & w1 & U & H). injection H as <- <-.
      exists row, x1, x1', resolved, x2. repeat split; auto.
      * unfold update, storeCall in U. cbn [ext] in U.
        destruct (storeFault x2) as [[e|] x3]; [discriminate|reflexivity].
      * unfold update, storeCall in U. cbn [ext db] in U.
        destruct (storeFault x2) as [[e|] x3]; [discriminate|].
        destruct (existsb _ _); [|discriminate]. now injection U as <-.
    + exfalso. unfold deleteDomain_try in H. cbv zeta in H.
      assert (R1 : reading listSettings w = (Ok (Some row), {| db := db w; ext := x1 |}))
        by (unfold reading; now rewrite L).
      rewrite (bind_run _ _ _ _ _ R1) in H.
      rewrite (bind_run (destructure "DNSServers" Setting.DNSServers (Some row)) _ _
                 (Setting.DNSServers row) _ eq_refl) in H.
      unfold serversSet in S. unfold bind at 1 in H. unfold when in H.
      destruct (Js.truthyOpt (Setting.DNSServers row)); [|discriminate].
      unfold outside in H. cbn [ext db] in H.
      destruct (dns_setServers _ x1) as [[[]|e] x]; discriminate.
  - exfalso. unfold deleteDomain_try in H. cbv zeta in H.
    assert (R1 : reading listSettings w = (Ok None, {| db := db w; ext := x1 |}))
      by (unfold reading; now rewrite L).
    rewrite (bind_run _ _ _ _ _ R1) in H.
    rewrite (bind_abort (destructure "DNSServers" Setting.DNSServers None) _ _
               (destructureNull "DNSServers") _ eq_refl) in H. discriminate.
  - exfalso. unfold deleteDomain_try in H. cbv zeta in H.
    assert (R1 : reading listSettings w = (Throw e, {| db := db w; ext := x1 |}))
      by (unfold reading; now rewrite L).
    rewrite (bind_abort _ _ _ _ _ R1) in H. discriminate.
Qed.

(** X12. [deleteDomain] writes at most the settings table, and at most by
    setting the [fqdn] of the first settings row that has the submitted
    fqdn to [null]. When it answers with a redirect, the code is 302, such
    a row existed and was cleared, [dns.resolve] was asked for the
    submitted fqdn (after the configured DNS servers, if any, were set),
    and the target is [http://<first address it gave>:3000/settings], or
    absent when it threw. When no settings row has the fqdn, nothing is
    written and no redirect is given. Conversely, when [listSettings]
    gives a row, setting the servers does not throw, the store takes the
    update and a settings row has the fqdn, the answer is that redirect
    and the row is cleared: also when the domain does not resolve. *)
Theorem deleteDomain_outcome (request : Request DeleteDomain.Body unit) (w : World) :
  let f := DeleteDomain.fqdn (body request) in
  let m := fun row => columnIs (Setting.fqdn row) f in
  let before := settings (db w) in
  let cleared := updateFirst m (writeFqdn None) before in
  let d' := db (snd (deleteDomain request w)) in
  sameButSettings (db w) d'
  /\ (settings d' = before \/ settings d' = cleared)
  /\ (forall code url,
        fst (deleteDomain request w) = Ok (Redirect code url) ->
        code = 302%Z /\ existsb m before = true /\ settings d' = cleared
        /\ exists row x1 x1' resolved x2,
             listSettings (db w) (ext w) = (Ok (Some row), x1)
             /\ serversSet row x1 = Some x1'
             /\ dns_resolve f x1' = (resolved, x2)
             /\ url = redirectTarget resolved)
  /\ (existsb m before = false ->
      d' = db w /\ forall code url, fst (deleteDomain request w) <> Ok (Redirect code url))
  /\ (forall row x1 x1' resolved x2 x3,
        listSettings (db w) (ext w) = (Ok (Some row), x1) ->
        serversSet row x1 = Some x1' ->
        dns_resolve f x1' = (resolved, x2) ->
        storeFault x2 = (None, x3) ->
        existsb m before = true ->
        deleteDomain request w
        = (Ok (Redirect 302 (redirectTarget resolved)),
           {| db := put settingT (db w) cleared; ext := x3 |}))
  /\ (forall addresses,
        redirectTarget (Ok addresses)
        = Some (String.append "http://" (String.append (Js.first addresses) ":3000/settings")))
  /\ (forall e, redirectTarget (Throw e) = None).
Proof.
  cbv zeta. unfold deleteDomain. rewrite tryCatch_db.
  destruct (deleteDomain_try request w) as [r w'] eqn:R.
  pose proof (deleteDomain_try_run request w w' r R) as Run. cbv zeta in Run. cbn [snd].
  split; [|split; [|split; [|split; [|split; [|split]]]]].
  - destruct Run as [(e & _ & ->)|(_ & -> & _)];
      [apply sameButSettings_refl|apply put_setting_same].
  - destruct Run as [(e & _ & ->)|(_ & -> & _)]; [now left|now right].
  - intros code url H. apply redirected_fst in H. rewrite R in H. cbn [fst] in H. subst r.
    destruct (deleteDomain_try_returned request w w' _ R)
      as (row & x1 & x1' & resolved & x2 & L & S & D & _ & _ & [= -> ->]).
    destruct Run as [(e & He & _)|(Ex & -> & _)]; [discriminate|].
    split; [reflexivity|]. split; [exact Ex|]. split; [reflexivity|].
    exists row, x1, x1', resolved, x2. auto.
  - intros Hnone. destruct Run as [(e & -> & D)|(Ex & _)]; [|congruence].
    split; [exact D|]. intros code url H. apply redirected_fst in H.
    rewrite R in H. discriminate.
  - intros row x1 x1' resolved x2 x3 L S D SF Ex. clear Run.
    rewrite (deleteDomain_try_resolved request w row x1 x1' x2 resolved L S D) in R.
    rewrite (bind_run _ _ _ _ _
               (update_accepted settingT _ _ {| db := db w; ext := x2 |} x3 SF Ex)) in R.
    injection R as <- <-. unfold tryCatch.
    rewrite (deleteDomain_try_resolved request w row x1 x1' x2 resolved L S D).
    now rewrite (bind_run _ _ _ _ _
                   (update_accepted settingT _ _ {| db := db w; ext := x2 |} x3 SF Ex)).
  - reflexivity.
  - reflexivity.
Qed.

(** *** [saveSettings]: what its updates amount to *)

Lemma updateFirst_compose {Row} (m : Row -> bool) (f g : Row -> Row) (l : list Row) :
  (forall r, m (f r) = m r) ->
  updateFirst m g (updateFirst m f l) = updateFirst m (fun r => g (f r)) l.
Proof.
  intros Hm. induction l as [|r l IH]; [reflexivity|]. simpl.
  destruct (m r) eqn:Mr; simpl.
  - now rewrite Hm, Mr.
  - rewrite Mr. now rewrite IH.
Qed.

Lemma updateFirst_same {Row} (m : Row -> bool) (l : list Row) :
  updateFirst m (fun r => r) l = l.
Proof.
  induction l as [|r l IH]; [reflexivity|]. simpl. destruct (m r); [reflexivity|now rewrite IH].
Qed.

Lemma updateFirst_keeps {Row B} (m : Row -> bool) (f : Row -> Row) (p : Row -> B)
    (l : list Row) :
  (forall r, p (f r) = p r) -> map p (updateFirst m f l) = map p l.
Proof.
  intros Hp. induction l as [|r l IH]; [reflexivity|]. simpl.
  destruct (m r); simpl; [now rewrite Hp|now rewrite IH].
Qed.

(** Updates that keep the id of a row all land on the same row: sent one
    after the other they are one update. *)
Lemma applyWrites_one (id : string) (writes : list (Setting.t -> Setting.t))
    (table : list Setting.t) :
  Forall (fun write => forall s, Setting.id (write s) = Setting.id s) writes ->
  applyWrites id writes table
  = updateFirst (settingId id) (fun s => fold_left (fun row write => write row) writes s) table.
Proof.
  intros Hid. revert table. induction Hid as [|write rest Hw _ IH]; intros table.
  - cbn. symmetry. apply updateFirst_same.
  - unfold applyWrites in *. cbn [fold_left]. rewrite IH.
    apply updateFirst_compose. intros r. unfold settingId. now rewrite Hw.
Qed.

Lemma applyWrites_keeps {B} (p : Setting.t -> B) (id : string)
    (writes : list (Setting.t -> Setting.t)) (table : list Setting.t) :
  Forall (fun write => forall s, p (write s) = p s) writes ->
  map p (applyWrites id writes table) = map p table.
Proof.
  intros Hp. revert table. induction Hp as [|write rest Hw _ IH]; intros table.
  - reflexivity.
  - unfold applyWrites in *. cbn [fold_left]. rewrite IH. now apply updateFirst_keeps.
Qed.

Lemma Forall_firstn {A} (P : A -> Prop) (n : nat) (l : list A) :
  Forall P l -> Forall P (firstn n l).
Proof.
  intros H. rewrite <- (firstn_skipn n l) in H. now apply Forall_app in H as [H _].
Qed.

(** In every run of [saveSettings] the settings table ends as the table
    before with some first updates applied; all of them, to the row
    [listSettings] gave, when the reply is 201. *)
Lemma saveSettings_run (request : Request SaveSettings.Body unit) (w : World) :
  exists id done,
    settings (db (snd (saveSettings request w)))
    = applyWrites id (firstn done (settingWrites (body request))) (settings (db w))
    /\ (fst (saveSettings request w) = Ok (Reply 201) ->
        done = List.length (settingWrites (body request))
        /\ exists row, fst (listSettings (db w) (ext w)) = Ok (Some row) /\ Setting.id row = id).
Proof.
  unfold saveSettings. rewrite tryCatch_db.
  destruct (saveSettings_try_cases request w) as [(e & x & R)|(row & x & L & R)].
  - exists "", 0. rewrite R. cbn. split; [reflexivity|].
    intros H. apply replied_fst in H. rewrite R in H. discriminate.
  - set (w0 := {| db := db w; ext := x |}) in *.
    destruct (thenWrites (Setting.id row) (settingWrites (body request)) _ w0)
      as [r w'] eqn:T.
    rewrite R. cbn [snd].
    assert (Hfst : fst (tryCatch (saveSettings_try request) toErrorHandler w) = Ok (Reply 201) ->
                   r = Ok (Reply 201)).
    { intros H. apply replied_fst in H. now rewrite R in H. }
    apply thenWrites_inv in T as [(done & e & Hlt & -> & S & Hs)|(w1 & S & Hs & Hn)].
    + exists (Setting.id row), done. split; [exact Hs|].
      intros H. apply Hfst in H. discriminate.
    + exists (Setting.id row), (List.length (settingWrites (body request))).
      pose proof (after_writes_db (body request) w1) as D. cbv zeta in D.
      rewrite Hn in D. cbn [fst snd] in D. rewrite firstn_all.
      split; [now rewrite D, Hs|]. intros _. split; [reflexivity|].
      exists row. now rewrite L.
Qed.

(** X13. When [saveSettings] replies 201, its two to four update calls
    amount to one update of the first settings row with the id
    [listSettings] gave: each flag is the submitted one, or the old one
    when the request leaves it out; [DNSServers] and
    [proxyDefaultRedirect] likewise; [fqdn] is the submitted one when that
    is non-empty and the old one otherwise; [minPort] and [maxPort] are
    the submitted ones when both are submitted and non-zero, and the old
    ones otherwise. *)
Theorem saveSettings_amounts_to_one_update (request : Request SaveSettings.Body unit)
    (w : World) :
  fst (saveSettings request w) = Ok (Reply 201) ->
  let b := body request in
  let both := Js.truthyNum (SaveSettings.minPort b) && Js.truthyNum (SaveSettings.maxPort b) in
  (exists row,
     fst (listSettings (db w) (ext w)) = Ok (Some row)
     /\ settings (db (snd (saveSettings request w)))
        = updateFirst (settingId (Setting.id row)) (settingAfter b) (settings (db w)))
  /\ forall s,
       settingAfter b s =
       {| Setting.id := Setting.id s;
          Setting.fqdn := if Js.truthyOpt (SaveSettings.fqdn b) then SaveSettings.fqdn b
                          else Setting.fqdn s;
          Setting.doNotTrack := orKeep (SaveSettings.doNotTrack b) (Setting.doNotTrack s);
          Setting.isRegistrationEnabled :=
            orKeep (SaveSettings.isRegistrationEnabled b) (Setting.isRegistrationEnabled s);
          Setting.dualCerts := orKeep (SaveSettings.dualCerts b) (Setting.dualCerts s);
          Setting.isAutoUpdateEnabled :=
            orKeep (SaveSettings.isAutoUpdateEnabled b) (Setting.isAutoUpdateEnabled s);
          Setting.isDNSCheckEnabled :=
            orKeep (SaveSettings.isDNSCheckEnabled b) (Setting.isDNSCheckEnabled s);
          Setting.DNSServers :=
            orKeepNullable (SaveSettings.DNSServers b) (Setting.DNSServers s);
          Setting.isAPIDebuggingEnabled :=
            orKeep (SaveSettings.isAPIDebuggingEnabled b) (Setting.isAPIDebuggingEnabled s);
          Setting.proxyDefaultRedirect :=
            orKeepNullable (SaveSettings.proxyDefaultRedirect b)
              (Setting.proxyDefaultRedirect s);
          Setting.minPort := if both then orKeep (SaveSettings.minPort b) (Setting.minPort s)
                             else Setting.minPort s;
          Setting.maxPort := if both then orKeep (SaveSettings.maxPort b) (Setting.maxPort s)
                             else Setting.maxPort s |}.
Proof.
  intros H. cbv zeta. split.
  - destruct (saveSettings_run request w) as (id & done & Hs & Hok).
    destruct (Hok H) as (-> & row & L & <-). exists row. split; [exact L|].
    rewrite Hs, firstn_all. unfold settingAfter.
    apply applyWrites_one. apply settingWrites_keep_id.
  - intros s. unfold settingAfter, settingWrites.
    destruct (Js.truthyOpt (SaveSettings.fqdn (body request)));
      destruct (Js.truthyNum (SaveSettings.minPort (body request))
                && Js.truthyNum (SaveSettings.maxPort (body request)));
      reflexivity.
Qed.

(** X14. In every run of [saveSettings], also a failing one: no settings
    row is added, removed or given another id; a request with no [fqdn]
    (or an empty one) leaves the [fqdn] of every row as it is, so
    [saveSettings] never clears the domain; and unless [minPort] and
    [maxPort] are both submitted and non-zero, the ports of every row stay
    as they are. *)
Theorem saveSettings_keeps_columns (request : Request SaveSettings.Body unit) (w : World) :
  let b := body request in
  let after := settings (db (snd (saveSettings request w))) in
  map Setting.id after = map Setting.id (settings (db w))
  /\ (Js.truthyOpt (SaveSettings.fqdn b) = false ->
      map Setting.fqdn after = map Setting.fqdn (settings (db w)))
  /\ (Js.truthyNum (SaveSettings.minPort b) && Js.truthyNum (SaveSettings.maxPort b) = false ->
      map Setting.minPort after = map Setting.minPort (settings (db w))
      /\ map Setting.maxPort after = map Setting.maxPort (settings (db w))).
Proof.
  cbv zeta. destruct (saveSettings_run request w) as (id & done & -> & _).
  split; [|split].
  - apply applyWrites_keeps. apply Forall_firstn. apply settingWrites_keep_id.
  - intros Hf. apply applyWrites_keeps. apply Forall_firstn.
    unfold settingWrites. rewrite Hf.
    destruct (Js.truthyNum (SaveSettings.minPort (body request))
              && Js.truthyNum (SaveSettings.maxPort (body request)));
      repeat constructor.
  - intros Hp. split; apply applyWrites_keeps; apply Forall_firstn;
      unfold settingWrites; rewrite Hp;
      destruct (Js.truthyOpt (SaveSettings.fqdn (body request))); repeat constructor.
Qed.

(** *** Saving, then deleting *)

Lemma deleteAll_twice {Row} (m : Row -> bool) (l : list Row) :
  deleteAll m (deleteAll m l) = deleteAll m l.
Proof.
  unfold deleteAll. induction l as [|r l IH]; [reflexivity|]. simpl.
  destruct (m r) eqn:Mr; simpl; [exact IH|]. rewrite Mr. simpl. now rewrite IH.
Qed.

Lemma updateAll_twice {Row} (m : Row -> bool) (f : Row -> Row) (l : list Row) :
  (forall r, f (f r) = f r) -> updateAll m f (updateAll m f l) = updateAll m f l.
Proof.
  intros Hf. unfold updateAll. rewrite map_map. apply map_ext. intros r.
  destruct (m r) eqn:Mr.
  - rewrite Hf. now destruct (m (f r)).
  - now rewrite Mr.
Qed.

(** Deleting by id and team removes a row added last under that id and
    team and nothing else, when no older row carries both. *)
Lemma deleteAll_last {Row} (rowId : Row -> string) (team : Row -> option string)
    (id t : string) (l : list Row) (r : Row) :
  rowId r = id -> team r = Some t ->
  (forall k, In k l -> rowId k = id -> team k <> Some t) ->
  deleteAll (idAndTeam rowId team id t) (l ++ [r]) = l.
Proof.
  intros Hid Ht Hfresh. unfold deleteAll. rewrite filter_app. simpl.
  assert (Hr : idAndTeam rowId team id t r = true) by now apply idAndTeam_spec.
  rewrite Hr. simpl. rewrite app_nil_r.
  induction l as [|k l IH]; [reflexivity|]. simpl.
  destruct (idAndTeam rowId team id t k) eqn:Hk.
  - apply idAndTeam_spec in Hk as [Hk1 Hk2].
    exfalso. exact (Hfresh k (or_introl eq_refl) Hk1 Hk2).
  - simpl. f_equal. apply IH. intros k' Hin. apply Hfresh. now right.
Qed.

(** X15. A key saved and then deleted leaves the store as it was: when
    [saveSSHKey] replied 201 and the store gave the new row the id [id],
    a [deleteSSHKey] for [id] by a user of the same team that replies 201
    brings every table back to what it was before the save, provided no
    older key of that team had the id; the same request from another team
    leaves the new key in place. *)
Theorem saved_key_can_be_deleted (save : Request SaveSSHKey.Body unit)
    (del : Request OnlyIdInBody.Body unit) (w w1 : World) (id : string) (now : Z) :
  saveSSHKey save w = (Ok (Reply 201), w1) ->
  sshKeys (db w1) = sshKeys (db w) ++ [newKeyRow save id now] ->
  OnlyIdInBody.id (body del) = id ->
  (teamId (user del) = teamId (user save) ->
   (forall k, In k (sshKeys (db w)) -> SshKey.id k = id ->
              SshKey.teamId k <> Some (teamId (user save))) ->
   fst (deleteSSHKey del w1) = Ok (Reply 201) ->
   db (snd (deleteSSHKey del w1)) = db w)
  /\ (teamId (user del) <> teamId (user save) ->
      In (newKeyRow save id now) (sshKeys (db (snd (deleteSSHKey del w1))))).
Proof.
  intros Hsave Hkeys Hid.
  apply replied_from_try in Hsave.
  apply saveSSHKey_try_run in Hsave as [[_ (e & He & _)]|(_ & _ & id' & now' & D)];
    [discriminate|].
  pose proof (deleteSSHKey_try_run del w1) as R. cbv zeta in R.
  unfold deleteSSHKey. rewrite tryCatch_db. split.
  - intros Ht Hfresh H201. apply replied_fst in H201.
    destruct R as [(e & He & _)|[_ ->]]; [congruence|].
    rewrite Hkeys, Hid, Ht.
    rewrite (deleteAll_last SshKey.id SshKey.teamId id (teamId (user save))
               (sshKeys (db w)) (newKeyRow save id now) eq_refl eq_refl Hfresh).
    rewrite D. cbn. now destruct (db w).
  - intros Ht.
    assert (Hin : In (newKeyRow save id now) (sshKeys (db w1))).
    { rewrite Hkeys. apply in_or_app. right. now left. }
    destruct R as [(e & _ & ->)|[_ ->]]; [exact Hin|].
    cbn [sshKeys put sshKeyT]. unfold deleteAll. apply filter_In. split; [exact Hin|].
    apply negb_true_iff. apply not_true_iff_false. intros Hm.
    apply idAndTeam_spec in Hm as [_ Hm]. cbn in Hm. congruence.
Qed.

(** Applications the relation has acted on go through another reset as
    they are. *)
Lemma reset_after_the_relation (id t : string) (l kept : list DockerRegistry.t)
    (before apps : list Application.t) :
  referentialAction (filter (idAndTeam DockerRegistry.id DockerRegistry.teamId id t) l) kept
    (updateAll (usesRegistry id) toDefaultRegistry before) = Ok apps ->
  updateAll (usesRegistry id) toDefaultRegistry apps = apps.
Proof.
  intros Q. destruct (String.eqb_spec id "0") as [->|Hid].
  - apply updateAll_fixed. intros [i v] _ Hv. apply usesRegistry_spec in Hv.
    simpl in Hv. subst v. reflexivity.
  - rewrite reset_leaves_nothing_to_the_relation in Q by exact Hid. injection Q as <-.
    now apply updateAll_twice.
Qed.

(** X16. Repeating a delete that replied 201 changes nothing: a second
    [deleteSSHKey], [deleteCertificates] or [deleteDockerRegistry] with the
    same request, however it ends, leaves every table as the first one
    left it. *)
Theorem repeated_delete_changes_nothing (request : Request OnlyIdInBody.Body unit)
    (w w1 : World) :
  (deleteSSHKey request w = (Ok (Reply 201), w1) ->
   db (snd (deleteSSHKey request w1)) = db w1)
  /\ (deleteCertificates request w = (Ok (Reply 201), w1) ->
      db (snd (deleteCertificates request w1)) = db w1)
  /\ (deleteDockerRegistry request w = (Ok (Reply 201), w1) ->
      db (snd (deleteDockerRegistry request w1)) = db w1).
Proof.
  split; [|split]; intros H; apply replied_from_try in H.
  - pose proof (deleteSSHKey_try_run request w) as R. cbv zeta in R. rewrite H in R.
    cbn [fst snd] in R. destruct R as [(e & He & _)|[_ D]]; [discriminate|].
    pose proof (deleteSSHKey_try_run request w1) as R1. cbv zeta in R1.
    unfold deleteSSHKey. rewrite tryCatch_db.
    destruct R1 as [(e & _ & ->)|[_ ->]]; [reflexivity|].
    rewrite D at 2. cbn [sshKeys put sshKeyT]. rewrite deleteAll_twice.
    rewrite D. now destruct (db w).
  - pose proof (deleteCertificates_try_run request w) as R. cbv zeta in R. rewrite H in R.
    cbn [fst snd] in R. destruct R as [(e & He & _)|[_ D]]; [discriminate|].
    pose proof (deleteCertificates_try_run request w1) as R1. cbv zeta in R1.
    unfold deleteCertificates. rewrite tryCatch_db.
    destruct R1 as [(e & _ & ->)|[_ ->]]; [reflexivity|].
    rewrite D at 2. cbn [certificates put certificateT]. rewrite deleteAll_twice.
    rewrite D. now destruct (db w).
  - pose proof (deleteDockerRegistry_try_run request w) as R. cbv zeta in R. rewrite H in R.
    cbn [fst snd] in R. destruct R as [(e & He & _)|(apps & _ & Q & D)]; [discriminate|].
    pose proof (deleteDockerRegistry_try_run request w1) as R1. cbv zeta in R1.
    unfold deleteDockerRegistry. rewrite tryCatch_db.
    assert (A : updateAll (usesRegistry (OnlyIdInBody.id (body request))) toDefaultRegistry
                  (applications (db w1)) = applications (db w1)).
    { rewrite D. cbn [applications put dockerRegistryT applicationT].
      now apply (reset_after_the_relation _ _ _ _ _ _ Q). }
    assert (G : deleteAll (idAndTeam DockerRegistry.id DockerRegistry.teamId
                             (OnlyIdInBody.id (body request)) (teamId (user request)))
                  (dockerRegistries (db w1)) = dockerRegistries (db w1)).
    { rewrite D. cbn [dockerRegistries put dockerRegistryT applicationT].
      apply deleteAll_twice. }
    assert (F : filter (idAndTeam DockerRegistry.id DockerRegistry.teamId
                          (OnlyIdInBody.id (body request)) (teamId (user request)))
                  (dockerRegistries (db w1)) = []).
    { rewrite D. cbn [dockerRegistries put dockerRegistryT applicationT].
      apply filter_none. intros r Hr. unfold deleteAll in Hr.
      apply filter_In in Hr as [_ Hr]. now apply negb_true_iff in Hr. }
    destruct R1 as [(e & _ & [-> | ->])|(apps1 & _ & Q1 & ->)]; [reflexivity| |].
    + rewrite A. now destruct (db w1).
    + rewrite A, F, referentialAction_none in Q1 by reflexivity. injection Q1 as <-.
      rewrite G. now destruct (db w1).
Qed.

End MoreProperties.

(** ** More runs on the lab installation *)

Lemma listAllSettings_scope_witness :
  listAllSettings (X := Lab.externals) (Lab.from "team-a" tt) (Lab.world Lab.tables Lab.quiet)
  = (Ok (Object Lab.listed), Lab.world Lab.tables Lab.quiet)
  /\ (forall k, In k (all_sshKeys Lab.listed) <->
                exists row, In row (sshKeys Lab.tables) /\ SshKey.teamId row = Some "team-a"
                            /\ k = unencryptedKey (X := Lab.externals) row).
Proof.
  split; [reflexivity|].
  exact (proj1 (listAllSettings_scope (X := Lab.externals) (Lab.from "team-a" tt)
                  (Lab.world Lab.tables Lab.quiet) (Lab.world Lab.tables Lab.quiet)
                  Lab.listed eq_refl)).
Defined.


Lemma saveSettings_amounts_to_one_update_witness :
  fst (saveSettings (X := Lab.externals) (Lab.from "team-a" Lab.newSettings)
         (Lab.world Lab.tables Lab.quiet)) = Ok (Reply 201)
  /\ exists row,
       fst (listSettings (Externals := Lab.externals) Lab.tables Lab.quiet) = Ok (Some row)
       /\ settings (db (snd (saveSettings (X := Lab.externals)
                               (Lab.from "team-a" Lab.newSettings)
                               (Lab.world Lab.tables Lab.quiet))))
          = updateFirst (settingId (Setting.id row))
              (settingAfter Lab.newSettings) (settings Lab.tables).
Proof.
  split; [reflexivity|].
  exact (proj1 (saveSettings_amounts_to_one_update (X := Lab.externals)
                  (Lab.from "team-a" Lab.newSettings) (Lab.world Lab.tables Lab.quiet)
                  eq_refl)).
Defined.

Lemma saved_key_can_be_deleted_witness :
  saveSSHKey (X := Lab.externals) Lab.ciKey (Lab.world Lab.tables Lab.quiet)
  = (Ok (Reply 201),
     snd (saveSSHKey (X := Lab.externals) Lab.ciKey (Lab.world Lab.tables Lab.quiet)))
  /\ fst (deleteSSHKey (X := Lab.externals) (Lab.from "team-a" {| OnlyIdInBody.id := "fresh" |})
            (snd (saveSSHKey (X := Lab.externals) Lab.ciKey (Lab.world Lab.tables Lab.quiet))))
     = Ok (Reply 201)
  /\ db (snd (deleteSSHKey (X := Lab.externals)
                (Lab.from "team-a" {| OnlyIdInBody.id := "fresh" |})
                (snd (saveSSHKey (X := Lab.externals) Lab.ciKey
                        (Lab.world Lab.tables Lab.quiet)))))
     = Lab.tables.
Proof.
  split; [reflexivity|]. split; [reflexivity|].
  apply (proj1 (saved_key_can_be_deleted (X := Lab.externals) Lab.ciKey
                  (Lab.from "team-a" {| OnlyIdInBody.id := "fresh" |})
                  (Lab.world Lab.tables Lab.quiet)
                  (snd (saveSSHKey (X := Lab.externals) Lab.ciKey
                          (Lab.world Lab.tables Lab.quiet)))
                  "fresh" 1700000000000 eq_refl eq_refl eq_refl)).
  - reflexivity.
  - intros k [<-|[<-|[]]] H; discriminate H.
  - reflexivity.
Defined.

(** [setDockerRegistry] on the lab: team-a renames the user of its
    registry without a password and the stored password is gone; team-b
    asks the same of team-a's registry, is answered 201 and changes
    nothing. *)
Example setDockerRegistry_runs :
  let ask team : Request SetDefaultRegistry.Body unit :=
    Lab.from team {| SetDefaultRegistry.id := "r1";
                     SetDefaultRegistry.username := Some "deploy";
                     SetDefaultRegistry.password := None |} in
  setDockerRegistry (X := Lab.externals) (ask "team-a") (Lab.world Lab.tables Lab.quiet)
  = (Ok (Reply 201),
     Lab.world
       (put dockerRegistryT Lab.tables
          [Lab.dockerHub; writeCredentials (Some "deploy") "" Lab.teamRegistry])
       Lab.quiet)
  /\ setDockerRegistry (X := Lab.externals) (ask "team-b") (Lab.world Lab.tables Lab.quiet)
     = (Ok (Reply 201), Lab.world Lab.tables Lab.quiet).
Proof. split; reflexivity. Qed.

(** The listener on a map of two services. *)
Example start_service_runs :
  Shell.onStartService {| Shell.serviceId := "b"; Shell.state := 2 |} [("a", 2%Z); ("b", 3%Z)]
  = [("a", 2%Z); ("b", 2%Z)]
  /\ Shell.onStartService {| Shell.serviceId := "a"; Shell.state := 1 |} [("a", 2%Z); ("b", 3%Z)]
     = [("b", 3%Z)]
  /\ Shell.onStartService {| Shell.serviceId := "c"; Shell.state := 0 |} [("a", 2%Z); ("b", 3%Z)]
     = [("a", 2%Z); ("b", 3%Z)].
Proof. repeat split. Qed.

(** A new key that is an array index is listed among the indices, in
    ascending order; any other new key is listed last. *)
Example start_service_key_order :
  Shell.onStartService {| Shell.serviceId := "7"; Shell.state := 2 |}
    [("3", 2%Z); ("10", 2%Z); ("a", 2%Z)]
  = [("3", 2%Z); ("7", 2%Z); ("10", 2%Z); ("a", 2%Z)]
  /\ Shell.onStartService {| Shell.serviceId := "07"; Shell.state := 2 |}
       [("3", 2%Z); ("10", 2%Z); ("a", 2%Z)]
     = [("3", 2%Z); ("10", 2%Z); ("a", 2%Z); ("07", 2%Z)]
  /\ Shell.onStartService {| Shell.serviceId := "cl9x"; Shell.state := 2 |}
       [("3", 2%Z); ("a", 2%Z)]
     = [("3", 2%Z); ("a", 2%Z); ("cl9x", 2%Z)].
Proof. repeat split. Qed.
